(** * get_cbmonitor_data.py: a shallow embedding and its properties

    The script [scripts/get_cbmonitor_data.py] downloads, for a list of
    Jenkins jobs, the console log of each job, scrapes the snapshot id, the
    bucket name and the node addresses out of it, downloads a fixed catalog
    of cbmonitor metric series, reduces each of them to a mean or a maximum
    and writes one JSON file per job and one aggregated CSV file.

    The embedding keeps the shape of the script:
    - Python [str] values are [string]s, with [find], [split], [strip],
      [replace] and the two uses of [re] written as functions on them;
    - Python [float]s are IEEE binary64 numbers ([spec_float] with
      [prec = 53], [emax = 1024]);
    - printing, [urllib2.urlopen] and file output are events of a trace;
      a computation yields the events it performed and either a value or
      the exception that stopped it;
    - what the remote servers answer, what [json.loads] decodes and the
      iteration order of [set] and [dict] objects are the fields of a
      [World]. *)

From Stdlib Require Import ZArith List String Ascii Bool Lia Permutation.
From Stdlib Require Import SpecFloat DecimalString.
Import ListNotations.

Local Open Scope list_scope.
Local Open Scope Z_scope.
Local Open Scope string_scope.

(* ================================================================= *)
(** ** Python strings *)

Module PyStr.

(** [s.startswith(p)], the test every scan below is built on. *)
Fixpoint startswith (p s : string) : bool :=
  match p with
  | EmptyString => true
  | String a p' =>
      match s with
      | EmptyString => false
      | String b s' => if Ascii.eqb a b then startswith p' s' else false
      end
  end.

(** [s.find(sub)]: index of the first occurrence of [sub], [-1] if none. *)
Fixpoint find_from (sub s : string) (i : Z) : Z :=
  if startswith sub s then i
  else match s with
       | EmptyString => -1
       | String _ s' => find_from sub s' (i + 1)
       end.

Definition find (s sub : string) : Z := find_from sub s 0.

(** [s.split(sep)] for a non-empty separator: the pieces between the
    non-overlapping occurrences of [sep], scanning from the left.  [skip]
    counts the characters of an occurrence that are still to be dropped. *)
Fixpoint split_go (sep s : string) (skip : nat) : list string :=
  match s with
  | EmptyString => [EmptyString]
  | String c s' =>
      match skip with
      | S k => split_go sep s' k
      | O =>
          if startswith sep s
          then EmptyString :: split_go sep s' (Nat.pred (String.length sep))
          else match split_go sep s' 0 with
               | h :: t => String c h :: t
               | [] => [String c EmptyString]
               end
      end
  end.

Definition split (s sep : string) : list string := split_go sep s 0.

(** The characters [str.strip()] removes: space, tab, newline, carriage
    return, vertical tab and form feed. *)
Definition isspace (c : ascii) : bool :=
  let n := nat_of_ascii c in
  (Nat.eqb n 32 || (Nat.leb 9 n && Nat.leb n 13))%bool.

Fixpoint lstrip (s : string) : string :=
  match s with
  | EmptyString => EmptyString
  | String c s' => if isspace c then lstrip s' else s
  end.

Fixpoint rstrip (s : string) : string :=
  match s with
  | EmptyString => EmptyString
  | String c s' =>
      match rstrip s' with
      | EmptyString => if isspace c then EmptyString else String c EmptyString
      | r => String c r
      end
  end.

Definition strip (s : string) : string := lstrip (rstrip s).

(** [s.replace(old, new)] for a non-empty [old]. *)
Fixpoint replace_go (old new s : string) (skip : nat) : string :=
  match s with
  | EmptyString => EmptyString
  | String c s' =>
      match skip with
      | S k => replace_go old new s' k
      | O =>
          if startswith old s
          then new ++ replace_go old new s' (Nat.pred (String.length old))
          else String c (replace_go old new s' 0)
      end
  end.

Definition replace (s old new : string) : string := replace_go old new s 0.

(** The script's three regular expressions are a literal followed by
    [.*]; [.] matches every character but the newline.  [upto_newline] is
    what [.*] consumes, [match_at lit s] the text matched when the pattern
    matches at the start of [s]. *)
Definition newline : ascii := ascii_of_nat 10.
#[global] Arguments newline : simpl never.

Fixpoint upto_newline (s : string) : string :=
  match s with
  | EmptyString => EmptyString
  | String c s' => if Ascii.eqb c newline then EmptyString
                   else String c (upto_newline s')
  end.

Fixpoint match_at (lit s : string) : option string :=
  match lit with
  | EmptyString => Some (upto_newline s)
  | String a lit' =>
      match s with
      | EmptyString => None
      | String b s' =>
          if Ascii.eqb a b
          then option_map (String a) (match_at lit' s')
          else None
      end
  end.

(** [re.search(lit + ".*", s)]: [None], or [group(0)] of the leftmost
    match. *)
Fixpoint re_search (lit s : string) : option string :=
  match match_at lit s with
  | Some m => Some m
  | None => match s with
            | EmptyString => None
            | String _ s' => re_search lit s'
            end
  end.

(** [re.findall(lit + ".*", s)]: the non-overlapping matches from left to
    right; after a match the scan resumes where the match ended. *)
Fixpoint findall_go (lit s : string) (skip : nat) : list string :=
  match s with
  | EmptyString =>
      match skip, match_at lit EmptyString with
      | O, Some m => [m]
      | _, _ => []
      end
  | String c s' =>
      match skip with
      | S k => findall_go lit s' k
      | O =>
          match match_at lit s with
          | Some m => m :: findall_go lit s' (Nat.pred (String.length m))
          | None => findall_go lit s' 0
          end
      end
  end.

Definition re_findall (lit s : string) : list string := findall_go lit s 0.

(** Whether [s.decode('utf-8')] succeeds, as the decoder of Python 2.7
    decides it: lead bytes [C2]-[F4] with their continuation bytes, no
    overlong form, no code point beyond [U+10FFFF]; the encoded
    surrogates are let through. *)
Definition continuation (c : ascii) : bool :=
  let n := nat_of_ascii c in (Nat.leb 128 n && Nat.leb n 191)%bool.

Fixpoint utf8_valid (s : string) : bool :=
  match s with
  | EmptyString => true
  | String a s1 =>
      let n := nat_of_ascii a in
      if Nat.ltb n 128 then utf8_valid s1
      else if (Nat.leb 194 n && Nat.leb n 223)%bool then
        match s1 with
        | String b s2 => (continuation b && utf8_valid s2)%bool
        | _ => false
        end
      else if (Nat.leb 224 n && Nat.leb n 239)%bool then
        match s1 with
        | String b (String c s3) =>
            (continuation b && continuation c
             && (negb (Nat.eqb n 224) || Nat.leb 160 (nat_of_ascii b))
             && utf8_valid s3)%bool
        | _ => false
        end
      else if (Nat.leb 240 n && Nat.leb n 244)%bool then
        match s1 with
        | String b (String c (String d s4)) =>
            (continuation b && continuation c && continuation d
             && (negb (Nat.eqb n 240) || Nat.leb 144 (nat_of_ascii b))
             && (negb (Nat.eqb n 244) || Nat.leb (nat_of_ascii b) 143)
             && utf8_valid s4)%bool
        | _ => false
        end
      else false
  end.

End PyStr.

(* ================================================================= *)
(** ** Python floats *)

Module PyFloat.

Definition float := spec_float.

Definition prec : Z := 53.
Definition emax : Z := 1024.

Definition zero : float := S754_zero false.
Definition add : float -> float -> float := SFadd prec emax.
Definition mul : float -> float -> float := SFmul prec emax.
Definition div : float -> float -> float := SFdiv prec emax.
Definition ltb : float -> float -> bool := SFltb.
Definition leb : float -> float -> bool := SFleb.
Definition eqb : float -> float -> bool := SFeqb.

(** The double nearest to an integer (ties to even). *)
Definition of_Z (z : Z) : float := binary_normalize prec emax z 0 false.

Definition is_finite (x : float) : bool :=
  match x with
  | S754_zero _ | S754_finite _ _ _ => true
  | _ => false
  end.

(** ['{:.2f}'.format(x)]: the decimal expansion of [x] rounded to two
    places, ties to even on the exact binary value. *)
Definition round_half_even (num den : Z) : Z :=
  let q := num / den in
  let r := num mod den in
  match 2 * r ?= den with
  | Lt => q
  | Gt => q + 1
  | Eq => if Z.even q then q else q + 1
  end.

Definition hundredths (m : positive) (e : Z) : Z :=
  match e with
  | Zneg p => round_half_even (Zpos m * 100) (2 ^ Zpos p)
  | _ => Zpos m * 100 * 2 ^ e
  end.

Definition digits (n : Z) : string :=
  NilZero.string_of_uint (N.to_uint (Z.to_N n)).

Definition two_digits (n : Z) : string :=
  if (n <? 10)%Z then "0" ++ digits n else digits n.

Definition fixed2 (sign : bool) (h : Z) : string :=
  (if sign then "-" else "") ++ digits (h / 100) ++ "." ++ two_digits (h mod 100).

Definition format_2f (x : float) : string :=
  match x with
  | S754_nan => "nan"
  | S754_infinity s => if s then "-inf" else "inf"
  | S754_zero s => fixed2 s 0
  | S754_finite s m e => fixed2 s (hundredths m e)
  end.

End PyFloat.

(** [repr(s)] of a byte string and [str] of a list or a set of byte
    strings, as the script prints them. *)
Module PyRepr.

Definition hex_digit (n : nat) : ascii :=
  ascii_of_nat (if Nat.ltb n 10 then 48 + n else 87 + n).

Definition has_char (c : ascii) (s : string) : bool :=
  existsb (Ascii.eqb c) (list_ascii_of_string s).

Definition squote : ascii := ascii_of_nat 39.
Definition dquote : ascii := ascii_of_nat 34.
Definition backslash : ascii := ascii_of_nat 92.

Definition quote_of (s : string) : ascii :=
  if (has_char squote s && negb (has_char dquote s))%bool then dquote else squote.

Definition escape (q c : ascii) : string :=
  let n := nat_of_ascii c in
  if (Ascii.eqb c q || Ascii.eqb c backslash)%bool
  then String backslash (String c EmptyString)
  else if Nat.eqb n 9 then String backslash "t"
  else if Nat.eqb n 10 then String backslash "n"
  else if Nat.eqb n 13 then String backslash "r"
  else if (Nat.ltb n 32 || Nat.leb 127 n)%bool
       then String backslash
              (String "x" (String (hex_digit (n / 16))
                             (String (hex_digit (n mod 16)) EmptyString)))
  else String c EmptyString.

Definition repr (s : string) : string :=
  let q := quote_of s in
  String q (String.concat "" (map (escape q) (list_ascii_of_string s)))
  ++ String q EmptyString.

Definition str_of_list (l : list string) : string :=
  "[" ++ String.concat ", " (map repr l) ++ "]".

Definition str_of_set (l : list string) : string :=
  "set(" ++ str_of_list l ++ ")".

End PyRepr.

(* ================================================================= *)
(** ** Values, exceptions and effects *)

(** What [json.loads] returns. *)
#[warnings="-register-all"]
Inductive json : Type :=
| JNull
| JBool (b : bool)
| JInt (z : Z)
| JFloat (x : PyFloat.float)
| JString (s : string)
| JArray (items : list json)
| JObject (members : list (string * json)).

(** The exceptions the script can end with.  [Exception] is the one
    [downloadData] raises itself; [LibraryError] stands for any exception
    of [urllib2], [httplib] or [socket] other than [URLError], which the
    script never catches; [UnicodeDecodeError] is what [json.dumps] raises
    on a byte string that is not UTF-8. *)
Inductive exn : Type :=
| Exception (msg : string)
| LibraryError (name : string)
| UnicodeDecodeError
| ValueError
| TypeError
| IndexError
| KeyError
| OverflowError
| ZeroDivisionError
| AttributeError
| NameError (name : string)
| SystemExit.

(** The answer to one [urlopen(url, timeout=10)] followed by [read()]:
    the body, a [URLError] (given by its [repr]), or another failure. *)
Inductive response : Type :=
| Body (text : string)
| URLError (repr : string)
| OtherFailure (name : string).

(** A job record: the dict literal of the main loop, in source order. *)
Definition dict : Type := list (string * string).

(** What is written to a file: [json.dumps(d)], or one row handed to the
    [csv] writer.  The byte-level rendering is the library's. *)
Inductive chunk : Type :=
| JsonDumps (d : dict)
| CsvRow (cells : list string).

Inductive event : Type :=
| Print (line : string)
| Fetch (url : string)
| FileOpen (path : string)
| FileWrite (path : string) (c : chunk)
| FileClose (path : string).

Inductive outcome (A : Type) : Type :=
| Return (a : A)
| Raise (e : exn).
Arguments Return {A} a.
Arguments Raise {A} e.

(** A computation: the events performed, then a value or an exception. *)
Definition M (A : Type) : Type := list event * outcome A.

Definition ret {A} (a : A) : M A := ([], Return a).
Definition raise {A} (e : exn) : M A := ([], Raise e).
Definition emit (ev : event) : M unit := ([ev], Return tt).

Definition bind {A B} (m : M A) (f : A -> M B) : M B :=
  match m with
  | (t, Return a) => let (t', r) := f a in ((t ++ t')%list, r)
  | (t, Raise e) => (t, Raise e)
  end.

Declare Scope py_scope.
Delimit Scope py_scope with py.
Notation "x <- m ;; k" := (bind m (fun x => k))
  (at level 61, m at next level, right associativity) : py_scope.
Notation "m ;; k" := (bind m (fun _ => k))
  (at level 61, right associativity) : py_scope.
Local Open Scope py_scope.

Definition trace {A} (m : M A) : list event := fst m.
Definition result {A} (m : M A) : outcome A := snd m.

Definition print (line : string) : M unit := emit (Print line).

(** A [for] loop that updates an accumulator. *)
Fixpoint foldM {A B} (f : B -> A -> M B) (l : list A) (b : B) : M B :=
  match l with
  | [] => ret b
  | a :: l' => b' <- f b a ;; foldM f l' b'
  end.

(** A [for] loop that appends to a list. *)
Fixpoint mapM {A B} (f : A -> M B) (l : list A) : M (list B) :=
  match l with
  | [] => ret []
  | a :: l' => b <- f a ;; bs <- mapM f l' ;; ret (b :: bs)
  end.

(** [l\[i\]] on a list. *)
Definition index {A} (l : list A) (i : nat) : M A :=
  match nth_error l i with
  | Some a => ret a
  | None => raise IndexError
  end.

(** The content of the file at [path] after the events [t], starting from
    [cur]: [open(path, "wb")] creates or truncates, [write] appends. *)
Fixpoint file_content (path : string) (t : list event)
    (cur : option (list chunk)) : option (list chunk) :=
  match t with
  | [] => cur
  | FileOpen p :: t' =>
      file_content path t' (if String.eqb p path then Some [] else cur)
  | FileWrite p c :: t' =>
      file_content path t'
        (if String.eqb p path then option_map (fun l => (l ++ [c])%list) cur else cur)
  | _ :: t' => file_content path t' cur
  end.

Definition file_after (t : list event) (path : string) : option (list chunk) :=
  file_content path t None.

Definition fetched (t : list event) : list string :=
  flat_map (fun ev => match ev with Fetch u => [u] | _ => [] end) t.

(** The environment of a run.  A server answers a URL the same way every
    time it is asked during the run, and opening a file for writing in the
    output directory succeeds. *)
Record World : Type := {
  (** the servers: what [urlopen(url)] and [read()] give *)
  urlopen : string -> response;
  (** [json.loads]; [None] is its [ValueError] *)
  json_loads : string -> option json;
  (** [float] on a string; [None] is its [ValueError] *)
  float_of_str : string -> option PyFloat.float;
  (** the order in which [set(l)] is iterated *)
  set_order : list string -> list string;
  (** the order in which a dict with the given keys lists them *)
  dict_order : list string -> list string
}.

(** A [set] holds each element of the list once. *)
Definition set_like (order : list string -> list string) : Prop :=
  forall l, NoDup (order l) /\ forall x, In x (order l) <-> In x l.

(** A dict lists exactly its keys. *)
Definition keys_like (order : list string -> list string) : Prop :=
  forall l x, In x (order l) <-> In x l.

(* ================================================================= *)
(** ** The script *)

Section Script.

Variable w : World.

Definition urlopen_error_prefix : string :=
  "'urlopen' error, url not correct or user not connected to VPN: ".

(** Lines 35-44. *)
Definition downloadData (url : string) : M string :=
  print ("downloading: " ++ url) ;;
  emit (Fetch url) ;;
  match urlopen w url with
  | URLError e => raise (Exception (urlopen_error_prefix ++ e))
  | OtherFailure name => raise (LibraryError name)
  | Body text => ret text
  end.

Definition loads (text : string) : M json :=
  match json_loads w text with
  | Some j => ret j
  | None => raise ValueError
  end.

(** [json.dumps(d)] of a dict of byte strings: every key and every value
    is decoded as UTF-8 before it is escaped, and one that cannot be
    decoded is a [UnicodeDecodeError]. *)
Definition dumps (d : dict) : M chunk :=
  if forallb (fun kv => (PyStr.utf8_valid (fst kv)
                         && PyStr.utf8_valid (snd kv))%bool) d
  then ret (JsonDumps d)
  else raise UnicodeDecodeError.

(** [for x in v]: the elements of an array, the characters of a string,
    the keys of an object. *)
Definition iterate (v : json) : M (list json) :=
  match v with
  | JArray items => ret items
  | JString s =>
      ret (map (fun c => JString (String c EmptyString)) (list_ascii_of_string s))
  | JObject members => ret (map JString (dict_order w (map fst members)))
  | _ => raise TypeError
  end.

(** [len(v)]. *)
Definition len (v : json) : M Z :=
  match v with
  | JArray items => ret (Z.of_nat (List.length items))
  | JString s => ret (Z.of_nat (String.length s))
  | JObject members => ret (Z.of_nat (List.length members))
  | _ => raise TypeError
  end.

(** [v\[1\]]. *)
Definition item1 (v : json) : M json :=
  match v with
  | JArray items => index items 1
  | JString s => c <- index (list_ascii_of_string s) 1 ;;
                 ret (JString (String c EmptyString))
  | JObject _ => raise KeyError
  | _ => raise TypeError
  end.

(** [float(v)]. *)
Definition to_float (v : json) : M PyFloat.float :=
  match v with
  | JInt z => let x := PyFloat.of_Z z in
              if PyFloat.is_finite x then ret x else raise OverflowError
  | JFloat x => ret x
  | JBool b => ret (PyFloat.of_Z (if b then 1 else 0))
  | JString s => match float_of_str w s with
                 | Some x => ret x
                 | None => raise ValueError
                 end
  | _ => raise TypeError
  end.

(** [x / n] for a float [x] and an integer [n]. *)
Definition truediv (x : PyFloat.float) (n : Z) : M PyFloat.float :=
  if (n =? 0)%Z then raise ZeroDivisionError
  else ret (PyFloat.div x (PyFloat.of_Z n)).

(** Lines 47-52. *)
Definition getAverage (url : string) : M PyFloat.float :=
  text <- downloadData url ;;
  pairs <- loads text ;;
  items <- iterate pairs ;;
  accumulator <- foldM (fun accumulator pair =>
                          v <- item1 pair ;;
                          x <- to_float v ;;
                          ret (PyFloat.add accumulator x))
                       items PyFloat.zero ;;
  n <- len pairs ;;
  truediv accumulator n.

(** Lines 55-59. *)
Definition getAverageFromList (urls : list string) (per_single_node : bool)
  : M PyFloat.float :=
  accumulator <- foldM (fun accumulator url =>
                          a <- getAverage url ;;
                          ret (PyFloat.add accumulator a))
                       urls PyFloat.zero ;;
  if per_single_node
  then truediv accumulator (Z.of_nat (List.length urls))
  else ret accumulator.

(** Lines 62-69. *)
Definition getMax (url : string) : M PyFloat.float :=
  text <- downloadData url ;;
  pairs <- loads text ;;
  items <- iterate pairs ;;
  foldM (fun maximum pair =>
           v <- item1 pair ;;
           value <- to_float v ;;
           ret (if PyFloat.ltb maximum value then value else maximum))
        items PyFloat.zero.

Definition tab : ascii := ascii_of_nat 9.

Definition usage : string :=
  "Usage: python get_cbmonitor_data.py --job_list "
  ++ "<project1>:<number1>[:'<label1>'] [<project2>:<number2> ..] "
  ++ "--output_dir <output_dir> "
  ++ String PyStr.newline (String tab
       ("(e.g., python get_cbmonitor_data.py --job_list "
        ++ "hera-pl:60:'RocksDB low OPS' hera-pl:67 hera-pl:83 --output_dir . )")).

(** Line 100: [1.0/(1024*1024)]. *)
Definition byteToMBConversionFactor : PyFloat.float :=
  PyFloat.div (PyFloat.of_Z 1) (PyFloat.of_Z (1024 * 1024)).

Definition host : string := "http://cbmonitor.sc.couchbase.com:8080".

Definition banner : string := "**************************************".

(** The module-level variables the main loop assigns: the list
    [data_list], and [data], unbound until a job record is built. *)
Record Vars : Type := {
  data_list : list dict;
  data : option dict
}.

(** [m.group(0)] on the result of [re.search]. *)
Definition group0 (m : option string) : M string :=
  match m with
  | Some text => ret text
  | None => raise AttributeError
  end.

Definition console_url (project number : string) : string :=
  "http://perf.jenkins.couchbase.com/job/" ++ project ++ "/" ++ number
  ++ "/consoleText".

(** Line 126. *)
Definition scrape_snapshot (consoleText : string) : M string :=
  m <- group0 (PyStr.re_search "snapshot=" consoleText) ;;
  index (PyStr.split m "=") 1.

(** Lines 136-141: the list the set is built from. *)
Definition scrape_nodes (consoleText : string) : M (list string) :=
  mapM (fun m => a <- index (PyStr.split m "from") 1 ;;
                 ret (PyStr.replace (PyStr.strip a) "." ""))
       (PyStr.re_findall "Getting memcached port from" consoleText).

(** Lines 148-151. *)
Definition scrape_bucket (consoleText : string) : M string :=
  m <- group0 (PyStr.re_search "Adding new bucket" consoleText) ;;
  b <- index (PyStr.split m ":") 1 ;;
  ret (PyStr.strip b).

Definition fmt (x : PyFloat.float) : string := PyFloat.format_2f x.

Definition toMB (x : PyFloat.float) : PyFloat.float :=
  PyFloat.mul x byteToMBConversionFactor.

(** Lines 156-241: the URL catalog and the dict literal, its values
    evaluated in source order. *)
Definition build_data (project number label snapshot bucket : string)
    (nodes : list string) (hasLatency : bool) : M dict :=
  let base_url_ns_server := host ++ "/" ++ "ns_server" ++ snapshot ++ bucket in
  let base_url_spring_latency :=
    host ++ "/" ++ "spring_latency" ++ snapshot ++ bucket in
  let ops := host ++ "/" ++ "ns_server" ++ snapshot ++ "/ops" in
  let latency_get := base_url_spring_latency ++ "/latency_get" in
  let latency_set := base_url_spring_latency ++ "/latency_set" in
  let avg_bg_wait_time := base_url_ns_server ++ "/avg_bg_wait_time" in
  let avg_disk_commit_time := base_url_ns_server ++ "/avg_disk_commit_time" in
  let avg_disk_update_time := base_url_ns_server ++ "/avg_disk_update_time" in
  let base_url_iostat node := host ++ "/" ++ "iostat" ++ snapshot ++ node in
  let data_rps := map (fun node => base_url_iostat node ++ "/data_rps") nodes in
  let data_wps := map (fun node => base_url_iostat node ++ "/data_wps") nodes in
  let data_rbps := map (fun node => base_url_iostat node ++ "/data_rbps") nodes in
  let data_wbps := map (fun node => base_url_iostat node ++ "/data_wbps") nodes in
  let couch_total_disk_size := base_url_ns_server ++ "/couch_total_disk_size" in
  let base_url_atop := host ++ "/" ++ "atop" ++ snapshot in
  let memcached_rss :=
    map (fun node => base_url_atop ++ node ++ "/memcached_rss") nodes in
  let mem_used := base_url_ns_server ++ "/mem_used" in
  let memcached_cpu :=
    map (fun node => base_url_atop ++ node ++ "/memcached_cpu") nodes in
  v_ops <- getAverage ops ;;
  v_latency_set <- (if hasLatency
                    then x <- getAverage latency_set ;; ret (fmt x)
                    else ret "N/A") ;;
  v_latency_get <- (if hasLatency
                    then x <- getAverage latency_get ;; ret (fmt x)
                    else ret "N/A") ;;
  v_update <- getAverage avg_disk_update_time ;;
  v_commit <- getAverage avg_disk_commit_time ;;
  v_bg_wait <- getAverage avg_bg_wait_time ;;
  v_rps <- getAverageFromList data_rps true ;;
  v_wps <- getAverageFromList data_wps true ;;
  v_rbps <- getAverageFromList data_rbps true ;;
  v_wbps <- getAverageFromList data_wbps true ;;
  v_disk <- getAverage couch_total_disk_size ;;
  v_max_disk <- getMax couch_total_disk_size ;;
  v_mem_used <- getAverage mem_used ;;
  v_rss <- getAverageFromList memcached_rss false ;;
  v_cpu <- getAverageFromList memcached_cpu true ;;
  ret [ ("job", project ++ ":" ++ number);
        ("label", label);
        ("snapshot", snapshot);
        ("ops", fmt v_ops);
        ("latency_set", v_latency_set);
        ("latency_get", v_latency_get);
        ("avg_disk_update_time (us)", fmt v_update);
        ("avg_disk_commit_time (s)", fmt v_commit);
        ("avg_bg_wait_time (us)", fmt v_bg_wait);
        ("data_rps", fmt v_rps);
        ("data_wps", fmt v_wps);
        ("data_rbps (MB/s)", fmt (toMB v_rbps));
        ("data_wbps (MB/s)", fmt (toMB v_wbps));
        ("couch_total_disk_size (MB)", fmt (toMB v_disk));
        ("max couch_total_disk_size (MB)", fmt (toMB v_max_disk));
        ("mem_used (MB)", fmt (toMB v_mem_used));
        ("memcached_rss (MB, all nodes)", fmt (toMB v_rss));
        ("memcached_cpu", fmt v_cpu) ].

Definition json_path (output_dir project number : string) : string :=
  output_dir ++ "/" ++ project ++ "-" ++ number ++ ".json".

(** Lines 126-250: a job whose log has the snapshot marker.  The file is
    opened on line 247 before [json.dumps(data)] is evaluated on line
    248. *)
Definition process_job (output_dir project number label consoleText : string)
    (vars : Vars) : M Vars :=
  snapshot <- scrape_snapshot consoleText ;;
  print ("snapshot: " ++ snapshot) ;;
  node_list <- scrape_nodes consoleText ;;
  let nodes := set_order w node_list in
  print ("nodes: " ++ PyRepr.str_of_set nodes) ;;
  bucket <- scrape_bucket consoleText ;;
  print ("bucket: " ++ bucket) ;;
  let hasLatency := negb (PyStr.find consoleText "spring_latency" =? -1)%Z in
  d <- build_data project number label snapshot bucket nodes hasLatency ;;
  let json_file := json_path output_dir project number in
  emit (FileOpen json_file) ;;
  text <- dumps d ;;
  emit (FileWrite json_file text) ;;
  emit (FileClose json_file) ;;
  print ("Data written to " ++ json_file) ;;
  ret {| data_list := (data_list vars ++ [d])%list; data := Some d |}.

(** Lines 107-250: one iteration of the main loop. *)
Definition job_body (output_dir job : string) (vars : Vars) : M Vars :=
  print banner ;;
  print ("Job: " ++ job) ;;
  print banner ;;
  let array := PyStr.split job ":" in
  if (List.length array <? 2)%nat
  then print usage ;; raise SystemExit
  else
    let project := nth 0 array "" in
    let number := nth 1 array "" in
    let label := if (List.length array =? 3)%nat then nth 2 array "" else "" in
    consoleText <- downloadData (console_url project number) ;;
    if (PyStr.find consoleText "snapshot=" =? -1)%Z
    then
      print ("Snapshot not found for job" ++ job
             ++ ", probably the job has been aborted. Skipping..") ;;
      ret vars
    else process_job output_dir project number label consoleText vars.

(** Lines 106-250. *)
Definition main_loop (output_dir : string) (job_list : list string)
    (vars : Vars) : M Vars :=
  foldM (fun vars job => job_body output_dir job vars) job_list vars.

Definition keys (d : dict) : list string := dict_order w (map fst d).

Definition get (d : dict) (key default : string) : string :=
  match find (fun kv => String.eqb (fst kv) key) d with
  | Some kv => snd kv
  | None => default
  end.

(** [DictWriter._dict_to_list]: a key outside the field names is a
    [ValueError]; a missing field is written as the empty string. *)
Definition dict_to_list (fieldnames : list string) (rowdict : dict)
  : M (list string) :=
  if forallb (fun k => existsb (String.eqb k) fieldnames) (keys rowdict)
  then ret (map (fun key => get rowdict key "") fieldnames)
  else raise ValueError.

Definition csv_path (output_dir : string) : string :=
  output_dir ++ "/" ++ "data.csv".

(** Lines 253-260. *)
Definition write_csv (output_dir : string) (vars : Vars) : M unit :=
  let csv_file := csv_path output_dir in
  emit (FileOpen csv_file) ;;
  d <- match data vars with
       | Some d => ret d
       | None => raise (NameError "data")
       end ;;
  let fieldnames := keys d in
  emit (FileWrite csv_file (CsvRow fieldnames)) ;;
  foldM (fun _ rowdict =>
           row <- dict_to_list fieldnames rowdict ;;
           emit (FileWrite csv_file (CsvRow row)))
        (data_list vars) tt ;;
  emit (FileClose csv_file) ;;
  print ("Aggregated data for all jobs written to " ++ csv_file).

(** Lines 93-260, once both arguments are known. *)
Definition main (job_list : list string) (output_dir : string) : M unit :=
  print ("Job list: " ++ PyRepr.str_of_list job_list) ;;
  print ("Output dir: " ++ output_dir) ;;
  vars <- main_loop output_dir job_list {| data_list := []; data := None |} ;;
  write_csv output_dir vars.

(** Lines 87-91: without [--job_list] or [--output_dir] the script prints
    its usage and exits. *)
Definition script (job_list : option (list string)) (output_dir : option string)
  : M unit :=
  match job_list, output_dir with
  | Some jobs, Some dir => main jobs dir
  | _, _ => print usage ;; raise SystemExit
  end.

End Script.

(* ================================================================= *)
(** ** Metric series *)

(** A metric series as the metrics service sends it: a JSON array of
    [\[timestamp, value\]] pairs of numbers. *)
Inductive number : Type :=
| Int (z : Z)
| Float (x : PyFloat.float).

Definition series : Type := list (number * number).

Definition number_json (n : number) : json :=
  match n with
  | Int z => JInt z
  | Float x => JFloat x
  end.

Definition series_json (s : series) : json :=
  JArray (map (fun p => JArray [number_json (fst p); number_json (snd p)]) s).

(** The double a number stands for. *)
Definition number_value (n : number) : PyFloat.float :=
  match n with
  | Int z => PyFloat.of_Z z
  | Float x => x
  end.

(** The second elements of the pairs. *)
Definition values (s : series) : list PyFloat.float :=
  map (fun p => number_value (snd p)) s.

(** An integer beyond the range of a double cannot be converted. *)
Definition convertible (n : number) : bool :=
  match n with
  | Int z => PyFloat.is_finite (PyFloat.of_Z z)
  | Float _ => true
  end.

Definition well_formed (s : series) : bool :=
  forallb (fun p => convertible (snd p)) s.

(** Sum and mean of doubles, added from left to right as a loop does. *)
Definition float_sum (vs : list PyFloat.float) : PyFloat.float :=
  fold_left PyFloat.add vs PyFloat.zero.

Definition float_mean (vs : list PyFloat.float) : PyFloat.float :=
  PyFloat.div (float_sum vs) (PyFloat.of_Z (Z.of_nat (List.length vs))).

(** [r] is the maximum observed value of [vs]: no element is greater, and
    [r] equals one of them. *)
Definition maximum_of (r : PyFloat.float) (vs : list PyFloat.float) : Prop :=
  (forall v, In v vs -> PyFloat.ltb r v = false) /\
  (exists u, In u vs /\ PyFloat.eqb r u = true).

(** Integers in doubles.  [pshift p j] is [p] shifted to the left by [j]
    bits, [normal s c] the double for the integer of sign [s] and
    magnitude [c] below [2^53]: its mantissa is [c] shifted to 53 bits. *)
Definition pshift (p : positive) (j : Z) : positive :=
  match j with
  | Zpos k => Pos.iter xO p k
  | _ => p
  end.

Definition normal (s : bool) (c : positive) : PyFloat.float :=
  S754_finite s (pshift c (53 - Zpos (digits2_pos c))) (Zpos (digits2_pos c) - 53).

Definition signed (s : bool) (c : positive) : Z := if s then Zneg c else Zpos c.

(** The integers are small, and so is every partial sum of theirs from
    [acc] on: below [2^53] in magnitude. *)
Fixpoint small_from (acc : Z) (zs : list Z) : bool :=
  match zs with
  | [] => true
  | z :: zs' =>
      ((Z.abs z <? 2 ^ 53)%Z && (Z.abs (acc + z) <? 2 ^ 53)%Z
       && small_from (acc + z) zs')%bool
  end.

Definition small_sums (zs : list Z) : bool := small_from 0 zs.

Definition int_sum (zs : list Z) : Z := fold_left Z.add zs 0%Z.

(** The events of one download. *)
Definition download_events (url : string) : list event :=
  [Print ("downloading: " ++ url); Fetch url].

(* ================================================================= *)
(** ** Console logs *)

Fixpoint all_chars (P : ascii -> bool) (s : string) : bool :=
  match s with
  | EmptyString => true
  | String c s' => (P c && all_chars P s')%bool
  end.

Fixpoint has_char (c : ascii) (s : string) : bool :=
  match s with
  | EmptyString => false
  | String c' s' => (Ascii.eqb c c' || has_char c s')%bool
  end.

Definition differs (c : ascii) : ascii -> bool := fun x => negb (Ascii.eqb x c).

(** A snapshot id or a bucket name: no white space, no [=], no [:]. *)
Definition token (s : string) : bool :=
  all_chars (fun c => (negb (PyStr.isspace c) && differs "=" c && differs ":" c)%bool) s.

(** An address: digits and dots. *)
Definition is_digit (c : ascii) : bool :=
  let n := nat_of_ascii c in (Nat.leb 48 n && Nat.leb n 57)%bool.

Definition dotted (s : string) : bool :=
  all_chars (fun c => (is_digit c || Ascii.eqb c ".")%bool) s.

(** The address with its dots removed. *)
Fixpoint without_dots (s : string) : string :=
  match s with
  | EmptyString => EmptyString
  | String c s' => if Ascii.eqb c "." then without_dots s'
                   else String c (without_dots s')
  end.

Definition unlines (l : list string) : string :=
  String.concat (String PyStr.newline EmptyString) l.

(** The lines of a console log: the three kinds the script looks for,
    each with what precedes the marker on the line ([stamp]: a time stamp,
    the start of a URL, any text) and the value after it, and any other
    line. *)
Inductive entry : Type :=
| Snapshot (stamp X : string)
| Bucket (stamp B : string)
| Node (stamp ip : string)
| Other (text : string).

Definition render (e : entry) : string :=
  match e with
  | Snapshot stamp X => stamp ++ "snapshot=" ++ X
  | Bucket stamp B => stamp ++ "Adding new bucket: " ++ B
  | Node stamp ip => stamp ++ "Getting memcached port from " ++ ip
  | Other text => text
  end.

Definition log_of (es : list entry) : string := unlines (map render es).

(** What precedes the marker of a line: any text without a newline in
    which the marker does not occur earlier, so that the marker of the
    line is its first occurrence on the line.  A time stamp such as
    [2018-01-16T11:35:11 \[INFO\] ] is one, and so is the start of a URL
    such as [http://cbmonitor.sc.couchbase.com/reports/html/?]. *)
Definition stamp_ok (marker stamp : string) : bool :=
  (all_chars (differs PyStr.newline) stamp
   && (PyStr.find (stamp ++ marker) marker
       =? Z.of_nat (String.length stamp))%Z)%bool.

(** The marker does not occur in the line. *)
Definition lacks (marker line : string) : bool :=
  (PyStr.find line marker =? -1)%Z.

(** A line holds one of the three markers at most.  The value after the
    marker runs to the end of the line; a snapshot id and a bucket name are
    tokens, an address is digits and dots. *)
Definition valid (e : entry) : bool :=
  match e with
  | Snapshot stamp X =>
      (stamp_ok "snapshot=" stamp && token X
       && lacks "Adding new bucket" (render e)
       && lacks "Getting memcached port from" (render e))%bool
  | Bucket stamp B =>
      (stamp_ok "Adding new bucket" stamp && token B
       && lacks "snapshot=" (render e)
       && lacks "Getting memcached port from" (render e))%bool
  | Node stamp ip =>
      (stamp_ok "Getting memcached port from" stamp && dotted ip
       && lacks "snapshot=" (render e)
       && lacks "Adding new bucket" (render e))%bool
  | Other text =>
      (all_chars (differs PyStr.newline) text
       && lacks "snapshot=" text
       && lacks "Adding new bucket" text
       && lacks "Getting memcached port from" text)%bool
  end.

Definition snapshots (es : list entry) : list string :=
  flat_map (fun e => match e with Snapshot _ X => [X] | _ => [] end) es.

Definition buckets (es : list entry) : list string :=
  flat_map (fun e => match e with Bucket _ B => [B] | _ => [] end) es.

Definition addresses (es : list entry) : list string :=
  flat_map (fun e => match e with Node _ ip => [ip] | _ => [] end) es.

Fixpoint first_some {A} (l : list (option A)) : option A :=
  match l with
  | [] => None
  | Some a :: _ => Some a
  | None :: l' => first_some l'
  end.

(** A console log with the three kinds of lines the script looks for. *)
Definition console_log (snapshot bucket : string) (ips : list string) : string :=
  unlines (("snapshot=" ++ snapshot)
           :: ("Adding new bucket: " ++ bucket)
           :: map (fun ip => "Getting memcached port from " ++ ip) ips).

(* ================================================================= *)
(** ** Runs and what they leave behind *)

(** The loop of [getMax] on the values themselves. *)
Definition max_step (maximum value : PyFloat.float) : PyFloat.float :=
  if PyFloat.ltb maximum value then value else maximum.

(** The metrics service answers [url] with the series [s]. *)
Definition serves (w : World) (url : string) (s : series) : Prop :=
  exists text, urlopen w url = Body text /\
               json_loads w text = Some (series_json s) /\
               well_formed s = true.

Definition example_series : series :=
  [(Int 0, Int 2); (Int 1, Int 4); (Int 2, Int 6)].

(** One URL of a list handed to [getAverageFromList]: it is answered with
    a non-empty series of numbers. *)
Definition serves_some (w : World) (url : string) (s : series) : Prop :=
  serves w url s /\ s <> [].

Definition series_mean (s : series) : PyFloat.float := float_mean (values s).

(** The exception a download ends with, if any. *)
Definition download_exn (r : response) : option exn :=
  match r with
  | Body _ => None
  | URLError e => Some (Exception (urlopen_error_prefix ++ e))
  | OtherFailure name => Some (LibraryError name)
  end.

(** Every download of a computation is announced on the line before, and
    a download that fails is its last event and decides its outcome. *)
Definition fail_stop (w : World) {A} (m : M A) : Prop :=
  forall t1 url t2,
    trace m = (t1 ++ Fetch url :: t2)%list ->
    (exists t0, t1 = (t0 ++ [Print ("downloading: " ++ url)])%list) /\
    (forall e, download_exn (urlopen w url) = Some e ->
               t2 = [] /\ result m = Raise e).

Definition job_project (job : string) : string := nth 0 (PyStr.split job ":") "".
Definition job_number (job : string) : string := nth 1 (PyStr.split job ":") "".

Definition job_console_url (job : string) : string :=
  console_url (job_project job) (job_number job).

(** The console log downloaded for a job, if the job identifier has a
    project and a number and the download succeeds. *)
Definition console_of (w : World) (job : string) : option string :=
  if (List.length (PyStr.split job ":") <? 2)%nat then None
  else match urlopen w (job_console_url job) with
       | Body log => Some log
       | _ => None
       end.

(** The job's console log is downloaded and does not contain
    [snapshot=]. *)
Definition lacks_snapshot (w : World) (job : string) : bool :=
  match console_of w job with
  | Some log => (PyStr.find log "snapshot=" =? -1)%Z
  | None => false
  end.

(** The job's console log has [snapshot=] but no [Adding new bucket]. *)
Definition lacks_bucket (w : World) (job : string) : bool :=
  match console_of w job with
  | Some log => (negb (PyStr.find log "snapshot=" =? -1)%Z
                 && (PyStr.find log "Adding new bucket" =? -1)%Z)%bool
  | None => false
  end.

(** What every job starts with: the banner and the download of its log. *)
Definition announce (job : string) : list event :=
  ([Print banner; Print ("Job: " ++ job); Print banner]
   ++ download_events (job_console_url job))%list.

Definition skip_events (job : string) : list event :=
  (announce job
   ++ [Print ("Snapshot not found for job" ++ job
              ++ ", probably the job has been aborted. Skipping..")])%list.

Definition is_file_event (ev : event) : bool :=
  match ev with
  | FileOpen _ | FileWrite _ _ | FileClose _ => true
  | _ => false
  end.

Definition file_events (t : list event) : list event := filter is_file_event t.

(** What a run leaves behind: its file operations and its outcome. *)
Definition observe {A} (m : M A) : list event * outcome A :=
  (file_events (trace m), result m).

Definition first_vars : Vars := {| data_list := []; data := None |}.

Definition run_header (job_list : list string) (output_dir : string) : list event :=
  [Print ("Job list: " ++ PyRepr.str_of_list job_list);
   Print ("Output dir: " ++ output_dir)].

Definition record_keys : list string :=
  ["job"; "label"; "snapshot"; "ops"; "latency_set"; "latency_get";
   "avg_disk_update_time (us)"; "avg_disk_commit_time (s)";
   "avg_bg_wait_time (us)"; "data_rps"; "data_wps"; "data_rbps (MB/s)";
   "data_wbps (MB/s)"; "couch_total_disk_size (MB)";
   "max couch_total_disk_size (MB)"; "mem_used (MB)";
   "memcached_rss (MB, all nodes)"; "memcached_cpu"].

Definition latency_url (snapshot bucket resource : string) : string :=
  (host ++ "/" ++ "spring_latency" ++ snapshot ++ bucket) ++ resource.

(** A URL of the [spring_latency] dataset. *)
Definition is_latency_url (url : string) : bool :=
  PyStr.startswith (host ++ "/spring_latency") url.

(** The [label] of a job identifier. *)
Definition job_label (job : string) : string :=
  if (List.length (PyStr.split job ":") =? 3)%nat
  then nth 2 (PyStr.split job ":") "" else "".

(** No download of the computation is for a URL that satisfies [P]. *)
Definition avoids (P : string -> bool) {A} (m : M A) : Prop :=
  Forall (fun url => P url = false) (fetched (trace m)).

(** Every URL of the metrics service is answered with a non-empty series
    of numbers. *)
Definition metrics_ok (w : World) : Prop :=
  forall url, PyStr.startswith host url = true -> exists s, serves_some w url s.

(** What the scraper finds in a log: snapshot, nodes (as the set lists
    them) and bucket. *)
Definition scraped (w : World) (log : string)
  : option (string * list string * string) :=
  match result (scrape_snapshot log), result (scrape_nodes log),
        result (scrape_bucket log) with
  | Return snapshot, Return node_list, Return bucket =>
      Some (snapshot, set_order w node_list, bucket)
  | _, _, _ => None
  end.

(** Only plain ASCII characters. *)
Definition ascii_only : string -> bool :=
  all_chars (fun c => Nat.ltb (nat_of_ascii c) 128).

(** The strings of a record that come from the job identifier and from
    the log can be decoded as UTF-8, as [json.dumps] needs. *)
Definition identity_valid (project number label snapshot : string) : bool :=
  (PyStr.utf8_valid (project ++ ":" ++ number)
   && PyStr.utf8_valid label && PyStr.utf8_valid snapshot)%bool.

(** The console log of the job is downloaded and has the snapshot marker,
    a bucket line and at least one node line, and the identifier of the
    job and the snapshot id are UTF-8. *)
Definition job_ready (w : World) (job : string) : bool :=
  match console_of w job with
  | Some log =>
      (negb (PyStr.find log "snapshot=" =? -1)%Z
       && match scraped w log with
          | Some (snapshot, _ :: _, _) =>
              identity_valid (job_project job) (job_number job)
                (job_label job) snapshot
          | _ => false
          end)%bool
  | None => false
  end.

(** The record of a job carries the fixed keys and the job's identity. *)
Definition record_of (job : string) (d : dict) : Prop :=
  map fst d = record_keys /\
  get d "job" "" = job_project job ++ ":" ++ job_number job /\
  get d "label" "" = job_label job.

Definition json_events (output_dir job : string) (d : dict) : list event :=
  let path := json_path output_dir (job_project job) (job_number job) in
  [FileOpen path; FileWrite path (JsonDumps d); FileClose path].

(** A computation that returns and touches no file. *)
Definition quiet {A} (m : M A) : Prop :=
  exists t a, m = (t, Return a) /\ file_events t = [].

(** The row the CSV writer is handed for a record. *)
Definition csv_row (fieldnames : list string) (d : dict) : list string :=
  map (fun key => get d key "") fieldnames.

Definition csv_events (w : World) (output_dir : string) (ds : list dict)
    (last_d : dict) : list event :=
  let path := csv_path output_dir in
  ([FileOpen path; FileWrite path (CsvRow (keys w last_d))]
   ++ map (fun d => FileWrite path (CsvRow (csv_row (keys w last_d) d))) ds
   ++ [FileClose path])%list.

Definition no_newline : string -> bool := all_chars (differs PyStr.newline).

Definition found (m : option string) : list string :=
  match m with
  | Some x => [x]
  | None => []
  end.

(* ================================================================= *)
(** ** Payloads and downloads *)

(** [float(pair\[1\])], what both reducers compute for every pair. *)
Definition pair_value (w : World) (pair : json) : M PyFloat.float :=
  v <- item1 pair ;; to_float w v.

(** One pair of numbers as [json.loads] gives it. *)
Definition pair_json (p : number * number) : json :=
  JArray [number_json (fst p); number_json (snd p)].

(** A payload that is no array, no string and no object. *)
Definition scalar (j : json) : bool :=
  match j with
  | JNull | JBool _ | JInt _ | JFloat _ => true
  | _ => false
  end.

(** The URLs of a list up to and including the first one whose mean
    cannot be computed. *)
Fixpoint fetched_until (w : World) (urls : list string) : list string :=
  match urls with
  | [] => []
  | url :: rest =>
      url :: match result (getAverage w url) with
             | Return _ => fetched_until w rest
             | Raise _ => []
             end
  end.

(** The downloads of [m] are the first URLs of [urls], in that order, and
    all of them when [m] returns. *)
Definition downloads_in_order {A} (urls : list string) (m : M A) : Prop :=
  (exists rest, urls = (fetched (trace m) ++ rest)%list) /\
  (forall a, result m = Return a -> fetched (trace m) = urls).

(** The metric URLs of a job in the order in which the dict literal of
    lines 196-241 asks for them. *)
Definition catalog (snapshot bucket : string) (nodes : list string)
    (hasLatency : bool) : list string :=
  let ns_server := host ++ "/" ++ "ns_server" ++ snapshot ++ bucket in
  let spring_latency := host ++ "/" ++ "spring_latency" ++ snapshot ++ bucket in
  let ops := host ++ "/" ++ "ns_server" ++ snapshot ++ "/ops" in
  let latency_set := spring_latency ++ "/latency_set" in
  let latency_get := spring_latency ++ "/latency_get" in
  let avg_disk_update_time := ns_server ++ "/avg_disk_update_time" in
  let avg_disk_commit_time := ns_server ++ "/avg_disk_commit_time" in
  let avg_bg_wait_time := ns_server ++ "/avg_bg_wait_time" in
  let iostat resource node :=
    (host ++ "/" ++ "iostat" ++ snapshot ++ node) ++ resource in
  let couch_total_disk_size := ns_server ++ "/couch_total_disk_size" in
  let mem_used := ns_server ++ "/mem_used" in
  let atop resource node :=
    (host ++ "/" ++ "atop" ++ snapshot) ++ node ++ resource in
  ([ops]
   ++ (if hasLatency then [latency_set] else [])
   ++ (if hasLatency then [latency_get] else [])
   ++ [avg_disk_update_time] ++ [avg_disk_commit_time] ++ [avg_bg_wait_time]
   ++ map (iostat "/data_rps") nodes
   ++ map (iostat "/data_wps") nodes
   ++ map (iostat "/data_rbps") nodes
   ++ map (iostat "/data_wbps") nodes
   ++ [couch_total_disk_size] ++ [couch_total_disk_size] ++ [mem_used]
   ++ map (atop "/memcached_rss") nodes
   ++ map (atop "/memcached_cpu") nodes)%list.

(* ================================================================= *)
(** ** Files of a run *)

(** A computation that touches no file. *)
Definition fileless {A} (m : M A) : Prop := file_events (trace m) = [].

(** A computation that fails has touched no file, or has only opened the
    file at [path] before it failed with [UnicodeDecodeError]. *)
Definition opened_only (path : string) {A} (m : M A) : Prop :=
  forall e, result m = Raise e ->
    file_events (trace m) = [] \/
    (file_events (trace m) = [FileOpen path] /\ e = UnicodeDecodeError).

Definition event_path (ev : event) : option string :=
  match ev with
  | FileOpen p | FileWrite p _ | FileClose p => Some p
  | _ => None
  end.

(** No event of [t] is about the file at [path]. *)
Definition untouched (path : string) (t : list event) : Prop :=
  Forall (fun ev => event_path ev <> Some path) t.

(** The file events of [t] are those of per-job JSON files of the output
    directory. *)
Definition json_files_only (output_dir : string) (t : list event) : Prop :=
  Forall (fun ev => exists project number,
                      event_path ev = Some (json_path output_dir project number))
         (file_events t).

Fixpoint last_char (s : string) (d : ascii) : ascii :=
  match s with
  | EmptyString => d
  | String c s' => last_char s' c
  end.

(** A job the loop gets through: processed to a record, or skipped. *)
Definition job_handled (w : World) (job : string) : bool :=
  (job_ready w job || lacks_snapshot w job)%bool.

(** The jobs of a list that are processed to a record. *)
Definition ready_jobs (w : World) (job_list : list string) : list string :=
  filter (job_ready w) job_list.

Definition job_json_path (output_dir job : string) : string :=
  json_path output_dir (job_project job) (job_number job).

(** What [data.csv] holds after a run with the records [ds], the last
    one built being [last_d]. *)
Definition csv_content (w : World) (ds : list dict) (last_d : dict)
  : list chunk :=
  CsvRow (keys w last_d) :: map (fun d => CsvRow (csv_row (keys w last_d) d)) ds.

(** The metric URLs asked for before the first per-node metric. *)
Definition catalog_head (snapshot bucket : string) (hasLatency : bool)
  : list string :=
  let ns_server := host ++ "/" ++ "ns_server" ++ snapshot ++ bucket in
  let spring_latency := host ++ "/" ++ "spring_latency" ++ snapshot ++ bucket in
  let ops := host ++ "/" ++ "ns_server" ++ snapshot ++ "/ops" in
  let latency_set := spring_latency ++ "/latency_set" in
  let latency_get := spring_latency ++ "/latency_get" in
  let avg_disk_update_time := ns_server ++ "/avg_disk_update_time" in
  let avg_disk_commit_time := ns_server ++ "/avg_disk_commit_time" in
  let avg_bg_wait_time := ns_server ++ "/avg_bg_wait_time" in
  ([ops]
   ++ (if hasLatency then [latency_set; latency_get] else [])
   ++ [avg_disk_update_time; avg_disk_commit_time; avg_bg_wait_time])%list.

(* ================================================================= *)
(** ** Job identifiers *)

(** A job identifier as the usage line writes it:
    [<project>:<number>] or [<project>:<number>:<label>]. *)
Definition job_id (project number : string) (label : option string) : string :=
  project ++ ":" ++ number ++ match label with
                              | Some l => ":" ++ l
                              | None => ""
                              end.

Definition no_colon : string -> bool := all_chars (differs ":").

(** What an iteration prints for an identifier without a number. *)
Definition usage_events (job : string) : list event :=
  [Print banner; Print ("Job: " ++ job); Print banner; Print usage].

(* ================================================================= *)
(** ** Hosts and decimals *)

(** A URL of neither the Jenkins server nor the metrics service. *)
Definition foreign (url : string) : bool :=
  negb (PyStr.startswith "http://perf.jenkins.couchbase.com/job/" url
        || PyStr.startswith host url).

(** Two decimal digits. *)
Definition two_decimals (s : string) : bool :=
  match s with
  | String a (String b EmptyString) => (is_digit a && is_digit b)%bool
  | _ => false
  end.

(** What a metric field of a record holds: ["N/A"], or the text that
    ['{:.2f}'.format] gives for a double, which for a finite double ends
    with a dot and two decimals and for an infinity or NaN is [inf], [-inf]
    or [nan]. *)
Definition metric_text (v : string) : Prop :=
  v = "N/A" \/
  exists x, v = fmt x /\
    if PyFloat.is_finite x
    then exists whole decimals,
           v = whole ++ "." ++ decimals /\ two_decimals decimals = true
    else v = "nan" \/ v = "inf" \/ v = "-inf".

(* ================================================================= *)
(** ** The fields of a record *)

(** What [getMax] makes of a series. *)
Definition series_max (s : series) : PyFloat.float :=
  fold_left max_step (values s) PyFloat.zero.

(** The field [key] of the record [d] is the two-decimal text of [x]. *)
Definition field (d : dict) (key : string) (x : PyFloat.float) : Prop :=
  get d key "" = fmt x.

(** How the metric fields of the record [d] of a job read, for the
    series the metrics service answers with: means, a maximum, means over
    the nodes and a sum over the nodes, some of them in megabytes. *)
Definition fields_explained (w : World) (snapshot bucket : string)
    (nodes : list string) (d : dict) : Prop :=
  let ns_server resource :=
    (host ++ "/" ++ "ns_server" ++ snapshot ++ bucket) ++ resource in
  let iostat resource :=
    map (fun node => (host ++ "/" ++ "iostat" ++ snapshot ++ node) ++ resource)
        nodes in
  let atop resource :=
    map (fun node => (host ++ "/" ++ "atop" ++ snapshot) ++ node ++ resource)
        nodes in
  (forall s, serves_some w (host ++ "/" ++ "ns_server" ++ snapshot ++ "/ops") s ->
             field d "ops" (series_mean s)) /\
  (forall s, serves_some w (ns_server "/avg_disk_update_time") s ->
             field d "avg_disk_update_time (us)" (series_mean s)) /\
  (forall s, serves_some w (ns_server "/avg_disk_commit_time") s ->
             field d "avg_disk_commit_time (s)" (series_mean s)) /\
  (forall s, serves_some w (ns_server "/avg_bg_wait_time") s ->
             field d "avg_bg_wait_time (us)" (series_mean s)) /\
  (forall ss, Forall2 (serves_some w) (iostat "/data_rps") ss ->
              field d "data_rps" (float_mean (map series_mean ss))) /\
  (forall ss, Forall2 (serves_some w) (iostat "/data_wps") ss ->
              field d "data_wps" (float_mean (map series_mean ss))) /\
  (forall ss, Forall2 (serves_some w) (iostat "/data_rbps") ss ->
              field d "data_rbps (MB/s)"
                (toMB (float_mean (map series_mean ss)))) /\
  (forall ss, Forall2 (serves_some w) (iostat "/data_wbps") ss ->
              field d "data_wbps (MB/s)"
                (toMB (float_mean (map series_mean ss)))) /\
  (forall s, serves_some w (ns_server "/couch_total_disk_size") s ->
             field d "couch_total_disk_size (MB)" (toMB (series_mean s)) /\
             field d "max couch_total_disk_size (MB)" (toMB (series_max s))) /\
  (forall s, serves_some w (ns_server "/mem_used") s ->
             field d "mem_used (MB)" (toMB (series_mean s))) /\
  (forall ss, Forall2 (serves_some w) (atop "/memcached_rss") ss ->
              field d "memcached_rss (MB, all nodes)"
                (toMB (float_sum (map series_mean ss)))) /\
  (forall ss, Forall2 (serves_some w) (atop "/memcached_cpu") ss ->
              field d "memcached_cpu" (float_mean (map series_mean ss))).

(** What the loop keeps between iterations: every record collected has
    the eighteen keys of the dict literal, in its order, and [data] is
    the last record collected, unbound when there is none. *)
Definition vars_ok (vars : Vars) : Prop :=
  Forall (fun d => map fst d = record_keys) (data_list vars) /\
  data vars = last (map Some (data_list vars)) None.

(* ================================================================= *)
(** ** Concrete worlds *)

Module Demo.

(** A decoder for the JSON texts that the example servers below answer
    with: arrays and integers, written without white space.  It stands for
    [json.loads] on these texts only; the theorems are about any [World],
    whose [json_loads] is whatever the library does. *)
Fixpoint digits_value (s : string) (acc : Z) : Z * string :=
  match s with
  | String c s' =>
      if is_digit c
      then digits_value s' (10 * acc + Z.of_nat (nat_of_ascii c - 48))
      else (acc, s)
  | EmptyString => (acc, s)
  end.

Fixpoint decode_value (fuel : nat) (s : string) : option (json * string) :=
  match fuel with
  | O => None
  | S fuel' =>
      match s with
      | EmptyString => None
      | String c rest =>
          if Ascii.eqb c "[" then
            match rest with
            | String "]" rest' => Some (JArray [], rest')
            | _ => decode_items fuel' rest
            end
          else if Ascii.eqb c "-" then
            match rest with
            | String d _ =>
                if is_digit d
                then let (z, rest') := digits_value rest 0 in Some (JInt (- z), rest')
                else None
            | EmptyString => None
            end
          else if is_digit c
          then let (z, rest') := digits_value s 0 in Some (JInt z, rest')
          else None
      end
  end
with decode_items (fuel : nat) (s : string) : option (json * string) :=
  match fuel with
  | O => None
  | S fuel' =>
      match decode_value fuel' s with
      | Some (v, String c rest) =>
          if Ascii.eqb c "]" then Some (JArray [v], rest)
          else if Ascii.eqb c "," then
            match decode_items fuel' rest with
            | Some (JArray vs, rest') => Some (JArray (v :: vs), rest')
            | _ => None
            end
          else None
      | _ => None
      end
  end.

Definition decode (text : string) : option json :=
  match decode_value (2 * String.length text + 2) text with
  | Some (v, EmptyString) => Some v
  | _ => None
  end.

(** A set that lists its elements in the order of their first occurrence,
    and a dict that lists its keys in source order. *)
Definition first_occurrences (l : list string) : list string :=
  rev (nodup string_dec (rev l)).

Definition world_of (server : string -> response) : World :=
  {| urlopen := server;
     json_loads := decode;
     float_of_str := fun _ => None;
     set_order := first_occurrences;
     dict_order := fun l => l |}.

Definition jenkins : string := "http://perf.jenkins.couchbase.com/job/".

(** Jobs 1 and 2 of project [p] ran on three nodes, the log of job 3
    stops before the bucket is added, every other job was aborted; every
    metric series is [\[\[0,2\],\[1,4\],\[2,6\]\]]. *)
Definition healthy_server (url : string) : response :=
  if String.eqb url (jenkins ++ "p/1/consoleText")
  then Body (console_log "_p_1_" "bucket-1"
               ["172.23.96.100"; "172.23.96.101"; "172.23.96.102"])
  else if String.eqb url (jenkins ++ "p/2/consoleText")
  then Body (console_log "_p_2_" "bucket-1"
               ["172.23.96.100"; "172.23.96.101"; "172.23.96.102"]
             ++ String PyStr.newline "spring_latency enabled")
  else if String.eqb url (jenkins ++ "p/3/consoleText")
  then Body (unlines ["snapshot=_p_3_";
                      "Getting memcached port from 172.23.96.100"])
  else if PyStr.startswith jenkins url
  then Body (unlines ["Started by user"; "Finished: ABORTED"])
  else Body "[[0,2],[1,4],[2,6]]".

Definition healthy : World := world_of healthy_server.

(** A log as perfrunner writes it. *)
Definition perfrunner_log : list entry :=
  [Other "Started by user perfrunner";
   Node "2018-01-16T11:35:11 [INFO] " "172.23.96.100";
   Node "2018-01-16T11:35:11 [INFO] " "172.23.96.101";
   Bucket "2018-01-16T09:19:17 [INFO] " "bucket-1";
   Other "2018-01-16T11:40:02 [INFO] Running the workload";
   Node "2018-01-16T11:35:11 [INFO] " "172.23.96.102";
   Snapshot "2018-01-16T12:01:45 [INFO] http://cbmonitor.sc.couchbase.com/reports/html/?"
            "hera_pl_60_1a2b";
   Other "Finished: SUCCESS"].

(** The start of a console log: the line Jenkins opens it with, then a
    time stamp and the start of the report URL. *)
Definition log_start : string :=
  "Started by user Alice Smith" ++ String PyStr.newline
    "2018-01-16T12:01:45 [INFO] http://cbmonitor.sc.couchbase.com/reports/html/?".

(** No server can be reached. *)
Definition timed_out : string := "URLError(timeout('timed out',),)".

Definition offline : World := world_of (fun _ => URLError timed_out).

(** Every series is the given text. *)
Definition constant (text : string) : World := world_of (fun _ => Body text).

(** Two series of one pair each. *)
Definition two_nodes : World :=
  world_of (fun url => if String.eqb url "a" then Body "[[0,10]]"
                       else Body "[[0,20]]").

End Demo.

(* ================================================================= *)
(** ** More servers *)

Module Cases.

(** The series of [b] is empty, every other series holds one pair. *)
Definition one_empty : World :=
  Demo.world_of (fun url => if String.eqb url "b" then Body "[]"
                            else Body "[[0,10]]").

(** The log of every job has a snapshot and a bucket but names no node;
    every metric series is [\[\[0,2\],\[1,4\],\[2,6\]\]]. *)
Definition no_nodes : World :=
  Demo.world_of
    (fun url => if PyStr.startswith Demo.jenkins url
                then Body (console_log "_s_" "bucket-1" [])
                else Body "[[0,2],[1,4],[2,6]]").

End Cases.

(* ================================================================= *)
(** ** Computations *)

Section MonadLaws.

Context {A B C : Type}.

Lemma bind_ret_l (a : A) (f : A -> M B) : bind (ret a) f = f a.
Proof. unfold bind, ret. destruct (f a). reflexivity. Qed.

Lemma bind_ret_r (m : M A) : bind m ret = m.
Proof.
  destruct m as [t [a|e]]; unfold bind, ret; cbn; [rewrite app_nil_r|]; reflexivity.
Qed.

Lemma bind_assoc (m : M A) (f : A -> M B) (g : B -> M C) :
  bind (bind m f) g = bind m (fun a => bind (f a) g).
Proof.
  destruct m as [t [a|e]]; cbn; [|reflexivity].
  destruct (f a) as [t1 [b|e]]; cbn; [|reflexivity].
  destruct (g b) as [t2 r]. rewrite app_assoc. reflexivity.
Qed.

Lemma bind_Return (m : M A) (f : A -> M B) t1 a t2 r :
  m = (t1, Return a) -> f a = (t2, r) -> bind m f = ((t1 ++ t2)%list, r).
Proof. intros -> H. cbn. rewrite H. reflexivity. Qed.

Lemma bind_Raise (m : M A) (f : A -> M B) t e :
  m = (t, Raise e) -> bind m f = (t, Raise e).
Proof. intros ->. reflexivity. Qed.

Lemma bind_Return_inv (m : M A) (f : A -> M B) t b :
  bind m f = (t, Return b) ->
  exists t1 a t2, m = (t1, Return a) /\ f a = (t2, Return b) /\ t = (t1 ++ t2)%list.
Proof.
  destruct m as [t1 [a|e]]; cbn; [|discriminate].
  destruct (f a) as [t2 r] eqn:E. intros H. inversion H; subst.
  exists t1, a, t2. auto.
Qed.

Lemma bind_ext (m : M A) (f g : A -> M B) :
  (forall a, f a = g a) -> bind m f = bind m g.
Proof. intros H. destruct m as [t [a|e]]; cbn; [rewrite H|]; reflexivity. Qed.

Lemma trace_bind (m : M A) (f : A -> M B) :
  trace (bind m f)
  = match result m with
    | Return a => (trace m ++ trace (f a))%list
    | Raise _ => trace m
    end.
Proof.
  destruct m as [t [a|e]]; cbn; [|reflexivity]. destruct (f a). reflexivity.
Qed.

Lemma result_bind (m : M A) (f : A -> M B) :
  result (bind m f)
  = match result m with
    | Return a => result (f a)
    | Raise e => Raise e
    end.
Proof.
  destruct m as [t [a|e]]; cbn; [|reflexivity]. destruct (f a). reflexivity.
Qed.

End MonadLaws.

Lemma foldM_app {A B} (f : B -> A -> M B) (l1 l2 : list A) (b : B) :
  foldM f (l1 ++ l2) b = bind (foldM f l1 b) (foldM f l2).
Proof.
  revert b. induction l1 as [|a l1 IH]; intros b; cbn [foldM app].
  - rewrite bind_ret_l. reflexivity.
  - rewrite bind_assoc. apply bind_ext. intros b'. apply IH.
Qed.

(* ================================================================= *)
(** ** The order of doubles *)

Ltac compare_cases :=
  repeat match goal with
  | |- context [Z.compare ?a ?b] => destruct (Z.compare_spec a b)
  | H : context [Z.compare ?a ?b] |- _ => destruct (Z.compare_spec a b)
  | |- context [Pos.compare_cont Eq ?a ?b] =>
      change (Pos.compare_cont Eq a b) with (Pos.compare a b);
      destruct (Pos.compare_spec a b)
  | H : context [Pos.compare_cont Eq ?a ?b] |- _ =>
      change (Pos.compare_cont Eq a b) with (Pos.compare a b) in H;
      destruct (Pos.compare_spec a b)
  end.

(** Once [v] has replaced [m] as the maximum, whatever did not exceed [m]
    does not exceed [v]. *)
Lemma ltb_step (m v u : PyFloat.float) :
  PyFloat.ltb m v = true -> PyFloat.ltb m u = false -> PyFloat.ltb v u = false.
Proof.
  unfold PyFloat.ltb, SFltb, SFcompare.
  destruct m as [sm|sm| |sm mm em], v as [sv|sv| |sv mv ev],
           u as [su|su| |su mu eu];
    try destruct sm; try destruct sv; try destruct su;
    cbn; try congruence;
    intros H1 H2; compare_cases; subst; cbn in *; try congruence; lia.
Qed.

Lemma ltb_irrefl (x : PyFloat.float) : PyFloat.ltb x x = false.
Proof.
  unfold PyFloat.ltb, SFltb, SFcompare.
  destruct x as [s|s| |s m e]; try destruct s; cbn; try reflexivity;
    compare_cases; cbn; try reflexivity; lia.
Qed.

Lemma leb_not_ltb (x y : PyFloat.float) :
  PyFloat.leb x y = true -> PyFloat.ltb x y = false -> PyFloat.eqb x y = true.
Proof.
  unfold PyFloat.leb, PyFloat.ltb, PyFloat.eqb, SFleb, SFltb, SFeqb.
  destruct (SFcompare x y) as [[]|]; congruence.
Qed.

(** A value that exceeded another one is a number, equal to itself. *)
Lemma ltb_eqb_refl (m v : PyFloat.float) :
  PyFloat.ltb m v = true -> PyFloat.eqb v v = true.
Proof.
  unfold PyFloat.ltb, PyFloat.eqb, SFltb, SFeqb, SFcompare.
  destruct m as [sm|sm| |sm mm em], v as [sv|sv| |sv mv ev];
    try destruct sm; try destruct sv; cbn; try congruence; intros _;
    rewrite ?Z.compare_refl; cbn;
    change (Pos.compare_cont Eq mv mv) with (Pos.compare mv mv);
    rewrite Pos.compare_refl; reflexivity.
Qed.

Lemma ltb_trans (x y z : PyFloat.float) :
  PyFloat.ltb x y = true -> PyFloat.ltb y z = true -> PyFloat.ltb x z = true.
Proof.
  unfold PyFloat.ltb, SFltb, SFcompare.
  destruct x as [sx|sx| |sx mx ex], y as [sy|sy| |sy my ey],
           z as [sz|sz| |sz mz ez];
    try destruct sx; try destruct sy; try destruct sz;
    cbn; try congruence;
    intros H1 H2; compare_cases; subst; cbn in *; try congruence; lia.
Qed.

Lemma ltb_asym (x y : PyFloat.float) :
  PyFloat.ltb x y = true -> PyFloat.ltb y x = false.
Proof. intros H. exact (ltb_step x y x H (ltb_irrefl x)). Qed.

(** The loop invariant of [getMax]: the maximum is the initial value or an
    element that exceeded it, and no element seen exceeds it. *)
Lemma max_loop_spec (vs : list PyFloat.float) (m0 : PyFloat.float) :
  let r := fold_left max_step vs m0 in
  (r = m0 \/ (In r vs /\ PyFloat.ltb m0 r = true)) /\
  (forall v, In v vs -> PyFloat.ltb r v = false).
Proof.
  revert m0. induction vs as [|v vs IH]; intros m0; cbn.
  - split; [now left | intros v []].
  - specialize (IH (max_step m0 v)). cbn in IH.
    set (r := fold_left max_step vs (max_step m0 v)) in *.
    destruct IH as (Hin & Hall). unfold max_step in Hin.
    destruct (PyFloat.ltb m0 v) eqn:E.
    + split.
      * right. destruct Hin as [-> | [Hin Hr]].
        -- split; [now left | assumption].
        -- split; [now right | eapply ltb_trans; eauto].
      * intros u [<- | Hu]; auto.
        destruct Hin as [-> | [Hin Hr]]; [apply ltb_irrefl | now apply ltb_asym].
    + split.
      * destruct Hin as [-> | [Hin Hr]]; [now left|]. right. split; [now right|auto].
      * intros u [<- | Hu]; auto.
        destruct Hin as [-> | [Hin Hr]]; [assumption|].
        eapply ltb_step; eauto.
Qed.

(* ================================================================= *)
(** ** Doubles that hold integers *)

Section Integers.

(** Shifting to the left multiplies by a power of two and adds to the
    number of digits. *)
Lemma iter_xO_Z (p k : positive) : Zpos (Pos.iter xO p k) = Zpos p * 2 ^ Zpos k.
Proof.
  induction k as [|k IH] using Pos.peano_ind.
  - cbn. lia.
  - rewrite Pos.iter_succ, Pos2Z.inj_xO, IH, Pos2Z.inj_succ, Z.pow_succ_r by lia. lia.
Qed.

Lemma pshift_Z (p : positive) (j : Z) : 0 <= j -> Zpos (pshift p j) = Zpos p * 2 ^ j.
Proof.
  destruct j as [|k|k]; intros H; cbn [pshift]; [cbn; lia | apply iter_xO_Z | lia].
Qed.

Lemma digits_xO_iter (p k : positive) :
  Zpos (digits2_pos (Pos.iter xO p k)) = Zpos (digits2_pos p) + Zpos k.
Proof.
  induction k as [|k IH] using Pos.peano_ind.
  - cbn. lia.
  - rewrite Pos.iter_succ. cbn [digits2_pos]. rewrite Pos2Z.inj_succ, IH. lia.
Qed.

Lemma digits_pshift (p : positive) (j : Z) :
  0 <= j -> Zpos (digits2_pos (pshift p j)) = Zpos (digits2_pos p) + j.
Proof.
  destruct j as [|k|k]; intros H; cbn [pshift]; [lia | apply digits_xO_iter | lia].
Qed.

Lemma pshift_pshift (p : positive) (i j : Z) :
  0 <= i -> 0 <= j -> pshift (pshift p i) j = pshift p (i + j).
Proof.
  intros Hi Hj. apply Pos2Z.inj. rewrite !pshift_Z, Z.pow_add_r by lia. lia.
Qed.

Lemma iter_pos_eq {A} (f : A -> A) (n : positive) (x : A) :
  iter_pos f n x = Pos.iter f x n.
Proof.
  revert x. induction n as [n IH|n IH|]; intros x; cbn.
  - rewrite !IH, <- !Pos.iter_swap. reflexivity.
  - rewrite !IH. reflexivity.
  - reflexivity.
Qed.

(** Shifting a mantissa to the right by the zero bits it ends with loses
    nothing: the location stays exact. *)
Lemma shr_exact (c n : positive) :
  iter_pos shr_1 n {| shr_m := Zpos (Pos.iter xO c n); shr_r := false; shr_s := false |}
  = {| shr_m := Zpos c; shr_r := false; shr_s := false |}.
Proof.
  rewrite iter_pos_eq.
  induction n as [|n IH] using Pos.peano_ind.
  - reflexivity.
  - rewrite Pos.iter_succ_r, (Pos.iter_succ n _ xO). cbn [shr_1 orb]. exact IH.
Qed.

Lemma round_aux_normal (s : bool) (m : positive) (e : Z) :
  Zpos (digits2_pos m) = 53 -> -1074 <= e <= 971 ->
  binary_round_aux PyFloat.prec PyFloat.emax s (Zpos m) e loc_Exact = S754_finite s m e.
Proof.
  intros Hd He. unfold binary_round_aux, shr_fexp, Zdigits2, fexp, emin, PyFloat.prec, PyFloat.emax.
  rewrite Hd.
  replace (Z.max (53 + e - 53) (3 - 1024 - 53) - e) with 0 by lia.
  cbn [shr shr_record_of_loc loc_of_shr_record round_nearest_even shr_m].
  rewrite Hd.
  replace (Z.max (53 + e - 53) (3 - 1024 - 53) - e) with 0 by lia.
  cbn [shr shr_m].
  destruct (Z.leb_spec e (1024 - 53)); [reflexivity | lia].
Qed.

Lemma fexp_normal (x : Z) : -1074 <= x - 53 -> fexp PyFloat.prec PyFloat.emax x = x - 53.
Proof. unfold fexp, emin, PyFloat.prec, PyFloat.emax. lia. Qed.

(** Rounding a number that fits in 53 bits, however it is shifted, gives
    its normal form. *)
Lemma round_shifted (s : bool) (c : positive) (k e : Z) :
  Zpos (digits2_pos c) <= 53 -> 0 <= k ->
  -1074 <= Zpos (digits2_pos c) + e - 53 <= 971 ->
  binary_round PyFloat.prec PyFloat.emax s (pshift c k) (e - k)
  = S754_finite s (pshift c (53 - Zpos (digits2_pos c)))
      (Zpos (digits2_pos c) + e - 53).
Proof.
  set (d := Zpos (digits2_pos c)). intros Hd Hk He.
  assert (Hnorm : Zpos (digits2_pos (pshift c (53 - d))) = 53)
    by (rewrite digits_pshift by lia; fold d; lia).
  unfold binary_round.
  rewrite (digits_pshift c k Hk). fold d.
  rewrite (fexp_normal (d + k + (e - k))) by lia.
  unfold shl_align.
  destruct (d + k + (e - k) - 53 - (e - k)) as [|n|n] eqn:E.
  - (* already 53 digits *)
    assert (k = 53 - d) by lia. subst k.
    replace (e - (53 - d)) with (d + e - 53) by lia.
    apply round_aux_normal; [assumption | lia].
  - (* more than 53 digits: the low bits are zero *)
    assert (Hc : pshift c k = Pos.iter xO (pshift c (53 - d)) n).
    { change (Pos.iter xO (pshift c (53 - d)) n)
        with (pshift (pshift c (53 - d)) (Zpos n)).
      rewrite pshift_pshift by lia. f_equal. lia. }
    rewrite Hc.
    unfold binary_round_aux, shr_fexp, Zdigits2.
    rewrite digits_xO_iter, Hnorm.
    rewrite (fexp_normal (53 + Zpos n + (e - k))) by lia.
    replace (53 + Zpos n + (e - k) - 53 - (e - k)) with (Zpos n) by lia.
    cbn [shr shr_record_of_loc]. rewrite shr_exact.
    cbn [loc_of_shr_record round_nearest_even shr_m]. rewrite Hnorm.
    rewrite (fexp_normal (53 + (e - k + Zpos n))) by lia.
    replace (53 + (e - k + Zpos n) - 53 - (e - k + Zpos n)) with 0 by lia.
    cbn [shr shr_m]. unfold PyFloat.prec, PyFloat.emax.
    destruct (Z.leb_spec (e - k + Zpos n) (1024 - 53)); [|lia].
    f_equal. lia.
  - (* fewer than 53 digits: shift to the left *)
    change (Pos.iter xO (pshift c k) n) with (pshift (pshift c k) (Zpos n)).
    rewrite pshift_pshift by lia.
    replace (k + Zpos n) with (53 - d) by lia.
    replace (d + k + (e - k) - 53) with (d + e - 53) by lia.
    apply round_aux_normal; [assumption | lia].
Qed.

Lemma digits_bound (c : positive) :
  2 ^ (Zpos (digits2_pos c) - 1) <= Zpos c < 2 ^ Zpos (digits2_pos c).
Proof.
  induction c as [c IH|c IH|]; cbn [digits2_pos]; [| |cbn; lia];
    rewrite Pos2Z.inj_succ;
    assert (Hd : 0 < Zpos (digits2_pos c)) by lia;
    set (d := Zpos (digits2_pos c)) in *; clearbody d;
    assert (H1 : 2 ^ d = 2 * 2 ^ (d - 1))
      by (rewrite <- Z.pow_succ_r by lia; f_equal; lia);
    assert (H2 : 2 ^ Z.succ d = 2 * 2 ^ d) by (apply Z.pow_succ_r; lia);
    replace (Z.succ d - 1) with d by lia;
    generalize dependent (2 ^ Z.succ d); generalize dependent (2 ^ d);
    generalize dependent (2 ^ (d - 1)); intros.
  - rewrite Pos2Z.inj_xI. lia.
  - rewrite Pos2Z.inj_xO. lia.
Qed.

Lemma digits_small (c : positive) :
  Zpos c < 2 ^ 53 -> Zpos (digits2_pos c) <= 53.
Proof.
  intros H. destruct (digits_bound c) as [Hlow _].
  destruct (Z.le_gt_cases (Zpos (digits2_pos c)) 53) as [|Hgt]; [assumption|].
  assert (2 ^ 53 <= 2 ^ (Zpos (digits2_pos c) - 1))
    by (apply Z.pow_le_mono_r; lia).
  lia.
Qed.

Lemma round_small (s : bool) (c : positive) (k : Z) :
  Zpos c < 2 ^ 53 -> 0 <= k ->
  binary_round PyFloat.prec PyFloat.emax s (pshift c k) (- k) = normal s c.
Proof.
  intros Hc Hk. pose proof (digits_small c Hc).
  change (- k) with (0 - k). rewrite round_shifted by lia.
  reflexivity.
Qed.

(** The double of a small integer is its normal form. *)
Lemma of_Z_pos (c : positive) : Zpos c < 2 ^ 53 -> PyFloat.of_Z (Zpos c) = normal false c.
Proof. intros H. apply (round_small false c 0 H). lia. Qed.

Lemma of_Z_neg (c : positive) : Zpos c < 2 ^ 53 -> PyFloat.of_Z (Zneg c) = normal true c.
Proof. intros H. apply (round_small true c 0 H). lia. Qed.

Lemma shl_align_fst (m : positive) (e e' : Z) :
  e' <= e -> fst (shl_align m e e') = pshift m (e - e').
Proof.
  intros H. unfold shl_align.
  destruct (e' - e) as [|p|p] eqn:E; cbn [fst].
  - replace (e - e') with 0 by lia. reflexivity.
  - lia.
  - replace (e - e') with (Zpos p) by lia. reflexivity.
Qed.

Lemma of_Z_signed (s : bool) (c : positive) :
  Zpos c < 2 ^ 53 -> PyFloat.of_Z (signed s c) = normal s c.
Proof. destruct s; [apply of_Z_neg | apply of_Z_pos]. Qed.

Lemma normalize_shifted (z k : Z) :
  Z.abs z < 2 ^ 53 -> 0 <= k ->
  binary_normalize PyFloat.prec PyFloat.emax (z * 2 ^ k) (- k) false = PyFloat.of_Z z.
Proof.
  intros Hz Hk. destruct z as [|c|c].
  - reflexivity.
  - rewrite <- pshift_Z by lia. cbn [binary_normalize].
    rewrite round_small by (cbn in Hz; lia). symmetry. apply of_Z_pos. cbn in Hz; lia.
  - replace (Zneg c * 2 ^ k) with (Zneg (pshift c k))
      by (rewrite <- Pos2Z.opp_pos, pshift_Z by lia; lia).
    cbn [binary_normalize].
    rewrite round_small by (cbn in Hz; lia). symmetry. apply of_Z_neg. cbn in Hz; lia.
Qed.

(** Addition of small integers whose sum is small is exact. *)
Lemma add_normal (sa sb : bool) (a b : positive) :
  Zpos a < 2 ^ 53 -> Zpos b < 2 ^ 53 ->
  Z.abs (signed sa a + signed sb b) < 2 ^ 53 ->
  PyFloat.add (normal sa a) (normal sb b) = PyFloat.of_Z (signed sa a + signed sb b).
Proof.
  intros Ha Hb Hab.
  pose proof (digits_small a Ha) as Hda. pose proof (digits_small b Hb) as Hdb.
  unfold normal, PyFloat.add, SFadd.
  set (da := Zpos (digits2_pos a)) in *. set (db := Zpos (digits2_pos b)) in *.
  set (ez := Z.min (da - 53) (db - 53)).
  rewrite !shl_align_fst by lia. rewrite !pshift_pshift by lia.
  replace (53 - da + (da - 53 - ez)) with (- ez) by lia.
  replace (53 - db + (db - 53 - ez)) with (- ez) by lia.
  replace (cond_Zopp sa (Zpos (pshift a (- ez))) + cond_Zopp sb (Zpos (pshift b (- ez))))
    with ((signed sa a + signed sb b) * 2 ^ (- ez)).
  - replace ez with (- - ez) at 2 by lia. apply normalize_shifted; lia.
  - rewrite !pshift_Z by lia. destruct sa, sb; cbn [cond_Zopp signed]; lia.
Qed.

Lemma add_of_Z (a b : Z) :
  Z.abs a < 2 ^ 53 -> Z.abs b < 2 ^ 53 -> Z.abs (a + b) < 2 ^ 53 ->
  PyFloat.add (PyFloat.of_Z a) (PyFloat.of_Z b) = PyFloat.of_Z (a + b).
Proof.
  intros Ha Hb Hab.
  destruct a as [|a|a], b as [|b|b]; try reflexivity.
  - cbn [Z.add]. rewrite of_Z_pos by (cbn in Hb; lia). reflexivity.
  - cbn [Z.add]. rewrite of_Z_neg by (cbn in Hb; lia). reflexivity.
  - rewrite Z.add_0_r, of_Z_pos by (cbn in Ha; lia). reflexivity.
  - rewrite !of_Z_pos by (cbn in *; lia). apply (add_normal false false); cbn in *; lia.
  - rewrite of_Z_pos, of_Z_neg by (cbn in *; lia).
    apply (add_normal false true); cbn in *; lia.
  - rewrite Z.add_0_r, of_Z_neg by (cbn in Ha; lia). reflexivity.
  - rewrite of_Z_pos, of_Z_neg by (cbn in *; lia).
    apply (add_normal true false); cbn in *; lia.
  - rewrite !of_Z_neg by (cbn in *; lia). apply (add_normal true true); cbn in *; lia.
Qed.

Lemma round_aux_shifted (s : bool) (c : positive) (k e : Z) :
  Zpos (digits2_pos c) <= 53 -> 53 <= Zpos (digits2_pos c) + k ->
  -1074 <= Zpos (digits2_pos c) + e - 53 <= 971 ->
  binary_round_aux PyFloat.prec PyFloat.emax s (Zpos (pshift c k)) (e - k) loc_Exact
  = S754_finite s (pshift c (53 - Zpos (digits2_pos c)))
      (Zpos (digits2_pos c) + e - 53).
Proof.
  set (d := Zpos (digits2_pos c)). intros Hd Hk He.
  assert (Hnorm : Zpos (digits2_pos (pshift c (53 - d))) = 53)
    by (rewrite digits_pshift by lia; fold d; lia).
  destruct (d + k - 53) as [|n|n] eqn:E; [| |lia].
  - assert (k = 53 - d) by lia. subst k.
    replace (e - (53 - d)) with (d + e - 53) by lia.
    apply round_aux_normal; [assumption | lia].
  - assert (Hc : pshift c k = Pos.iter xO (pshift c (53 - d)) n).
    { change (Pos.iter xO (pshift c (53 - d)) n)
        with (pshift (pshift c (53 - d)) (Zpos n)).
      rewrite pshift_pshift by lia. f_equal. lia. }
    rewrite Hc.
    unfold binary_round_aux, shr_fexp, Zdigits2.
    rewrite digits_xO_iter, Hnorm.
    rewrite (fexp_normal (53 + Zpos n + (e - k))) by lia.
    replace (53 + Zpos n + (e - k) - 53 - (e - k)) with (Zpos n) by lia.
    cbn [shr shr_record_of_loc]. rewrite shr_exact.
    cbn [loc_of_shr_record round_nearest_even shr_m]. rewrite Hnorm.
    rewrite (fexp_normal (53 + (e - k + Zpos n))) by lia.
    replace (53 + (e - k + Zpos n) - 53 - (e - k + Zpos n)) with 0 by lia.
    cbn [shr shr_m]. unfold PyFloat.prec, PyFloat.emax.
    destruct (Z.leb_spec (e - k + Zpos n) (1024 - 53)); [|lia].
    f_equal. lia.
Qed.

Lemma digits_mul (q n : positive) :
  Zpos (digits2_pos (q * n)) <= Zpos (digits2_pos q) + Zpos (digits2_pos n).
Proof.
  destruct (digits_bound q) as [_ Hq], (digits_bound n) as [_ Hn],
           (digits_bound (q * n)) as [Hl _].
  set (dq := Zpos (digits2_pos q)) in *. set (dn := Zpos (digits2_pos n)) in *.
  set (dQ := Zpos (digits2_pos (q * n))) in *.
  destruct (Z.le_gt_cases dQ (dq + dn)) as [|Hgt]; [assumption|exfalso].
  assert (H1 : 2 ^ (dq + dn) <= 2 ^ (dQ - 1)) by (apply Z.pow_le_mono_r; lia).
  assert (H2 : Zpos (q * n) < 2 ^ (dq + dn)).
  { rewrite Z.pow_add_r, Pos2Z.inj_mul by (unfold dq, dn; lia).
    apply Z.mul_lt_mono_nonneg; lia. }
  lia.
Qed.

Lemma new_location_zero (m : Z) : new_location m 0 = loc_Exact.
Proof.
  unfold new_location, new_location_even, new_location_odd.
  destruct (Z.even m); reflexivity.
Qed.

(** Division of a small multiple of [n] by [n] is exact. *)
Lemma div_normal (s : bool) (q n : positive) :
  Zpos (q * n) < 2 ^ 53 ->
  PyFloat.div (normal s (q * n)) (normal false n) = normal s q.
Proof.
  intros HQ.
  assert (Hqn : Zpos q <= Zpos (q * n) /\ Zpos n <= Zpos (q * n))
    by (rewrite Pos2Z.inj_mul; nia).
  pose proof (digits_small (q * n) HQ) as HdQ.
  pose proof (digits_small q ltac:(lia)) as Hdq.
  pose proof (digits_small n ltac:(lia)) as Hdn.
  pose proof (digits_mul q n) as Hmul.
  unfold normal, PyFloat.div, SFdiv, SFdiv_core_binary, Zdigits2.
  set (dQ := Zpos (digits2_pos (q * n))) in *.
  set (dq := Zpos (digits2_pos q)) in *.
  set (dn := Zpos (digits2_pos n)) in *.
  rewrite !digits_pshift by lia. fold dQ dn.
  replace (dQ + (53 - dQ) + (dQ - 53) - (dn + (53 - dn) + (dn - 53)))
    with (dQ - dn) by lia.
  rewrite (fexp_normal (dQ - dn)) by lia.
  replace (Z.min (dQ - dn - 53) (dQ - 53 - (dn - 53))) with (dQ - dn - 53) by lia.
  replace (dQ - 53 - (dn - 53) - (dQ - dn - 53)) with 53 by lia.
  cbv iota.
  assert (Hdiv : Z.div_eucl (Z.shiftl (Zpos (pshift (q * n) (53 - dQ))) 53)
                   (Zpos (pshift n (53 - dn)))
                 = (Zpos (pshift q (53 - dQ + dn)), 0)).
  { assert (E : Z.shiftl (Zpos (pshift (q * n) (53 - dQ))) 53
                = Zpos (pshift q (53 - dQ + dn)) * Zpos (pshift n (53 - dn))).
    { rewrite Z.shiftl_mul_pow2, !pshift_Z, Pos2Z.inj_mul by lia.
      transitivity (Zpos q * Zpos n * 2 ^ (106 - dQ)).
      - rewrite <- Z.mul_assoc, <- Z.pow_add_r by lia. do 2 f_equal. lia.
      - replace (106 - dQ) with ((53 - dQ + dn) + (53 - dn)) by lia.
        rewrite Z.pow_add_r by lia. ring. }
    rewrite E.
    destruct (Z.div_eucl (Zpos (pshift q (53 - dQ + dn)) * Zpos (pshift n (53 - dn)))
                (Zpos (pshift n (53 - dn)))) as [q' r] eqn:Ed.
    assert (Hq : Zpos (pshift q (53 - dQ + dn)) * Zpos (pshift n (53 - dn))
                 / Zpos (pshift n (53 - dn)) = q')
      by (unfold Z.div; rewrite Ed; reflexivity).
    assert (Hr : (Zpos (pshift q (53 - dQ + dn)) * Zpos (pshift n (53 - dn)))
                 mod Zpos (pshift n (53 - dn)) = r)
      by (unfold Z.modulo; rewrite Ed; reflexivity).
    rewrite Z.div_mul in Hq by lia. rewrite Z.mod_mul in Hr by lia.
    subst. reflexivity. }
  rewrite Hdiv, new_location_zero, xorb_false_r.
  replace (dQ - dn - 53) with (0 - (53 - dQ + dn)) by lia.
  rewrite round_aux_shifted by (fold dq; lia).
  reflexivity.
Qed.

Lemma div_of_Z (q n : Z) :
  0 < n < 2 ^ 53 -> Z.abs (q * n) < 2 ^ 53 ->
  PyFloat.div (PyFloat.of_Z (q * n)) (PyFloat.of_Z n) = PyFloat.of_Z q.
Proof.
  intros Hn HQ. destruct n as [|n|n]; try lia.
  destruct q as [|q|q].
  - cbn [Z.mul]. rewrite (of_Z_pos n) by lia. reflexivity.
  - change (Zpos q * Zpos n) with (Zpos (q * n)) in *. cbn [Z.abs] in HQ.
    rewrite (of_Z_pos (q * n) HQ), (of_Z_pos n), (of_Z_pos q) by nia.
    apply div_normal. assumption.
  - change (Zneg q * Zpos n) with (Zneg (q * n)) in *. cbn [Z.abs] in HQ.
    rewrite (of_Z_neg (q * n) HQ), (of_Z_pos n), (of_Z_neg q) by nia.
    apply div_normal. assumption.
Qed.

(** A loop that adds small integers makes no rounding error. *)
Lemma float_sum_exact (zs : list Z) (acc : Z) :
  small_from acc zs = true -> Z.abs acc < 2 ^ 53 ->
  fold_left PyFloat.add (map PyFloat.of_Z zs) (PyFloat.of_Z acc)
  = PyFloat.of_Z (fold_left Z.add zs acc).
Proof.
  revert acc. induction zs as [|z zs IH]; intros acc H Hacc; [reflexivity|].
  cbn [small_from] in H. apply andb_true_iff in H as [H Hzs].
  apply andb_true_iff in H as [Hz Hsum].
  apply Z.ltb_lt in Hz, Hsum.
  cbn [map fold_left]. rewrite (add_of_Z acc z Hacc Hz Hsum).
  apply (IH _ Hzs Hsum).
Qed.

Lemma small_from_total (zs : list Z) (acc : Z) :
  small_from acc zs = true -> Z.abs acc < 2 ^ 53 ->
  Z.abs (fold_left Z.add zs acc) < 2 ^ 53.
Proof.
  revert acc. induction zs as [|z zs IH]; intros acc H Hacc; [assumption|].
  cbn [small_from] in H. apply andb_true_iff in H as [H Hzs].
  apply andb_true_iff in H as [_ Hsum]. apply Z.ltb_lt in Hsum.
  apply (IH _ Hzs Hsum).
Qed.

(** The mean of small integers is their sum, exact, divided once; when
    the sum is a multiple of their number the mean is exact too. *)
Lemma float_mean_exact (zs : list Z) :
  small_sums zs = true ->
  float_mean (map PyFloat.of_Z zs)
  = PyFloat.div (PyFloat.of_Z (int_sum zs))
      (PyFloat.of_Z (Z.of_nat (List.length zs))) /\
  (forall q, 0 < Z.of_nat (List.length zs) < 2 ^ 53 ->
             int_sum zs = q * Z.of_nat (List.length zs) ->
             float_mean (map PyFloat.of_Z zs) = PyFloat.of_Z q).
Proof.
  intros H.
  assert (E : float_mean (map PyFloat.of_Z zs)
              = PyFloat.div (PyFloat.of_Z (int_sum zs))
                  (PyFloat.of_Z (Z.of_nat (List.length zs)))).
  { unfold float_mean, float_sum, int_sum. rewrite length_map.
    change PyFloat.zero with (PyFloat.of_Z 0).
    rewrite (float_sum_exact zs 0 H) by (cbn; lia). reflexivity. }
  split; [exact E|]. intros q Hn Hq. rewrite E, Hq.
  apply div_of_Z; [assumption|]. rewrite <- Hq.
  apply (small_from_total zs 0 H). cbn. lia.
Qed.

End Integers.

(* ================================================================= *)
(** ** The reducers on a metric series *)

Section Reducers.

Variable w : World.

Lemma downloadData_Body url text :
  urlopen w url = Body text ->
  downloadData w url = (download_events url, Return text).
Proof. intros H. unfold downloadData. rewrite H. reflexivity. Qed.

Lemma downloadData_URLError url e :
  urlopen w url = URLError e ->
  downloadData w url
  = (download_events url, Raise (Exception (urlopen_error_prefix ++ e))).
Proof. intros H. unfold downloadData. rewrite H. reflexivity. Qed.

Lemma downloadData_OtherFailure url name :
  urlopen w url = OtherFailure name ->
  downloadData w url = (download_events url, Raise (LibraryError name)).
Proof. intros H. unfold downloadData. rewrite H. reflexivity. Qed.

Lemma to_float_number (n : number) :
  convertible n = true -> to_float w (number_json n) = ret (number_value n).
Proof.
  destruct n as [z|x]; cbn; [|reflexivity]. intros ->. reflexivity.
Qed.

(** A loop over the pairs of a well-formed series is the loop over its
    values: no conversion fails. *)
Lemma loop_series (g : PyFloat.float -> PyFloat.float -> PyFloat.float)
    (s : series) (acc : PyFloat.float) :
  well_formed s = true ->
  foldM (fun a pair => v <- item1 pair ;; x <- to_float w v ;; ret (g a x))
        (map (fun p => JArray [number_json (fst p); number_json (snd p)]) s) acc
  = ret (fold_left g (values s) acc).
Proof.
  revert acc. induction s as [|[t v] s IH]; intros acc Hs; [reflexivity|].
  cbn in Hs. apply andb_true_iff in Hs as [Hv Hs].
  cbn [map foldM fst snd values fold_left].
  cbn [item1 index nth_error]. rewrite bind_ret_l.
  rewrite (to_float_number v Hv), !bind_ret_l.
  apply (IH _ Hs).
Qed.

Lemma values_length (s : series) : List.length (values s) = List.length s.
Proof. apply length_map. Qed.

Lemma getAverage_series url text (s : series) :
  urlopen w url = Body text ->
  json_loads w text = Some (series_json s) ->
  well_formed s = true ->
  getAverage w url
  = (download_events url,
     match s with
     | [] => Raise ZeroDivisionError
     | _ => Return (float_mean (values s))
     end).
Proof.
  intros Hurl Hjson Hs. unfold getAverage.
  erewrite (bind_Return _ _ _ _ []);
    [rewrite app_nil_r; reflexivity | apply (downloadData_Body _ _ Hurl) |].
  unfold loads. rewrite Hjson. cbv beta iota. rewrite bind_ret_l.
  cbn [series_json iterate].
  rewrite bind_ret_l, (loop_series PyFloat.add s _ Hs), bind_ret_l.
  cbn [len series_json]. rewrite bind_ret_l, length_map. unfold truediv.
  destruct s as [|p s']; [reflexivity|].
  unfold float_mean, float_sum. rewrite values_length.
  destruct (Z.eqb_spec (Z.of_nat (List.length (p :: s'))) 0) as [E|E];
    [cbn in E; lia | reflexivity].
Qed.

Lemma getMax_series url text (s : series) :
  urlopen w url = Body text ->
  json_loads w text = Some (series_json s) ->
  well_formed s = true ->
  getMax w url
  = (download_events url, Return (fold_left max_step (values s) PyFloat.zero)).
Proof.
  intros Hurl Hjson Hs. unfold getMax.
  erewrite (bind_Return _ _ _ _ []);
    [rewrite app_nil_r | apply (downloadData_Body _ _ Hurl) |].
  2:{ unfold loads. rewrite Hjson. cbv beta iota. rewrite bind_ret_l.
      cbn [series_json iterate].
      rewrite bind_ret_l. apply (loop_series max_step s _ Hs). }
  reflexivity.
Qed.

End Reducers.

(** C1, as amended.  On a series of numbers [getMax] downloads once and
    returns the greatest of [0.0] and the second elements: the result is
    [0.0] or an observed value, it is not below [0.0] and no observed value
    exceeds it.  It is the maximum observed value as soon as one observed
    value is at least [0.0]; it is [0.0] for the empty series and [6.0] for
    [\[\[0,2\],\[1,4\],\[2,6\]\]]. *)
Theorem getMax_spec (w : World) (url text : string) (s : series) :
  urlopen w url = Body text ->
  json_loads w text = Some (series_json s) ->
  well_formed s = true ->
  exists r,
    getMax w url = (download_events url, Return r) /\
    (r = PyFloat.zero \/ In r (values s)) /\
    PyFloat.ltb r PyFloat.zero = false /\
    (forall v, In v (values s) -> PyFloat.ltb r v = false) /\
    ((exists v, In v (values s) /\ PyFloat.leb PyFloat.zero v = true) ->
     maximum_of r (values s)) /\
    (s = [] -> r = PyFloat.zero) /\
    (s = example_series -> r = PyFloat.of_Z 6).
Proof.
  intros Hurl Hjson Hs.
  exists (fold_left max_step (values s) PyFloat.zero).
  split; [apply (getMax_series w url text s Hurl Hjson Hs)|].
  destruct (max_loop_spec (values s) PyFloat.zero) as [Hin Hall].
  cbv zeta in Hin, Hall.
  set (r := fold_left max_step (values s) PyFloat.zero) in *.
  repeat split.
  - destruct Hin as [-> | [Hin _]]; auto.
  - destruct Hin as [-> | [_ Hr]]; [apply ltb_irrefl | now apply ltb_asym].
  - exact Hall.
  - exact Hall.
  - destruct H as (v & Hv & Hle). destruct Hin as [Hr | [Hin Hr]].
    + exists v. split; [assumption|]. rewrite Hr.
      apply leb_not_ltb; [assumption|]. rewrite <- Hr. now apply Hall.
    + exists r. split; [assumption | eapply ltb_eqb_refl; eauto].
  - intros ->. reflexivity.
  - intros ->. vm_compute. reflexivity.
Qed.

Lemma getMax_spec_witness :
  exists r,
    getMax Demo.healthy "u" = (download_events "u", Return r) /\
    (r = PyFloat.zero \/ In r (values example_series)) /\
    PyFloat.ltb r PyFloat.zero = false /\
    (forall v, In v (values example_series) -> PyFloat.ltb r v = false) /\
    ((exists v, In v (values example_series) /\ PyFloat.leb PyFloat.zero v = true) ->
     maximum_of r (values example_series)) /\
    (example_series = [] -> r = PyFloat.zero) /\
    (example_series = example_series -> r = PyFloat.of_Z 6).
Proof.
  apply (getMax_spec Demo.healthy "u" "[[0,2],[1,4],[2,6]]" example_series);
    vm_compute; reflexivity.
Defined.

(** C1 as stated fails: on the series [\[\[0,-1\]\]] the result is [0.0],
    which is not the maximum observed value [-1.0]. *)
Lemma getMax_negative_series :
  ~ (forall (w : World) (url text : string) (s : series),
        urlopen w url = Body text ->
        json_loads w text = Some (series_json s) ->
        well_formed s = true ->
        exists r, result (getMax w url) = Return r /\
                  match s with
                  | [] => r = PyFloat.zero
                  | _ => maximum_of r (values s)
                  end).
Proof.
  intros H.
  destruct (H (Demo.constant "[[0,-1]]") "u" "[[0,-1]]" [(Int 0, Int (-1))])
    as (r & Hr & _ & u & Hu & He); try (vm_compute; reflexivity).
  vm_compute in Hr. inversion Hr; subst r.
  destruct Hu as [<- | []]. vm_compute in He. discriminate.
Qed.

(** C4.  On a non-empty series of numbers [getAverage] downloads once and
    returns the arithmetic mean of the second elements, their sum from
    left to right divided by their count in double arithmetic ([4.0] for
    [\[\[0,2\],\[1,4\],\[2,6\]\]]); it ends with [ZeroDivisionError] exactly
    when the series is empty.  When the second elements are integers whose
    partial sums stay below [2^53] the sum is exact, and when their number
    divides it the result is the exact quotient. *)
Theorem getAverage_spec (w : World) (url text : string) (s : series) :
  urlopen w url = Body text ->
  json_loads w text = Some (series_json s) ->
  well_formed s = true ->
  (s <> [] ->
   getAverage w url = (download_events url, Return (float_mean (values s)))) /\
  (result (getAverage w url) = Raise ZeroDivisionError <-> s = []) /\
  (s = example_series -> result (getAverage w url) = Return (PyFloat.of_Z 4)) /\
  (forall zs : list Z,
      s <> [] -> map snd s = map Int zs -> small_sums zs = true ->
      result (getAverage w url)
      = Return (PyFloat.div (PyFloat.of_Z (int_sum zs))
                  (PyFloat.of_Z (Z.of_nat (List.length s)))) /\
      (forall q : Z,
          (Z.of_nat (List.length s) < 2 ^ 53)%Z ->
          int_sum zs = (q * Z.of_nat (List.length s))%Z ->
          result (getAverage w url) = Return (PyFloat.of_Z q))).
Proof.
  intros Hurl Hjson Hs.
  rewrite (getAverage_series w url text s Hurl Hjson Hs).
  split; [|split; [|split]].
  - destruct s; congruence.
  - split; [destruct s; [reflexivity | discriminate] | intros ->; reflexivity].
  - intros ->. vm_compute. reflexivity.
  - intros zs Hne Hzs Hsmall.
    assert (Hv : values s = map PyFloat.of_Z zs).
    { unfold values. rewrite <- (map_map snd number_value), Hzs, map_map.
      reflexivity. }
    assert (Hl : List.length zs = List.length s).
    { rewrite <- (length_map Int zs), <- Hzs. apply length_map. }
    destruct (float_mean_exact zs Hsmall) as [Hsum Hq].
    rewrite Hl in Hsum, Hq. rewrite <- Hv in Hsum, Hq.
    destruct s as [|p s']; [congruence|]. cbn [result snd].
    split; [rewrite Hsum; reflexivity|].
    intros q Hn E. rewrite (Hq q); [reflexivity | | exact E].
    split; [cbn [List.length]; lia | exact Hn].
Qed.

Lemma getAverage_spec_witness :
  (example_series <> [] ->
   getAverage Demo.healthy "u"
   = (download_events "u", Return (float_mean (values example_series)))) /\
  (result (getAverage Demo.healthy "u") = Raise ZeroDivisionError
   <-> example_series = []) /\
  (example_series = example_series ->
   result (getAverage Demo.healthy "u") = Return (PyFloat.of_Z 4)) /\
  (forall zs : list Z,
      example_series <> [] -> map snd example_series = map Int zs ->
      small_sums zs = true ->
      result (getAverage Demo.healthy "u")
      = Return (PyFloat.div (PyFloat.of_Z (int_sum zs))
                  (PyFloat.of_Z (Z.of_nat (List.length example_series)))) /\
      (forall q : Z,
          (Z.of_nat (List.length example_series) < 2 ^ 53)%Z ->
          int_sum zs = (q * Z.of_nat (List.length example_series))%Z ->
          result (getAverage Demo.healthy "u") = Return (PyFloat.of_Z q))).
Proof.
  apply (getAverage_spec Demo.healthy "u" "[[0,2],[1,4],[2,6]]" example_series);
    vm_compute; reflexivity.
Defined.

Lemma getAverage_serves (w : World) (url : string) (s : series) :
  serves_some w url s ->
  getAverage w url = (download_events url, Return (series_mean s)).
Proof.
  intros [(text & Hurl & Hjson & Hs) Hne].
  rewrite (getAverage_series w url text s Hurl Hjson Hs).
  destruct s; [congruence | reflexivity].
Qed.

Lemma mean_loop (w : World) (urls : list string) (ss : list series)
    (acc : PyFloat.float) :
  Forall2 (serves_some w) urls ss ->
  result (foldM (fun accumulator url =>
                   a <- getAverage w url ;; ret (PyFloat.add accumulator a))
                urls acc)
  = Return (fold_left PyFloat.add (map series_mean ss) acc).
Proof.
  intros H. revert acc. induction H as [|url s urls ss Hs _ IH]; intros acc.
  - reflexivity.
  - cbn [foldM map fold_left]. rewrite result_bind.
    rewrite (getAverage_serves w url s Hs). rewrite bind_Return with
      (t1 := download_events url) (a := series_mean s) (t2 := [])
      (r := Return (PyFloat.add acc (series_mean s))); try reflexivity.
    cbn [result snd]. apply IH.
Qed.

(** C5.  Over a non-empty list of URLs, each answered with a non-empty
    series of numbers, [getAverageFromList] takes the mean of every series
    and returns the mean of those means when [per_single_node] is true and
    their sum when it is false; over [\[\[0,10\]\]] and [\[\[0,20\]\]] that
    is [15.0] and [30.0].  When the means are integers whose partial sums
    stay below [2^53] the sum is exact, and when the number of URLs
    divides it the mean of the means is the exact quotient. *)
Theorem getAverageFromList_spec (w : World) (urls : list string)
    (ss : list series) :
  urls <> [] ->
  Forall2 (serves_some w) urls ss ->
  let means := map series_mean ss in
  result (getAverageFromList w urls true) = Return (float_mean means) /\
  result (getAverageFromList w urls false) = Return (float_sum means) /\
  (ss = [[(Int 0, Int 10)]; [(Int 0, Int 20)]] ->
   result (getAverageFromList w urls true) = Return (PyFloat.of_Z 15) /\
   result (getAverageFromList w urls false) = Return (PyFloat.of_Z 30)) /\
  (forall ms : list Z,
      means = map PyFloat.of_Z ms -> small_sums ms = true ->
      result (getAverageFromList w urls false)
      = Return (PyFloat.of_Z (int_sum ms)) /\
      (forall q : Z,
          (Z.of_nat (List.length urls) < 2 ^ 53)%Z ->
          int_sum ms = (q * Z.of_nat (List.length urls))%Z ->
          result (getAverageFromList w urls true) = Return (PyFloat.of_Z q))).
Proof.
  intros Hne H means.
  assert (Hlen : List.length urls = List.length means)
    by (unfold means; rewrite length_map; eapply Forall2_length; eauto).
  assert (Htrue :
    result (getAverageFromList w urls true) = Return (float_mean means)).
  { unfold getAverageFromList. rewrite result_bind, (mean_loop w urls ss _ H).
    unfold truediv, float_mean, float_sum. fold means. rewrite Hlen.
    destruct (Z.eqb_spec (Z.of_nat (List.length means)) 0) as [E|E];
      [|reflexivity].
    destruct urls; [congruence | cbn in Hlen; lia]. }
  assert (Hfalse :
    result (getAverageFromList w urls false) = Return (float_sum means)).
  { unfold getAverageFromList. rewrite result_bind, (mean_loop w urls ss _ H).
    reflexivity. }
  split; [exact Htrue|]. split; [exact Hfalse|]. split.
  - intros E. split.
    + rewrite Htrue. unfold means. rewrite E. vm_compute. reflexivity.
    + rewrite Hfalse. unfold means. rewrite E. vm_compute. reflexivity.
  - intros ms Hms Hsmall. rewrite Htrue, Hfalse, Hms.
    assert (Hl : List.length ms = List.length urls).
    { rewrite Hlen, Hms. symmetry. apply length_map. }
    destruct (float_mean_exact ms Hsmall) as [_ Hq]. rewrite Hl in Hq.
    split.
    + unfold float_sum. change PyFloat.zero with (PyFloat.of_Z 0).
      rewrite (float_sum_exact ms 0 Hsmall) by (cbn; lia). reflexivity.
    + intros q Hn E. rewrite (Hq q); [reflexivity | | exact E].
      split; [destruct urls; [congruence | cbn [List.length]; lia] | exact Hn].
Qed.

Lemma getAverageFromList_spec_witness :
  let means := map series_mean [[(Int 0, Int 10)]; [(Int 0, Int 20)]] in
  result (getAverageFromList Demo.two_nodes ["a"; "b"] true)
  = Return (float_mean means) /\
  result (getAverageFromList Demo.two_nodes ["a"; "b"] false)
  = Return (float_sum means) /\
  ([[(Int 0, Int 10)]; [(Int 0, Int 20)]] = [[(Int 0, Int 10)]; [(Int 0, Int 20)]] ->
   result (getAverageFromList Demo.two_nodes ["a"; "b"] true)
   = Return (PyFloat.of_Z 15) /\
   result (getAverageFromList Demo.two_nodes ["a"; "b"] false)
   = Return (PyFloat.of_Z 30)) /\
  (forall ms : list Z,
      means = map PyFloat.of_Z ms -> small_sums ms = true ->
      result (getAverageFromList Demo.two_nodes ["a"; "b"] false)
      = Return (PyFloat.of_Z (int_sum ms)) /\
      (forall q : Z,
          (Z.of_nat (List.length ["a"; "b"]) < 2 ^ 53)%Z ->
          int_sum ms = (q * Z.of_nat (List.length ["a"; "b"]))%Z ->
          result (getAverageFromList Demo.two_nodes ["a"; "b"] true)
          = Return (PyFloat.of_Z q))).
Proof.
  apply (getAverageFromList_spec Demo.two_nodes ["a"; "b"]
           [[(Int 0, Int 10)]; [(Int 0, Int 20)]]).
  - discriminate.
  - repeat constructor.
    + exists "[[0,10]]". repeat split; vm_compute; reflexivity.
    + discriminate.
    + exists "[[0,20]]". repeat split; vm_compute; reflexivity.
    + discriminate.
Defined.

(* ================================================================= *)
(** ** A failed download stops the run *)

Section FailStop.

Variable w : World.

Lemma fail_stop_silent {A} (m : M A) :
  (forall url, ~ In (Fetch url) (trace m)) -> fail_stop w m.
Proof.
  intros H t1 url t2 E. exfalso. apply (H url). rewrite E.
  apply in_elt.
Qed.

Lemma fail_stop_ret {A} (a : A) : fail_stop w (ret a).
Proof. apply fail_stop_silent. intros url []. Qed.

Lemma fail_stop_raise {A} (e : exn) : fail_stop w (@raise A e).
Proof. apply fail_stop_silent. intros url []. Qed.

Lemma fail_stop_print (s : string) : fail_stop w (print s).
Proof. apply fail_stop_silent. intros url [H|[]]. discriminate. Qed.

Lemma fail_stop_emit (ev : event) :
  (forall url, ev <> Fetch url) -> fail_stop w (emit ev).
Proof.
  intros H. apply fail_stop_silent. intros url [E|[]]. exact (H url E).
Qed.

Lemma fail_stop_bind {A B} (m : M A) (f : A -> M B) :
  fail_stop w m -> (forall a, fail_stop w (f a)) -> fail_stop w (bind m f).
Proof.
  intros Hm Hf t1 url t2 E. rewrite trace_bind in E. rewrite result_bind.
  destruct m as [t [a|e]]; cbn [trace result fst snd] in *.
  - apply app_eq_app in E as (l & [[E1 E2] | [E1 E2]]).
    + destruct l as [|ev l]; cbn in E2.
      * (* the download opens [f a] *)
        destruct (Hf a [] url t2 (eq_sym E2)) as [(t0 & E0) _].
        destruct t0; discriminate.
      * (* the download belongs to [m], which returned *)
        inversion E2; subst ev t2.
        destruct (Hm t1 url l E1) as [Ht0 Hstop]. split; [assumption|].
        intros e He. destruct (Hstop e He) as [_ Hr]. discriminate.
    + (* the download belongs to [f a] *)
      destruct (Hf a l url t2 E2) as [(t0 & E0) Hstop]. split.
      * exists (t ++ t0)%list. rewrite E1, E0, app_assoc. reflexivity.
      * exact Hstop.
  - destruct (Hm t1 url t2 E) as [Ht0 Hstop]. split; [assumption|].
    intros e0 He. destruct (Hstop e0 He) as [-> Hr].
    cbn in Hr. inversion Hr. auto.
Qed.

Lemma fail_stop_foldM {A B} (f : B -> A -> M B) (l : list A) (b : B) :
  (forall b a, fail_stop w (f b a)) -> fail_stop w (foldM f l b).
Proof.
  intros Hf. revert b. induction l as [|a l IH]; intros b; cbn [foldM].
  - apply fail_stop_ret.
  - apply fail_stop_bind; auto.
Qed.

Lemma fail_stop_mapM {A B} (f : A -> M B) (l : list A) :
  (forall a, fail_stop w (f a)) -> fail_stop w (mapM f l).
Proof.
  intros Hf. induction l as [|a l IH]; cbn [mapM].
  - apply fail_stop_ret.
  - apply fail_stop_bind; [auto|]. intros b.
    apply fail_stop_bind; [auto|]. intros bs. apply fail_stop_ret.
Qed.

Lemma fail_stop_index {A} (l : list A) (i : nat) : fail_stop w (index l i).
Proof.
  unfold index. destruct (nth_error l i);
    [apply fail_stop_ret | apply fail_stop_raise].
Qed.

Lemma fail_stop_downloadData (url : string) : fail_stop w (downloadData w url).
Proof.
  intros t1 u t2 E. unfold downloadData in *.
  assert (Ht : exists r, (print ("downloading: " ++ url) ;; emit (Fetch url) ;;
                match urlopen w url with
                | Body text => ret text
                | URLError e => raise (Exception (urlopen_error_prefix ++ e))
                | OtherFailure name => raise (LibraryError name)
                end) = (download_events url, r)
              /\ forall e, download_exn (urlopen w url) = Some e -> r = Raise e).
  { destruct (urlopen w url); eexists; (split; [reflexivity|]);
      cbn; intros e0 H; inversion H; reflexivity. }
  destruct Ht as (r & Hr & Hfail). rewrite Hr in *. cbn [trace result fst snd] in *.
  unfold download_events in E.
  destruct t1 as [|ev1 [|ev2 t1]]; cbn in E; try discriminate.
  - inversion E; subst. split; [exists []; reflexivity | auto].
  - inversion E. destruct t1; discriminate.
Qed.

Ltac fail_stop_step :=
  first
    [ apply fail_stop_ret | apply fail_stop_raise | apply fail_stop_print
    | apply fail_stop_downloadData | apply fail_stop_index
    | apply fail_stop_emit; intros ? ?; discriminate
    | apply fail_stop_bind; [|intros ?]
    | apply fail_stop_foldM; intros ? ?
    | apply fail_stop_mapM; intros ?
    | match goal with
      | |- fail_stop _ (match ?x with _ => _ end) => destruct x
      end ].

Lemma fail_stop_getAverage (url : string) : fail_stop w (getAverage w url).
Proof.
  unfold getAverage, loads, iterate, len, item1, to_float, truediv.
  repeat fail_stop_step.
Qed.

Lemma fail_stop_getMax (url : string) : fail_stop w (getMax w url).
Proof.
  unfold getMax, loads, iterate, item1, to_float.
  repeat fail_stop_step.
Qed.

Lemma fail_stop_getAverageFromList (urls : list string) (b : bool) :
  fail_stop w (getAverageFromList w urls b).
Proof.
  unfold getAverageFromList, truediv.
  repeat first [apply fail_stop_getAverage | fail_stop_step].
Qed.

Lemma fail_stop_build_data project number label snapshot bucket nodes hasLatency :
  fail_stop w (build_data w project number label snapshot bucket nodes hasLatency).
Proof.
  unfold build_data.
  repeat first [ apply fail_stop_getAverage | apply fail_stop_getMax
               | apply fail_stop_getAverageFromList | fail_stop_step ].
Qed.

Lemma fail_stop_process_job output_dir project number label consoleText vars :
  fail_stop w (process_job w output_dir project number label consoleText vars).
Proof.
  unfold process_job, scrape_snapshot, scrape_nodes, scrape_bucket, group0, dumps.
  repeat first [ apply fail_stop_build_data | fail_stop_step ].
Qed.

Lemma fail_stop_job_body output_dir job vars :
  fail_stop w (job_body w output_dir job vars).
Proof.
  unfold job_body.
  repeat first [ apply fail_stop_process_job | fail_stop_step ].
Qed.

Lemma fail_stop_write_csv output_dir vars :
  fail_stop w (write_csv w output_dir vars).
Proof.
  unfold write_csv, dict_to_list. repeat fail_stop_step.
Qed.

Lemma fail_stop_main job_list output_dir :
  fail_stop w (main w job_list output_dir).
Proof.
  unfold main, main_loop.
  repeat first [ apply fail_stop_write_csv | apply fail_stop_job_body
               | fail_stop_step ].
Qed.

End FailStop.

(** C2, as amended.  When a download of the run fails, [downloadData]
    raises: for a [URLError] an [Exception] whose message is a fixed text
    followed by the [repr] of that error (the URL is only printed on the
    line before), for any other failure that failure itself.  Nothing
    catches it: the run ends with this exception, and the announcement and
    the failed download are its last two events. *)
Theorem failed_download_aborts (w : World) (job_list : list string)
    (output_dir url : string) (e : exn) :
  In (Fetch url) (trace (main w job_list output_dir)) ->
  download_exn (urlopen w url) = Some e ->
  downloadData w url = (download_events url, Raise e) /\
  (forall r, urlopen w url = URLError r ->
             e = Exception (urlopen_error_prefix ++ r)) /\
  result (main w job_list output_dir) = Raise e /\
  exists t, trace (main w job_list output_dir) = (t ++ download_events url)%list.
Proof.
  intros Hin He.
  apply in_split in Hin as (t1 & t2 & E).
  destruct (fail_stop_main w job_list output_dir t1 url t2 E) as [(t0 & E0) Hstop].
  destruct (Hstop e He) as [-> Hr].
  repeat split.
  - unfold downloadData. destruct (urlopen w url); inversion He; reflexivity.
  - intros r Hu. rewrite Hu in He. inversion He. reflexivity.
  - exact Hr.
  - exists t0. rewrite E, E0, <- app_assoc. reflexivity.
Qed.

Lemma failed_download_aborts_witness :
  let url := console_url "p" "1" in
  let e := Exception (urlopen_error_prefix ++ Demo.timed_out) in
  downloadData Demo.offline url = (download_events url, Raise e) /\
  (forall r, urlopen Demo.offline url = URLError r ->
             e = Exception (urlopen_error_prefix ++ r)) /\
  result (main Demo.offline ["p:1"; "p:2"] "D") = Raise e /\
  exists t, trace (main Demo.offline ["p:1"; "p:2"] "D")
            = (t ++ download_events url)%list.
Proof.
  apply (failed_download_aborts Demo.offline ["p:1"; "p:2"] "D"
           (console_url "p" "1")).
  - vm_compute. tauto.
  - reflexivity.
Defined.

(** C2 as stated fails: the exception of a failed download does not carry
    the URL, whatever the URL is its message is the same. *)
Lemma exception_lacks_url :
  ~ (forall (w : World) (url r : string),
        urlopen w url = URLError r ->
        exists msg, result (downloadData w url) = Raise (Exception msg) /\
                    PyStr.find msg url <> (-1)%Z).
Proof.
  intros H.
  destruct (H Demo.offline (console_url "p" "1") Demo.timed_out eq_refl)
    as (msg & Hmsg & Hfind).
  vm_compute in Hmsg. inversion Hmsg; subst msg.
  apply Hfind. vm_compute. reflexivity.
Qed.

(* ================================================================= *)
(** ** Facts about the string functions *)

Section StringFacts.

Import PyStr.

Lemma match_at_startswith (lit s : string) :
  startswith lit s = true <-> exists m, match_at lit s = Some m.
Proof.
  revert s. induction lit as [|a lit IH]; intros s; cbn.
  - split; eauto.
  - destruct s as [|b s]; [split; [discriminate | intros [m H]; discriminate]|].
    destruct (Ascii.eqb a b); [|split; [discriminate | intros [m H]; discriminate]].
    rewrite IH. split; intros [m H].
    + rewrite H. cbn. eauto.
    + destruct (match_at lit s); [eauto | discriminate].
Qed.

(** The text matched by [lit.*] starts with [lit]. *)
Lemma match_at_prefix (lit s m : string) :
  match_at lit s = Some m -> exists r, m = lit ++ r.
Proof.
  revert s m. induction lit as [|a lit IH]; intros s m; cbn.
  - intros H. inversion H. eauto.
  - destruct s as [|b s]; [discriminate|].
    destruct (Ascii.eqb a b); [|discriminate].
    destruct (match_at lit s) as [m'|] eqn:E; [|discriminate].
    cbn. intros H. inversion H. destruct (IH _ _ E) as [r ->]. eauto.
Qed.

Lemma re_search_prefix (lit s m : string) :
  re_search lit s = Some m -> exists r, m = lit ++ r.
Proof.
  induction s as [|c s IH]; cbn.
  - destruct (match_at lit "") eqn:E; [|discriminate].
    intros H. inversion H; subst. eapply match_at_prefix; eauto.
  - destruct (match_at lit (String c s)) eqn:E.
    + intros H. inversion H; subst. eapply match_at_prefix; eauto.
    + exact IH.
Qed.

Lemma findall_go_prefix (lit s : string) (skip : nat) (m : string) :
  In m (findall_go lit s skip) -> exists r, m = lit ++ r.
Proof.
  revert skip. induction s as [|c s IH]; intros skip; cbn.
  - destruct skip; [|intros []].
    destruct (match_at lit "") eqn:E; [|intros []].
    intros [<-|[]]. eapply match_at_prefix; eauto.
  - destruct skip as [|k]; [|apply IH].
    destruct (match_at lit (String c s)) eqn:E; [|apply IH].
    intros [<-|H]; [eapply match_at_prefix; eauto | eapply IH; eauto].
Qed.

(** [s.find(sub)] is [-1] exactly when [re.search(sub + ".*", s)] finds
    nothing. *)
Lemma find_from_re_search (sub s : string) (i : Z) :
  (0 <= i)%Z -> find_from sub s i = (-1)%Z <-> re_search sub s = None.
Proof.
  revert i. induction s as [|c s IH]; intros i Hi; cbn [find_from re_search].
  - destruct (startswith sub "") eqn:E.
    + apply match_at_startswith in E as [m ->]. split; [lia | discriminate].
    + destruct (match_at sub "") eqn:E'; [|tauto].
      assert (startswith sub "" = true) by (apply match_at_startswith; eauto).
      congruence.
  - destruct (startswith sub (String c s)) eqn:E.
    + apply match_at_startswith in E as [m ->]. split; [lia | discriminate].
    + destruct (match_at sub (String c s)) eqn:E'.
      * assert (startswith sub (String c s) = true)
          by (apply match_at_startswith; eauto). congruence.
      * apply IH. lia.
Qed.

Lemma find_re_search (sub s : string) :
  find s sub = (-1)%Z <-> re_search sub s = None.
Proof. apply find_from_re_search. lia. Qed.

Lemma split_go_nonempty (sep s : string) (skip : nat) :
  split_go sep s skip <> [].
Proof.
  revert skip. induction s as [|c s IH]; intros skip; cbn; [discriminate|].
  destruct skip; [|apply IH].
  destruct (startswith sep (String c s)); [discriminate|].
  destruct (split_go sep s 0) eqn:E; discriminate.
Qed.

End StringFacts.

(* ================================================================= *)
(** ** The main loop *)

Section MainLoop.

Variable w : World.
Variable output_dir : string.

Lemma job_body_console (job log : string) (vars : Vars) :
  console_of w job = Some log ->
  job_body w output_dir job vars
  = bind (announce job, Return tt)
      (fun _ =>
         if (PyStr.find log "snapshot=" =? -1)%Z
         then print ("Snapshot not found for job" ++ job
                     ++ ", probably the job has been aborted. Skipping..") ;;
              ret vars
         else process_job w output_dir (job_project job) (job_number job)
                (if (List.length (PyStr.split job ":") =? 3)%nat
                 then nth 2 (PyStr.split job ":") "" else "")
                log vars).
Proof.
  unfold console_of, job_body.
  destruct (List.length (PyStr.split job ":") <? 2)%nat; [discriminate|].
  fold (job_project job) (job_number job) (job_console_url job).
  destruct (urlopen w (job_console_url job)) as [text| |] eqn:E; try discriminate.
  intros H. inversion H; subst text.
  unfold downloadData. rewrite E. cbn.
  destruct (PyStr.find log "snapshot=" =? -1)%Z; [reflexivity|].
  destruct (process_job _ _ _ _ _ _ _). reflexivity.
Qed.

Lemma job_body_skipped (job : string) (vars : Vars) :
  lacks_snapshot w job = true ->
  job_body w output_dir job vars = (skip_events job, Return vars).
Proof.
  unfold lacks_snapshot. destruct (console_of w job) as [log|] eqn:E;
    [|discriminate].
  intros H. rewrite (job_body_console job log vars E), H. reflexivity.
Qed.

Lemma main_loop_cons (job : string) (rest : list string) (vars : Vars) :
  main_loop w output_dir (job :: rest) vars
  = bind (job_body w output_dir job vars) (main_loop w output_dir rest).
Proof. reflexivity. Qed.

Lemma main_loop_app (before after : list string) (vars : Vars) :
  main_loop w output_dir (before ++ after) vars
  = bind (main_loop w output_dir before vars) (main_loop w output_dir after).
Proof. apply foldM_app. Qed.

Lemma file_events_app (t1 t2 : list event) :
  file_events (t1 ++ t2) = (file_events t1 ++ file_events t2)%list.
Proof. apply filter_app. Qed.

Lemma file_content_file_events (path : string) (t : list event) cur :
  file_content path t cur = file_content path (file_events t) cur.
Proof.
  revert cur. induction t as [|ev t IH]; intros cur; [reflexivity|].
  destruct ev; cbn; auto.
Qed.

Lemma observe_bind {A B} (m1 m2 : M A) (f1 f2 : A -> M B) :
  observe m1 = observe m2 ->
  (forall a, observe (f1 a) = observe (f2 a)) ->
  observe (bind m1 f1) = observe (bind m2 f2).
Proof.
  unfold observe. intros H Hf. inversion H as [[Ht Hr]].
  rewrite !trace_bind, !result_bind, <- Hr.
  destruct (result m1) as [a|e].
  - specialize (Hf a). inversion Hf as [[Ht' Hr']].
    rewrite !file_events_app. congruence.
  - congruence.
Qed.

Lemma observe_files {A} (m1 m2 : M A) (path : string) :
  observe m1 = observe m2 ->
  file_after (trace m1) path = file_after (trace m2) path.
Proof.
  unfold observe, file_after. intros H. inversion H as [[Ht Hr]].
  rewrite (file_content_file_events path (trace m1)),
          (file_content_file_events path (trace m2)). congruence.
Qed.

End MainLoop.

(** C3.  A job whose console log lacks [snapshot=] is skipped: its
    iteration only prints and downloads the log, it opens no file and
    leaves [data_list] and [data] as they were, and the loop goes on with
    the jobs after it.  The run leaves the same files, with the same
    contents (JSON files and CSV rows), and ends the same way as the run
    without that job. *)
Theorem skipped_job (w : World) (output_dir : string)
    (before after : list string) (job : string) :
  lacks_snapshot w job = true ->
  (forall vars,
      job_body w output_dir job vars = (skip_events job, Return vars)) /\
  file_events (skip_events job) = [] /\
  (forall vars,
      main_loop w output_dir (job :: after) vars
      = ((skip_events job ++ trace (main_loop w output_dir after vars))%list,
         result (main_loop w output_dir after vars))) /\
  result (main w (before ++ job :: after) output_dir)
  = result (main w (before ++ after) output_dir) /\
  (forall path,
      file_after (trace (main w (before ++ job :: after) output_dir)) path
      = file_after (trace (main w (before ++ after) output_dir)) path).
Proof.
  intros Hskip.
  assert (Hbody := fun vars => job_body_skipped w output_dir job vars Hskip).
  assert (Hloop : forall vars,
      main_loop w output_dir (job :: after) vars
      = ((skip_events job ++ trace (main_loop w output_dir after vars))%list,
         result (main_loop w output_dir after vars))).
  { intros vars. rewrite main_loop_cons, Hbody. cbn [bind].
    destruct (main_loop w output_dir after vars). reflexivity. }
  assert (Hobs : observe (main w (before ++ job :: after) output_dir)
                 = observe (main w (before ++ after) output_dir)).
  { unfold main. apply observe_bind; [reflexivity|]. intros _.
    apply observe_bind; [reflexivity|]. intros _.
    apply observe_bind; [|reflexivity].
    rewrite !main_loop_app. apply observe_bind; [reflexivity|]. intros vars.
    rewrite Hloop. unfold observe. cbn [trace result fst snd].
    rewrite file_events_app. reflexivity. }
  repeat split; try assumption.
  - inversion Hobs. reflexivity.
  - intros path. apply observe_files. exact Hobs.
Qed.

Lemma skipped_job_witness :
  (forall vars,
      job_body Demo.healthy "D" "q:7" vars = (skip_events "q:7", Return vars)) /\
  file_events (skip_events "q:7") = [] /\
  (forall vars,
      main_loop Demo.healthy "D" ("q:7" :: ["p:2:my label"]) vars
      = ((skip_events "q:7"
          ++ trace (main_loop Demo.healthy "D" ["p:2:my label"] vars))%list,
         result (main_loop Demo.healthy "D" ["p:2:my label"] vars))) /\
  result (main Demo.healthy (["p:1"] ++ "q:7" :: ["p:2:my label"]) "D")
  = result (main Demo.healthy (["p:1"] ++ ["p:2:my label"]) "D") /\
  (forall path,
      file_after (trace (main Demo.healthy
                           (["p:1"] ++ "q:7" :: ["p:2:my label"]) "D")) path
      = file_after (trace (main Demo.healthy
                             (["p:1"] ++ ["p:2:my label"]) "D")) path).
Proof.
  apply (skipped_job Demo.healthy "D" ["p:1"] ["p:2:my label"] "q:7").
  vm_compute. reflexivity.
Defined.

Section Abort.

Variable w : World.
Variable output_dir : string.

Lemma main_loop_skipped (job_list : list string) (vars : Vars) :
  forallb (lacks_snapshot w) job_list = true ->
  main_loop w output_dir job_list vars
  = (flat_map skip_events job_list, Return vars).
Proof.
  induction job_list as [|job rest IH]; cbn [forallb flat_map]; [reflexivity|].
  intros H. apply andb_true_iff in H as [Hjob Hrest].
  rewrite main_loop_cons, (job_body_skipped w output_dir job vars Hjob).
  cbn [bind]. rewrite (IH Hrest). reflexivity.
Qed.

Lemma file_events_skipped (job_list : list string) :
  file_events (flat_map skip_events job_list) = [].
Proof.
  induction job_list as [|job rest IH]; [reflexivity|].
  cbn [flat_map]. rewrite file_events_app, IH. reflexivity.
Qed.

Lemma mapM_total {A B} (f : A -> M B) (l : list A) :
  (forall a, In a l -> exists b, f a = ret b) -> exists bs, mapM f l = ret bs.
Proof.
  induction l as [|a l IH]; intros H; cbn [mapM]; [eauto|].
  destruct (H a (or_introl eq_refl)) as [b ->].
  destruct IH as [bs ->]; [intros; apply H; now right|].
  rewrite !bind_ret_l. eauto.
Qed.

Lemma scrape_snapshot_total (log : string) :
  PyStr.find log "snapshot=" <> (-1)%Z ->
  exists snapshot, scrape_snapshot log = ret snapshot.
Proof.
  intros H. unfold scrape_snapshot.
  destruct (PyStr.re_search "snapshot=" log) as [m|] eqn:E;
    [|apply find_re_search in E; contradiction].
  destruct (re_search_prefix _ _ _ E) as [r ->].
  cbn [group0]. rewrite bind_ret_l. unfold PyStr.split. cbn.
  destruct (PyStr.split_go "=" r 0) as [|h t] eqn:Er;
    [exfalso; eapply split_go_nonempty; eauto|].
  cbn. eexists. reflexivity.
Qed.

Lemma scrape_nodes_total (log : string) :
  exists node_list, scrape_nodes log = ret node_list.
Proof.
  unfold scrape_nodes. apply mapM_total. intros m Hm.
  destruct (findall_go_prefix _ _ _ _ Hm) as [r ->].
  unfold PyStr.split. cbn.
  destruct (PyStr.split_go "from" r 0) as [|h t] eqn:Er;
    [exfalso; eapply split_go_nonempty; eauto|].
  cbn. eexists. reflexivity.
Qed.

End Abort.

(** C10, as amended.  When every job of the list is skipped for want of
    [snapshot=], no job record is ever bound to [data]: after the loop the
    script opens [data.csv] for writing, which creates it, and only then
    evaluates [data.keys()], which ends the run with a [NameError].  The
    file [data.csv] therefore exists and is empty, without header or rows,
    and it is the only file of the run. *)
Theorem all_jobs_skipped (w : World) (job_list : list string)
    (output_dir : string) :
  forallb (lacks_snapshot w) job_list = true ->
  main w job_list output_dir
  = ((run_header job_list output_dir ++ flat_map skip_events job_list
      ++ [FileOpen (csv_path output_dir)])%list,
     Raise (NameError "data")) /\
  file_after (trace (main w job_list output_dir)) (csv_path output_dir) = Some [] /\
  (forall path, path <> csv_path output_dir ->
                file_after (trace (main w job_list output_dir)) path = None).
Proof.
  intros H.
  assert (E : main w job_list output_dir
              = ((run_header job_list output_dir ++ flat_map skip_events job_list
                  ++ [FileOpen (csv_path output_dir)])%list,
                 Raise (NameError "data"))).
  { unfold main. rewrite (main_loop_skipped w output_dir job_list _ H).
    reflexivity. }
  rewrite E. cbn [trace fst]. unfold file_after.
  repeat split; try intros path Hpath;
    rewrite file_content_file_events, !file_events_app, file_events_skipped;
    cbn.
  - rewrite String.eqb_refl. reflexivity.
  - destruct (String.eqb_spec (csv_path output_dir) path); congruence.
Qed.

Lemma all_jobs_skipped_witness :
  main Demo.healthy ["q:7"; "q:8"] "D"
  = ((run_header ["q:7"; "q:8"] "D" ++ flat_map skip_events ["q:7"; "q:8"]
      ++ [FileOpen (csv_path "D")])%list,
     Raise (NameError "data")) /\
  file_after (trace (main Demo.healthy ["q:7"; "q:8"] "D")) (csv_path "D")
  = Some [] /\
  (forall path, path <> csv_path "D" ->
                file_after (trace (main Demo.healthy ["q:7"; "q:8"] "D")) path
                = None).
Proof.
  apply (all_jobs_skipped Demo.healthy ["q:7"; "q:8"] "D").
  vm_compute. reflexivity.
Defined.

(** C10 as stated fails: when the only job is skipped the run does end
    with an error, but [data.csv] has been created. *)
Lemma csv_created_before_error :
  ~ (forall (w : World) (job_list : list string) (output_dir : string),
        forallb (lacks_snapshot w) job_list = true ->
        (exists e, result (main w job_list output_dir) = Raise e) /\
        file_after (trace (main w job_list output_dir)) (csv_path output_dir)
        = None).
Proof.
  intros H.
  destruct (H Demo.healthy ["q:7"] "D" eq_refl) as [_ Hfile].
  vm_compute in Hfile. discriminate.
Qed.

(** C6.  A job whose console log has [snapshot=] but no
    [Adding new bucket] is not skipped: its iteration prints the snapshot
    and the nodes and then ends with the [AttributeError] of calling
    [group] on the failed search.  Nothing catches it: the run ends with
    that exception inside this iteration, before any job after it and
    before the CSV file. *)
Theorem missing_bucket_aborts (w : World) (output_dir : string)
    (before after : list string) (job : string)
    (t1 : list event) (vars1 : Vars) :
  lacks_bucket w job = true ->
  main_loop w output_dir before first_vars = (t1, Return vars1) ->
  (exists snapshot nodes,
      job_body w output_dir job vars1
      = ((announce job
          ++ [Print ("snapshot: " ++ snapshot);
              Print ("nodes: " ++ PyRepr.str_of_set nodes)])%list,
         Raise AttributeError)) /\
  main w (before ++ job :: after) output_dir
  = ((run_header (before ++ job :: after) output_dir ++ t1
      ++ trace (job_body w output_dir job vars1))%list,
     Raise AttributeError).
Proof.
  unfold lacks_bucket. intros H Hbefore.
  destruct (console_of w job) as [log|] eqn:Elog; [|discriminate].
  apply andb_true_iff in H as [Hsnap Hbucket].
  apply negb_true_iff in Hsnap. apply Z.eqb_eq in Hbucket.
  assert (Hsnap' : PyStr.find log "snapshot=" <> (-1)%Z)
    by (apply Z.eqb_neq; assumption).
  destruct (scrape_snapshot_total log Hsnap') as [snapshot Es].
  destruct (scrape_nodes_total log) as [node_list En].
  apply find_re_search in Hbucket.
  assert (Hbody :
    job_body w output_dir job vars1
    = ((announce job
        ++ [Print ("snapshot: " ++ snapshot);
            Print ("nodes: " ++ PyRepr.str_of_set (set_order w node_list))])%list,
       Raise AttributeError)).
  { rewrite (job_body_console w output_dir job log vars1 Elog), Hsnap.
    unfold process_job, scrape_bucket. rewrite Es, En, Hbucket. reflexivity. }
  split; [eauto|].
  unfold main. rewrite main_loop_app. fold first_vars. rewrite Hbefore.
  cbn [bind print emit]. rewrite main_loop_cons, Hbody.
  cbn [bind trace fst app]. reflexivity.
Qed.

Lemma missing_bucket_aborts_witness :
  (exists snapshot nodes,
      job_body Demo.healthy "D" "p:3" first_vars
      = ((announce "p:3"
          ++ [Print ("snapshot: " ++ snapshot);
              Print ("nodes: " ++ PyRepr.str_of_set nodes)])%list,
         Raise AttributeError)) /\
  main Demo.healthy ([] ++ "p:3" :: ["p:1"]) "D"
  = ((run_header ([] ++ "p:3" :: ["p:1"]) "D" ++ []
      ++ trace (job_body Demo.healthy "D" "p:3" first_vars))%list,
     Raise AttributeError).
Proof.
  apply (missing_bucket_aborts Demo.healthy "D" [] ["p:1"] "p:3" [] first_vars);
    vm_compute; reflexivity.
Defined.

(* ================================================================= *)
(** ** The job record *)

Ltac invert_bind H :=
  let t1 := fresh "t" in
  let a := fresh "a" in
  let t2 := fresh "t" in
  let H1 := fresh "H" in
  let E := fresh "E" in
  apply bind_Return_inv in H as (t1 & a & t2 & H1 & H & E).

Section Record.

Variable w : World.

Lemma latency_value_inv (hasLatency : bool) (url : string) t v :
  (if hasLatency then x <- getAverage w url ;; ret (fmt x) else ret "N/A")
  = (t, Return v) ->
  if hasLatency
  then exists x, result (getAverage w url) = Return x /\ v = fmt x
  else v = "N/A".
Proof.
  destruct hasLatency; intros H.
  - invert_bind H. inversion H; subst. exists a. rewrite H0. auto.
  - inversion H. reflexivity.
Qed.

Lemma build_data_inv project number label snapshot bucket nodes hasLatency t d :
  build_data w project number label snapshot bucket nodes hasLatency
  = (t, Return d) ->
  map fst d = record_keys /\
  get d "job" "" = project ++ ":" ++ number /\
  get d "label" "" = label /\
  get d "snapshot" "" = snapshot /\
  if hasLatency
  then exists xs xg,
         result (getAverage w (latency_url snapshot bucket "/latency_set"))
         = Return xs /\
         result (getAverage w (latency_url snapshot bucket "/latency_get"))
         = Return xg /\
         get d "latency_set" "" = fmt xs /\ get d "latency_get" "" = fmt xg
  else get d "latency_set" "" = "N/A" /\ get d "latency_get" "" = "N/A".
Proof.
  unfold build_data. intros H.
  invert_bind H. invert_bind H.
  apply latency_value_inv in H1. invert_bind H.
  apply latency_value_inv in H2.
  do 12 invert_bind H.
  inversion H; subst d. clear H.
  repeat split.
  destruct hasLatency.
  - destruct H1 as (xs & Hxs & ->), H2 as (xg & Hxg & ->).
    exists xs, xg. repeat split; assumption.
  - subst. split; reflexivity.
Qed.

End Record.

(* ================================================================= *)
(** ** Which URLs a computation downloads *)

Section Avoids.

Variable w : World.
Variable P : string -> bool.

Lemma fetched_app (t1 t2 : list event) :
  fetched (t1 ++ t2) = (fetched t1 ++ fetched t2)%list.
Proof. apply flat_map_app. Qed.

Lemma avoids_silent {A} (m : M A) : fetched (trace m) = [] -> avoids P m.
Proof. unfold avoids. intros ->. constructor. Qed.

Lemma avoids_ret {A} (a : A) : avoids P (ret a).
Proof. now apply avoids_silent. Qed.

Lemma avoids_raise {A} (e : exn) : avoids P (@raise A e).
Proof. now apply avoids_silent. Qed.

Lemma avoids_print (s : string) : avoids P (print s).
Proof. now apply avoids_silent. Qed.

Lemma avoids_file (ev : event) : is_file_event ev = true -> avoids P (emit ev).
Proof. intros H. apply avoids_silent. destruct ev; try discriminate; reflexivity. Qed.

Lemma avoids_bind {A B} (m : M A) (f : A -> M B) :
  avoids P m -> (forall a, avoids P (f a)) -> avoids P (bind m f).
Proof.
  unfold avoids. intros Hm Hf. rewrite trace_bind.
  destruct (result m) as [a|e]; [|assumption].
  rewrite fetched_app. apply Forall_app. auto.
Qed.

Lemma avoids_foldM {A B} (f : B -> A -> M B) (l : list A) (b : B) :
  (forall b a, In a l -> avoids P (f b a)) -> avoids P (foldM f l b).
Proof.
  revert b. induction l as [|a l IH]; intros b Hf; cbn [foldM].
  - apply avoids_ret.
  - apply avoids_bind; [apply Hf; now left|].
    intros b'. apply IH. intros; apply Hf; now right.
Qed.

Lemma avoids_mapM {A B} (f : A -> M B) (l : list A) :
  (forall a, avoids P (f a)) -> avoids P (mapM f l).
Proof.
  intros Hf. induction l as [|a l IH]; cbn [mapM].
  - apply avoids_ret.
  - apply avoids_bind; [auto|]. intros b.
    apply avoids_bind; [auto|]. intros bs. apply avoids_ret.
Qed.

Lemma avoids_index {A} (l : list A) (i : nat) : avoids P (index l i).
Proof.
  unfold index. destruct (nth_error l i); [apply avoids_ret | apply avoids_raise].
Qed.

Lemma avoids_downloadData (url : string) :
  P url = false -> avoids P (downloadData w url).
Proof.
  intros H. unfold avoids, downloadData.
  destruct (urlopen w url); cbn; repeat constructor; assumption.
Qed.

Ltac avoids_step :=
  first
    [ apply avoids_ret | apply avoids_raise | apply avoids_print
    | apply avoids_index
    | apply avoids_file; reflexivity
    | apply avoids_downloadData; assumption
    | apply avoids_bind; [|intros ?]
    | apply avoids_mapM; intros ?
    | match goal with
      | |- avoids _ (match ?x with _ => _ end) => destruct x
      end ].

Lemma avoids_getAverage (url : string) :
  P url = false -> avoids P (getAverage w url).
Proof.
  intros H. unfold getAverage, loads, iterate, len, item1, to_float, truediv.
  repeat first [avoids_step | apply avoids_foldM; intros ? ? ?].
Qed.

Lemma avoids_getMax (url : string) :
  P url = false -> avoids P (getMax w url).
Proof.
  intros H. unfold getMax, loads, iterate, item1, to_float.
  repeat first [avoids_step | apply avoids_foldM; intros ? ? ?].
Qed.

Lemma avoids_getAverageFromList (urls : list string) (b : bool) :
  (forall url, In url urls -> P url = false) ->
  avoids P (getAverageFromList w urls b).
Proof.
  intros H. unfold getAverageFromList, truediv.
  apply avoids_bind.
  - apply avoids_foldM. intros acc url Hin.
    apply avoids_bind; [apply avoids_getAverage; auto | intros; apply avoids_ret].
  - intros acc. repeat avoids_step.
Qed.

Lemma avoids_dumps (d : dict) : avoids P (dumps d).
Proof.
  unfold dumps. destruct (forallb _ d); [apply avoids_ret | apply avoids_raise].
Qed.

Lemma avoids_scrape (consoleText : string) :
  avoids P (scrape_snapshot consoleText) /\
  avoids P (scrape_nodes consoleText) /\
  avoids P (scrape_bucket consoleText).
Proof.
  unfold scrape_snapshot, scrape_nodes, scrape_bucket, group0.
  repeat split; repeat avoids_step.
Qed.

End Avoids.

Section Latency.

Variable w : World.

Ltac by_prefix :=
  match goal with
  | |- forall url, In url (map _ _) -> _ =>
      let u := fresh "u" in
      let H := fresh "H" in
      let n := fresh "node" in
      intros u H; apply in_map_iff in H as (n & <- & _); reflexivity
  | |- _ => reflexivity
  end.

(** Without [hasLatency], no URL of the catalog that is downloaded belongs
    to the [spring_latency] dataset. *)
Lemma build_data_avoids_latency project number label snapshot bucket nodes :
  avoids is_latency_url
    (build_data w project number label snapshot bucket nodes false).
Proof.
  unfold build_data. cbv zeta.
  repeat match goal with
  | |- avoids _ (getAverage _ _) => apply avoids_getAverage; by_prefix
  | |- avoids _ (getMax _ _) => apply avoids_getMax; by_prefix
  | |- avoids _ (getAverageFromList _ _ _) =>
      apply avoids_getAverageFromList; by_prefix
  | |- avoids _ (bind _ _) => apply avoids_bind; [|intros ?]
  | |- avoids _ (ret _) => apply avoids_ret
  end.
Qed.

End Latency.

Section ProcessJob.

Variable w : World.
Variable output_dir : string.

Lemma trace_mapM_pure {A B} (f : A -> M B) (l : list A) :
  (forall a, trace (f a) = []) -> trace (mapM f l) = [].
Proof.
  intros Hf. induction l as [|a l IH]; cbn [mapM]; [reflexivity|].
  rewrite trace_bind, Hf. destruct (result (f a)); [|reflexivity].
  rewrite trace_bind, IH. destruct (result (mapM f l)); reflexivity.
Qed.

Lemma trace_index {A} (l : list A) (i : nat) : trace (index l i) = [].
Proof. unfold index. destruct (nth_error l i); reflexivity. Qed.

Lemma trace_scrape_snapshot log : trace (scrape_snapshot log) = [].
Proof.
  unfold scrape_snapshot. destruct (PyStr.re_search "snapshot=" log); cbn [group0].
  - rewrite bind_ret_l. apply trace_index.
  - reflexivity.
Qed.

Lemma trace_scrape_nodes log : trace (scrape_nodes log) = [].
Proof.
  unfold scrape_nodes. apply trace_mapM_pure. intros m.
  rewrite trace_bind, trace_index.
  destruct (result (index (PyStr.split m "from") 1)); reflexivity.
Qed.

Lemma trace_scrape_bucket log : trace (scrape_bucket log) = [].
Proof.
  unfold scrape_bucket.
  destruct (PyStr.re_search "Adding new bucket" log); cbn [group0]; [|reflexivity].
  rewrite bind_ret_l, trace_bind, trace_index.
  destruct (result (index (PyStr.split s ":") 1)); reflexivity.
Qed.

Lemma pure_Return {A} (m : M A) t a :
  trace m = [] -> m = (t, Return a) -> t = [] /\ m = ret a.
Proof. intros H ->. cbn in H. subst. split; reflexivity. Qed.

(** What a completed iteration has done. *)
Lemma process_job_inv project number label log vars t vars' :
  process_job w output_dir project number label log vars = (t, Return vars') ->
  exists snapshot node_list bucket tb d,
    scrape_snapshot log = ret snapshot /\
    scrape_nodes log = ret node_list /\
    scrape_bucket log = ret bucket /\
    build_data w project number label snapshot bucket (set_order w node_list)
      (negb (PyStr.find log "spring_latency" =? -1)%Z) = (tb, Return d) /\
    vars' = {| data_list := (data_list vars ++ [d])%list; data := Some d |} /\
    t = ([Print ("snapshot: " ++ snapshot);
          Print ("nodes: " ++ PyRepr.str_of_set (set_order w node_list));
          Print ("bucket: " ++ bucket)]
         ++ tb
         ++ [FileOpen (json_path output_dir project number);
             FileWrite (json_path output_dir project number) (JsonDumps d);
             FileClose (json_path output_dir project number);
             Print ("Data written to " ++ json_path output_dir project number)])%list.
Proof.
  unfold process_job. intros H.
  invert_bind H.
  apply pure_Return in H0 as [-> H0]; [|apply trace_scrape_snapshot].
  invert_bind H. inversion H1; subst. clear H1.
  invert_bind H.
  apply pure_Return in H1 as [-> H1]; [|apply trace_scrape_nodes].
  invert_bind H. inversion H2; subst. clear H2.
  invert_bind H.
  apply pure_Return in H2 as [-> H2]; [|apply trace_scrape_bucket].
  invert_bind H. inversion H3; subst. clear H3.
  invert_bind H.
  unfold dumps in H.
  destruct (forallb _ a2); cbn in H; [|discriminate].
  inversion H; subst. clear H.
  do 5 eexists. repeat split; try eassumption; reflexivity.
Qed.

End ProcessJob.

(** C8.  For a job whose console log is downloaded: when the log does not
    contain [spring_latency], [hasLatency] is false and the iteration
    downloads no URL of the [spring_latency] dataset; in the record of a
    job that is processed to the end, [latency_set] and [latency_get] are
    then the string [N/A], and otherwise they are the means that
    [getAverage] returns for the two latency URLs, the means of the series
    served there, formatted with two decimals. *)
Theorem latency_gate (w : World) (output_dir job log : string) (vars : Vars) :
  console_of w job = Some log ->
  let hasLatency := negb (PyStr.find log "spring_latency" =? -1)%Z in
  (PyStr.find log "spring_latency" = (-1)%Z ->
   hasLatency = false /\
   avoids is_latency_url (job_body w output_dir job vars)) /\
  (forall vars',
      PyStr.find log "snapshot=" <> (-1)%Z ->
      result (job_body w output_dir job vars) = Return vars' ->
      exists d snapshot bucket,
        data vars' = Some d /\
        data_list vars' = (data_list vars ++ [d])%list /\
        scrape_snapshot log = ret snapshot /\
        scrape_bucket log = ret bucket /\
        if hasLatency
        then exists xs xg,
               result (getAverage w (latency_url snapshot bucket "/latency_set"))
               = Return xs /\
               result (getAverage w (latency_url snapshot bucket "/latency_get"))
               = Return xg /\
               get d "latency_set" "" = fmt xs /\
               get d "latency_get" "" = fmt xg /\
               (forall s,
                   serves_some w (latency_url snapshot bucket "/latency_set") s ->
                   xs = series_mean s) /\
               (forall s,
                   serves_some w (latency_url snapshot bucket "/latency_get") s ->
                   xg = series_mean s)
        else get d "latency_set" "" = "N/A" /\ get d "latency_get" "" = "N/A").
Proof.
  intros Hlog hasLatency. split.
  - intros Hfind. assert (Hlat : hasLatency = false)
      by (unfold hasLatency; rewrite Hfind; reflexivity).
    split; [assumption|].
    rewrite (job_body_console w output_dir job log vars Hlog).
    apply avoids_bind; [repeat constructor|]. intros _.
    destruct (PyStr.find log "snapshot=" =? -1)%Z.
    + apply avoids_bind; [apply avoids_print | intros; apply avoids_ret].
    + unfold process_job. fold hasLatency. rewrite Hlat.
      destruct (avoids_scrape is_latency_url log) as (Hs & Hn & Hb).
      repeat match goal with
      | |- avoids _ (scrape_snapshot _) => exact Hs
      | |- avoids _ (scrape_nodes _) => exact Hn
      | |- avoids _ (scrape_bucket _) => exact Hb
      | |- avoids _ (build_data _ _ _ _ _ _ _ _) =>
          apply build_data_avoids_latency
      | |- avoids _ (dumps _) => apply avoids_dumps
      | |- avoids _ (bind _ _) => apply avoids_bind; [|intros ?]
      | |- avoids _ (ret _) => apply avoids_ret
      | |- avoids _ (print _) => apply avoids_print
      | |- avoids _ (emit _) => apply avoids_file; reflexivity
      end.
  - intros vars' Hsnap Hres.
    rewrite (job_body_console w output_dir job log vars Hlog) in Hres.
    apply Z.eqb_neq in Hsnap. rewrite Hsnap in Hres.
    cbn [bind] in Hres.
    destruct (process_job w output_dir (job_project job) (job_number job)
                _ log vars) as [t r] eqn:E.
    cbn in Hres. subst r.
    apply process_job_inv in E
      as (snapshot & node_list & bucket & tb & d & Es & _ & Eb & Ed & -> & _).
    apply build_data_inv in Ed as (_ & _ & _ & _ & Hlat).
    exists d, snapshot, bucket. repeat split; try assumption.
    unfold hasLatency.
    destruct (negb (PyStr.find log "spring_latency" =? -1)%Z); [|assumption].
    destruct Hlat as (xs & xg & Hxs & Hxg & Hset & Hget).
    exists xs, xg. repeat split; try assumption; intros s Hs;
      rewrite (getAverage_serves w _ s Hs) in *; cbn in *; congruence.
Qed.

Lemma latency_gate_witness :
  let log := console_log "_p_1_" "bucket-1"
               ["172.23.96.100"; "172.23.96.101"; "172.23.96.102"] in
  let hasLatency := negb (PyStr.find log "spring_latency" =? -1)%Z in
  (PyStr.find log "spring_latency" = (-1)%Z ->
   hasLatency = false /\
   avoids is_latency_url (job_body Demo.healthy "D" "p:1" first_vars)) /\
  (forall vars',
      PyStr.find log "snapshot=" <> (-1)%Z ->
      result (job_body Demo.healthy "D" "p:1" first_vars) = Return vars' ->
      exists d snapshot bucket,
        data vars' = Some d /\
        data_list vars' = (data_list first_vars ++ [d])%list /\
        scrape_snapshot log = ret snapshot /\
        scrape_bucket log = ret bucket /\
        if hasLatency
        then exists xs xg,
               result (getAverage Demo.healthy
                         (latency_url snapshot bucket "/latency_set"))
               = Return xs /\
               result (getAverage Demo.healthy
                         (latency_url snapshot bucket "/latency_get"))
               = Return xg /\
               get d "latency_set" "" = fmt xs /\
               get d "latency_get" "" = fmt xg /\
               (forall s,
                   serves_some Demo.healthy
                     (latency_url snapshot bucket "/latency_set") s ->
                   xs = series_mean s) /\
               (forall s,
                   serves_some Demo.healthy
                     (latency_url snapshot bucket "/latency_get") s ->
                   xg = series_mean s)
        else get d "latency_set" "" = "N/A" /\ get d "latency_get" "" = "N/A").
Proof.
  apply (latency_gate Demo.healthy "D" "p:1"
           (console_log "_p_1_" "bucket-1"
              ["172.23.96.100"; "172.23.96.101"; "172.23.96.102"])
           first_vars).
  vm_compute. reflexivity.
Defined.

(* ================================================================= *)
(** ** A run in which every job is processed *)

(* ================================================================= *)
(** ** What [json.dumps] accepts *)

Section Dumps.

Variable w : World.

Lemma ascii_only_app (a b : string) :
  ascii_only (a ++ b) = (ascii_only a && ascii_only b)%bool.
Proof.
  unfold ascii_only. induction a as [|c a IH]; [reflexivity|].
  cbn [append all_chars]. rewrite IH. apply andb_assoc.
Qed.

Lemma ascii_utf8 (s : string) : ascii_only s = true -> PyStr.utf8_valid s = true.
Proof.
  induction s as [|c s IH]; [reflexivity|]. intros H.
  unfold ascii_only in H. cbn [all_chars] in H.
  apply andb_true_iff in H as [Hc Hs].
  cbn [PyStr.utf8_valid]. cbv zeta. rewrite Hc. exact (IH Hs).
Qed.

Lemma uint_ascii (u : Decimal.uint) :
  ascii_only (NilEmpty.string_of_uint u) = true.
Proof. induction u; cbn; try reflexivity; exact IHu. Qed.

Lemma digits_ascii (n : Z) : ascii_only (PyFloat.digits n) = true.
Proof.
  unfold PyFloat.digits, NilZero.string_of_uint.
  destruct (N.to_uint (Z.to_N n)) eqn:E; try reflexivity;
    rewrite <- E; apply uint_ascii.
Qed.

Lemma fixed2_ascii (sign : bool) (h : Z) : ascii_only (PyFloat.fixed2 sign h) = true.
Proof.
  unfold PyFloat.fixed2, PyFloat.two_digits.
  rewrite !ascii_only_app, digits_ascii.
  destruct (h mod 100 <? 10)%Z; rewrite ?ascii_only_app, digits_ascii;
    destruct sign; reflexivity.
Qed.

(** The two-decimal text of a double is plain ASCII. *)
Lemma fmt_ascii (x : PyFloat.float) : ascii_only (fmt x) = true.
Proof.
  unfold fmt, PyFloat.format_2f.
  destruct x as [s|s| |s m e]; try apply fixed2_ascii; try reflexivity.
  destruct s; reflexivity.
Qed.

Lemma fmt_utf8 (x : PyFloat.float) : PyStr.utf8_valid (fmt x) = true.
Proof. apply ascii_utf8, fmt_ascii. Qed.

Lemma latency_utf8 (hasLatency : bool) (url : string) t v :
  (if hasLatency then x <- getAverage w url ;; ret (fmt x) else ret "N/A")
  = (t, Return v) ->
  PyStr.utf8_valid v = true.
Proof.
  intros H. apply latency_value_inv in H. destruct hasLatency.
  - destruct H as (x & _ & ->). apply fmt_utf8.
  - subst v. reflexivity.
Qed.

(** The metric fields of a record never stand in the way of
    [json.dumps]: it accepts the record exactly when the job, the label
    and the snapshot can be decoded. *)
Lemma build_data_dumps project number label snapshot bucket nodes hasLatency t d :
  build_data w project number label snapshot bucket nodes hasLatency
  = (t, Return d) ->
  dumps d
  = if identity_valid project number label snapshot
    then ret (JsonDumps d) else raise UnicodeDecodeError.
Proof.
  unfold build_data. intros H.
  invert_bind H. invert_bind H.
  apply latency_utf8 in H1. invert_bind H.
  apply latency_utf8 in H2.
  do 12 invert_bind H.
  inversion H; subst d. clear H.
  unfold dumps, identity_valid. cbn [forallb fst snd].
  rewrite H1, H2, !fmt_utf8.
  change (project ++ ":" ++ number) with (project ++ String ":" number).
  destruct (PyStr.utf8_valid (project ++ String ":" number)),
           (PyStr.utf8_valid label), (PyStr.utf8_valid snapshot); reflexivity.
Qed.

End Dumps.

Section Ready.

Variable w : World.
Hypothesis Hmetrics : metrics_ok w.

Lemma quiet_ret {A} (a : A) : quiet (ret a).
Proof. exists [], a. split; reflexivity. Qed.

Lemma quiet_bind {A B} (m : M A) (f : A -> M B) :
  quiet m -> (forall a, quiet (f a)) -> quiet (bind m f).
Proof.
  intros (t & a & -> & Ht) Hf. destruct (Hf a) as (t' & b & E & Ht').
  exists (t ++ t')%list, b. cbn. rewrite E. split; [reflexivity|].
  rewrite file_events_app, Ht, Ht'. reflexivity.
Qed.

Lemma quiet_foldM {A B} (f : B -> A -> M B) (l : list A) (b : B) :
  (forall b a, In a l -> quiet (f b a)) -> quiet (foldM f l b).
Proof.
  revert b. induction l as [|a l IH]; intros b Hf; cbn [foldM].
  - apply quiet_ret.
  - apply quiet_bind; [apply Hf; now left|].
    intros b'. apply IH. intros; apply Hf; now right.
Qed.

Lemma quiet_getAverage (url : string) :
  PyStr.startswith host url = true -> quiet (getAverage w url).
Proof.
  intros H. destruct (Hmetrics url H) as [s Hs].
  rewrite (getAverage_serves w url s Hs). eexists _, _. split; reflexivity.
Qed.

Lemma quiet_getMax (url : string) :
  PyStr.startswith host url = true -> quiet (getMax w url).
Proof.
  intros H. destruct (Hmetrics url H) as [s [(text & Hurl & Hjson & Hs) _]].
  rewrite (getMax_series w url text s Hurl Hjson Hs).
  eexists _, _. split; reflexivity.
Qed.

Lemma quiet_getAverageFromList (urls : list string) (b : bool) :
  (forall url, In url urls -> PyStr.startswith host url = true) ->
  urls <> [] ->
  quiet (getAverageFromList w urls b).
Proof.
  intros H Hne. unfold getAverageFromList. apply quiet_bind.
  - apply quiet_foldM. intros acc url Hin.
    apply quiet_bind; [apply quiet_getAverage; auto | intros; apply quiet_ret].
  - intros acc. destruct b; [|apply quiet_ret]. unfold truediv.
    destruct (Z.eqb_spec (Z.of_nat (List.length urls)) 0) as [E|E];
      [|apply quiet_ret].
    destruct urls; [congruence | cbn in E; lia].
Qed.

Ltac host_prefix :=
  match goal with
  | |- forall url, In url (map _ _) -> _ =>
      let u := fresh "u" in
      let H := fresh "H" in
      let n := fresh "node" in
      intros u H; apply in_map_iff in H as (n & <- & _); reflexivity
  | |- map _ _ <> [] =>
      let E := fresh "E" in
      intros E; apply map_eq_nil in E; congruence
  | |- _ => reflexivity
  end.

Lemma quiet_build_data project number label snapshot bucket nodes hasLatency :
  nodes <> [] ->
  quiet (build_data w project number label snapshot bucket nodes hasLatency).
Proof.
  intros Hnodes. unfold build_data. cbv zeta.
  repeat match goal with
  | |- quiet (getAverage _ _) => apply quiet_getAverage; host_prefix
  | |- quiet (getMax _ _) => apply quiet_getMax; host_prefix
  | |- quiet (getAverageFromList _ _ _) =>
      apply quiet_getAverageFromList; host_prefix
  | |- quiet (bind _ _) => apply quiet_bind; [|intros ?]
  | |- quiet (ret _) => apply quiet_ret
  | |- quiet (if ?b then _ else _) => destruct b
  end.
Qed.

Lemma result_pure {A} (m : M A) (a : A) :
  trace m = [] -> result m = Return a -> m = ret a.
Proof. destruct m as [t r]. cbn. intros -> ->. reflexivity. Qed.

(** The iteration of a ready job: it returns with the job's record added,
    and the only files it touches is the job's JSON file. *)
Lemma job_body_ready (output_dir job : string) (vars : Vars) :
  job_ready w job = true ->
  exists t d,
    job_body w output_dir job vars
    = (t, Return {| data_list := (data_list vars ++ [d])%list; data := Some d |}) /\
    file_events t = json_events output_dir job d /\
    record_of job d.
Proof.
  unfold job_ready. destruct (console_of w job) as [log|] eqn:Elog;
    [|discriminate].
  intros H. apply andb_true_iff in H as [Hsnap Hscr].
  apply negb_true_iff in Hsnap. unfold scraped in Hscr.
  destruct (result (scrape_snapshot log)) as [snapshot|] eqn:Es; [|discriminate].
  destruct (result (scrape_nodes log)) as [node_list|] eqn:En; [|discriminate].
  destruct (result (scrape_bucket log)) as [bucket|] eqn:Eb; [|discriminate].
  destruct (set_order w node_list) as [|n ns] eqn:Enodes; [discriminate|].
  apply result_pure in Es; [|apply trace_scrape_snapshot].
  apply result_pure in En; [|apply trace_scrape_nodes].
  apply result_pure in Eb; [|apply trace_scrape_bucket].
  destruct (quiet_build_data (job_project job) (job_number job) (job_label job)
              snapshot bucket (n :: ns)
              (negb (PyStr.find log "spring_latency" =? -1)%Z))
    as (tb & d & Ed & Htb); [discriminate|].
  pose proof (build_data_dumps w _ _ _ _ _ _ _ _ _ Ed) as Hdumps.
  rewrite Hscr in Hdumps.
  rewrite (job_body_console w output_dir job log vars Elog), Hsnap.
  unfold process_job. fold (job_label job).
  rewrite Es, En, Eb, !bind_ret_l, Enodes.
  eexists _, d. split; [|split].
  - cbn [bind print emit]. rewrite Ed. cbn [bind]. rewrite Hdumps. reflexivity.
  - unfold announce, download_events. cbn [app].
    unfold file_events in *. cbn [filter is_file_event].
    rewrite filter_app, Htb. reflexivity.
  - apply build_data_inv in Ed as (Hk & Hj & Hl & _). repeat split; assumption.
Qed.

End Ready.

Section Output.

Variable w : World.
Variable output_dir : string.
Hypothesis Hmetrics : metrics_ok w.

Lemma last_cons_default {A} (x : A) (l : list A) (d0 : A) :
  last (x :: l) d0 = last l x.
Proof.
  revert x d0. induction l as [|y l IH]; intros x d0; [reflexivity|].
  change (last (x :: y :: l) d0) with (last (y :: l) d0).
  rewrite !IH. reflexivity.
Qed.

Lemma main_loop_ready (job_list : list string) (vars : Vars) :
  forallb (job_ready w) job_list = true ->
  exists t ds,
    main_loop w output_dir job_list vars
    = (t, Return {| data_list := (data_list vars ++ ds)%list;
                    data := last (map Some ds) (data vars) |}) /\
    file_events t
    = flat_map (fun jd => json_events output_dir (fst jd) (snd jd))
        (combine job_list ds) /\
    Forall2 record_of job_list ds.
Proof.
  revert vars. induction job_list as [|job rest IH]; intros vars H.
  - exists [], []. cbn. rewrite app_nil_r. destruct vars. repeat split. constructor.
  - cbn [forallb] in H. apply andb_true_iff in H as [Hjob Hrest].
    destruct (job_body_ready w Hmetrics output_dir job vars Hjob)
      as (t & d & Ebody & Ht & Hd).
    destruct (IH {| data_list := (data_list vars ++ [d])%list; data := Some d |}
                 Hrest) as (t' & ds & Eloop & Ht' & Hds).
    exists (t ++ t')%list, (d :: ds). split; [|split].
    + rewrite main_loop_cons, Ebody. cbn [bind]. rewrite Eloop.
      cbn [data_list data]. rewrite <- app_assoc. cbn [app map].
      rewrite last_cons_default. reflexivity.
    + rewrite file_events_app, Ht, Ht'. reflexivity.
    + constructor; assumption.
Qed.

Lemma forallb_existsb_self (l : list string) :
  forallb (fun k => existsb (String.eqb k) l) l = true.
Proof.
  apply forallb_forall. intros k Hk. apply existsb_exists.
  exists k. split; [assumption | apply String.eqb_refl].
Qed.

Lemma write_rows (fieldnames : list string) (ds : list dict) :
  Forall (fun d => map fst d = record_keys) ds ->
  fieldnames = dict_order w record_keys ->
  foldM (fun _ rowdict =>
           row <- dict_to_list w fieldnames rowdict ;;
           emit (FileWrite (csv_path output_dir) (CsvRow row)))
        ds tt
  = (map (fun d => FileWrite (csv_path output_dir) (CsvRow (csv_row fieldnames d)))
       ds, Return tt).
Proof.
  intros Hds ->. induction Hds as [|d ds Hd _ IH]; [reflexivity|].
  cbn [foldM map]. unfold dict_to_list at 1, keys. rewrite Hd, forallb_existsb_self.
  rewrite bind_ret_l. cbn [emit bind]. rewrite IH. reflexivity.
Qed.

Lemma write_csv_ready (ds : list dict) (last_d : dict) :
  Forall (fun d => map fst d = record_keys) ds ->
  map fst last_d = record_keys ->
  write_csv w output_dir {| data_list := ds; data := Some last_d |}
  = ((csv_events w output_dir ds last_d
      ++ [Print ("Aggregated data for all jobs written to "
                 ++ csv_path output_dir)])%list,
     Return tt).
Proof.
  intros Hds Hlast. unfold write_csv. cbv zeta.
  cbn [data data_list emit bind ret print].
  rewrite (write_rows (keys w last_d) ds Hds)
    by (unfold keys; rewrite Hlast; reflexivity).
  unfold csv_events. cbn [app]. rewrite <- !app_assoc. reflexivity.
Qed.

End Output.

Lemma eqb_append (p a b : string) : String.eqb (p ++ a) (p ++ b) = String.eqb a b.
Proof.
  induction p as [|c p IH]; [reflexivity|].
  cbn. rewrite Ascii.eqb_refl. exact IH.
Qed.

Lemma startswith_app (p s : string) :
  PyStr.startswith p s = true -> exists r, s = p ++ r.
Proof.
  revert s. induction p as [|a p IH]; intros s; cbn; [eauto|].
  destruct s as [|b s]; [discriminate|].
  destruct (Ascii.eqb_spec a b) as [<-|]; [|discriminate].
  intros H. destruct (IH s H) as [r ->]. eauto.
Qed.

Lemma record_of_keys (job_list : list string) (ds : list dict) :
  Forall2 record_of job_list ds ->
  Forall (fun d => map fst d = record_keys) ds.
Proof.
  induction 1 as [|job d jobs ds Hd _ IH]; constructor; [apply Hd | assumption].
Qed.

Lemma last_record (ds : list dict) (d0 : dict) :
  Forall (fun d => map fst d = record_keys) ds ->
  map fst d0 = record_keys ->
  exists last_d, last (map Some ds) (Some d0) = Some last_d /\
                 map fst last_d = record_keys.
Proof.
  intros H. revert d0. induction H as [|d ds Hd _ IH]; intros d0 Hd0.
  - exists d0. split; [reflexivity | assumption].
  - cbn [map]. rewrite last_cons_default. apply (IH d Hd).
Qed.

(** A run over ready jobs: every job leaves its JSON file, then the CSV
    file is written with the keys of the last record as header and one row
    per record, in the order of the job list. *)
Lemma main_ready (w : World) (output_dir : string) (job_list : list string) :
  metrics_ok w ->
  job_list <> [] ->
  forallb (job_ready w) job_list = true ->
  exists t ds last_d,
    main w job_list output_dir = (t, Return tt) /\
    file_events t
    = (flat_map (fun jd => json_events output_dir (fst jd) (snd jd))
         (combine job_list ds)
       ++ csv_events w output_dir ds last_d)%list /\
    Forall2 record_of job_list ds /\
    last (map Some ds) None = Some last_d.
Proof.
  intros Hmetrics Hne Hready.
  destruct (main_loop_ready w output_dir Hmetrics job_list first_vars Hready)
    as (t & ds & Eloop & Ht & Hds).
  cbn [first_vars data_list data app] in Eloop.
  assert (Hlast : exists last_d, last (map Some ds) None = Some last_d
                                 /\ map fst last_d = record_keys).
  { pose proof (record_of_keys _ _ Hds) as Hkeys.
    destruct Hds as [|job d jobs ds' Hd Hds']; [congruence|].
    cbn [map]. rewrite last_cons_default. inversion Hkeys; subst.
    apply last_record; assumption. }
  destruct Hlast as (last_d & Hlast & Hkeys).
  exists (run_header job_list output_dir ++ t
          ++ csv_events w output_dir ds last_d
          ++ [Print ("Aggregated data for all jobs written to "
                     ++ csv_path output_dir)])%list, ds, last_d.
  repeat split; try assumption.
  - unfold main. fold first_vars. cbn [print emit bind]. rewrite Eloop.
    cbn [bind]. rewrite Hlast.
    rewrite write_csv_ready;
      [reflexivity | eapply record_of_keys; eauto | assumption].
  - rewrite !file_events_app, Ht.
    assert (Hcsv : file_events (csv_events w output_dir ds last_d)
                   = csv_events w output_dir ds last_d).
    { unfold csv_events. cbn. f_equal. f_equal. unfold file_events.
      rewrite filter_app. cbn. f_equal.
      clear Eloop Ht Hds Hlast.
      induction ds as [|d ds' IHds]; [reflexivity|]. cbn. f_equal. apply IHds. }
    rewrite Hcsv. cbn. rewrite app_nil_r. reflexivity.
Qed.

(** C7, as amended.  For the job list [\["p:1", "p:2:my label"\]] and the
    output directory [D], successful downloads are not enough: the console
    log of each of the two jobs has to be downloaded and to hold
    [snapshot=], a snapshot id that is valid UTF-8, an [Adding new bucket:]
    line and at least one [Getting memcached port from] line, and every URL
    of the metrics service has to be answered with a non-empty series of
    numbers.  Then the run ends normally and leaves exactly three files:
    [D/p-1.json] and [D/p-2.json], each holding the record of its job, and
    [D/data.csv], whose header is the key list of the record of the last
    job and whose two data rows are the records of [p:1] and [p:2], in this
    order. *)
Theorem two_jobs_output (w : World) (D : string) :
  metrics_ok w ->
  job_ready w "p:1" = true ->
  job_ready w "p:2:my label" = true ->
  exists d1 d2,
    let run := main w ["p:1"; "p:2:my label"] D in
    result run = Return tt /\
    file_after (trace run) (D ++ "/p-1.json") = Some [JsonDumps d1] /\
    file_after (trace run) (D ++ "/p-2.json") = Some [JsonDumps d2] /\
    file_after (trace run) (D ++ "/data.csv")
    = Some [CsvRow (keys w d2);
            CsvRow (csv_row (keys w d2) d1);
            CsvRow (csv_row (keys w d2) d2)] /\
    (forall path,
        path <> D ++ "/p-1.json" -> path <> D ++ "/p-2.json" ->
        path <> D ++ "/data.csv" ->
        file_after (trace run) path = None) /\
    map fst d1 = record_keys /\ map fst d2 = record_keys /\
    get d1 "job" "" = "p:1" /\ get d1 "label" "" = "" /\
    get d2 "job" "" = "p:2" /\ get d2 "label" "" = "my label".
Proof.
  intros Hmetrics H1 H2.
  destruct (main_ready w D ["p:1"; "p:2:my label"] Hmetrics)
    as (t & ds & last_d & Emain & Ht & Hds & Hlast);
    [discriminate | cbn [forallb]; rewrite H1, H2; reflexivity |].
  inversion Hds as [|j1 d1 js1 ds1 Hd1 Hds1]; subst.
  inversion Hds1 as [|j2 d2 js2 ds2 Hd2 Hds2]; subst.
  inversion Hds2; subst. cbn in Hlast. inversion Hlast; subst last_d.
  exists d1, d2. cbv zeta. rewrite Emain. cbn [trace result fst snd].
  unfold file_after.
  assert (E1 : json_path D (job_project "p:1") (job_number "p:1")
               = D ++ "/p-1.json") by reflexivity.
  assert (E2 : json_path D (job_project "p:2:my label")
                 (job_number "p:2:my label") = D ++ "/p-2.json") by reflexivity.
  assert (E3 : csv_path D = D ++ "/data.csv") by reflexivity.
  assert (Hfiles : forall path,
    file_content path t None
    = file_content path
        [FileOpen (D ++ "/p-1.json");
         FileWrite (D ++ "/p-1.json") (JsonDumps d1);
         FileClose (D ++ "/p-1.json");
         FileOpen (D ++ "/p-2.json");
         FileWrite (D ++ "/p-2.json") (JsonDumps d2);
         FileClose (D ++ "/p-2.json");
         FileOpen (D ++ "/data.csv");
         FileWrite (D ++ "/data.csv") (CsvRow (keys w d2));
         FileWrite (D ++ "/data.csv") (CsvRow (csv_row (keys w d2) d1));
         FileWrite (D ++ "/data.csv") (CsvRow (csv_row (keys w d2) d2));
         FileClose (D ++ "/data.csv")] None).
  { intros path. rewrite file_content_file_events, Ht.
    unfold csv_events, json_events. cbn [combine flat_map fst snd app map].
    rewrite E1, E2, E3. reflexivity. }
  destruct Hd1 as (Hk1 & Hj1 & Hl1), Hd2 as (Hk2 & Hj2 & Hl2).
  repeat split; try assumption.
  - rewrite Hfiles. cbn [file_content]. rewrite !eqb_append. reflexivity.
  - rewrite Hfiles. cbn [file_content]. rewrite !eqb_append. reflexivity.
  - rewrite Hfiles. cbn [file_content]. rewrite !eqb_append. reflexivity.
  - intros path Hp1 Hp2 Hp3. rewrite Hfiles. cbn [file_content].
    destruct (String.eqb_spec (D ++ "/p-1.json") path); [congruence|].
    destruct (String.eqb_spec (D ++ "/p-2.json") path); [congruence|].
    destruct (String.eqb_spec (D ++ "/data.csv") path); [congruence|].
    reflexivity.
Qed.

Lemma healthy_metrics_ok : metrics_ok Demo.healthy.
Proof.
  intros url H. apply startswith_app in H as [r ->].
  exists example_series. split; [|discriminate].
  exists "[[0,2],[1,4],[2,6]]". repeat split.
Qed.

Lemma two_jobs_output_witness :
  exists d1 d2,
    let run := main Demo.healthy ["p:1"; "p:2:my label"] "D" in
    result run = Return tt /\
    file_after (trace run) ("D" ++ "/p-1.json") = Some [JsonDumps d1] /\
    file_after (trace run) ("D" ++ "/p-2.json") = Some [JsonDumps d2] /\
    file_after (trace run) ("D" ++ "/data.csv")
    = Some [CsvRow (keys Demo.healthy d2);
            CsvRow (csv_row (keys Demo.healthy d2) d1);
            CsvRow (csv_row (keys Demo.healthy d2) d2)] /\
    (forall path,
        path <> "D" ++ "/p-1.json" -> path <> "D" ++ "/p-2.json" ->
        path <> "D" ++ "/data.csv" ->
        file_after (trace run) path = None) /\
    map fst d1 = record_keys /\ map fst d2 = record_keys /\
    get d1 "job" "" = "p:1" /\ get d1 "label" "" = "" /\
    get d2 "job" "" = "p:2" /\ get d2 "label" "" = "my label".
Proof.
  apply (two_jobs_output Demo.healthy "D").
  - exact healthy_metrics_ok.
  - vm_compute. reflexivity.
  - vm_compute. reflexivity.
Defined.

(** C7 as stated fails: with [Cases.no_nodes] every download succeeds, but
    the console logs name no node, the mean over the empty list of node
    URLs divides by zero in the first job, and the run ends there without
    any of the three files. *)
Lemma downloads_succeed_no_files :
  ~ (forall (w : World) (D : string),
        (forall url, exists text, urlopen w url = Body text) ->
        exists d1 d2,
          let run := main w ["p:1"; "p:2:my label"] D in
          file_after (trace run) (D ++ "/p-1.json") = Some [JsonDumps d1] /\
          file_after (trace run) (D ++ "/p-2.json") = Some [JsonDumps d2] /\
          file_after (trace run) (D ++ "/data.csv")
          = Some [CsvRow (keys w d2);
                  CsvRow (csv_row (keys w d2) d1);
                  CsvRow (csv_row (keys w d2) d2)]).
Proof.
  intros H.
  destruct (H Cases.no_nodes "D") as (d1 & d2 & H1 & _).
  - intros url. unfold Cases.no_nodes, Demo.world_of. cbn [urlopen].
    destruct (PyStr.startswith Demo.jenkins url); eauto.
  - assert (E : file_after
                  (trace (main Cases.no_nodes ["p:1"; "p:2:my label"] "D"))
                  ("D" ++ "/p-1.json") = None) by (vm_compute; reflexivity).
    cbv zeta in H1. rewrite E in H1. discriminate.
Qed.

(** What the run does there: it ends with the division error of the first
    job, having touched no file. *)
Example no_nodes_run :
  let run := main Cases.no_nodes ["p:1"; "p:2:my label"] "D" in
  result run = Raise ZeroDivisionError /\ file_events (trace run) = [].
Proof. vm_compute. split; reflexivity. Qed.

(* ================================================================= *)
(** ** The scraper on a log of lines *)

Section Lines.

Import PyStr.

Lemma all_chars_impl (P Q : ascii -> bool) (s : string) :
  (forall c, P c = true -> Q c = true) ->
  all_chars P s = true -> all_chars Q s = true.
Proof.
  intros H. induction s as [|c s IH]; cbn; [reflexivity|].
  intros E. apply andb_true_iff in E as [Ec Es].
  rewrite (H c Ec), (IH Es). reflexivity.
Qed.

Lemma all_chars_app (P : ascii -> bool) (s1 s2 : string) :
  all_chars P (s1 ++ s2) = (all_chars P s1 && all_chars P s2)%bool.
Proof.
  induction s1 as [|c s1 IH]; cbn; [reflexivity|].
  rewrite IH, andb_assoc. reflexivity.
Qed.

Lemma upto_newline_line (l r : string) :
  no_newline l = true -> upto_newline (l ++ String newline r) = l.
Proof.
  induction l as [|c l IH]; cbn; [reflexivity|].
  intros E. apply andb_true_iff in E as [Ec El]. unfold differs in Ec.
  apply negb_true_iff in Ec. rewrite Ec, (IH El). reflexivity.
Qed.

Lemma upto_newline_last (l : string) :
  no_newline l = true -> upto_newline l = l.
Proof.
  induction l as [|c l IH]; cbn; [reflexivity|].
  intros E. apply andb_true_iff in E as [Ec El]. unfold differs in Ec.
  apply negb_true_iff in Ec. rewrite Ec, (IH El). reflexivity.
Qed.

(** A pattern without newline matches inside one line. *)
Lemma match_at_line (lit l r : string) :
  no_newline lit = true -> no_newline l = true ->
  match_at lit (l ++ String newline r) = match_at lit l.
Proof.
  revert l. induction lit as [|a lit IH]; intros l Hlit Hl; cbn.
  - rewrite (upto_newline_line l r Hl), (upto_newline_last l Hl). reflexivity.
  - cbn in Hlit. apply andb_true_iff in Hlit as [Ha Hlit].
    destruct l as [|b l]; cbn.
    + unfold differs in Ha. apply negb_true_iff in Ha. rewrite Ha. reflexivity.
    + cbn in Hl. apply andb_true_iff in Hl as [_ Hl].
      rewrite (IH l Hlit Hl). reflexivity.
Qed.

Lemma match_at_whole (lit l m : string) :
  no_newline l = true -> match_at lit l = Some m -> m = l.
Proof.
  revert l m. induction lit as [|a lit IH]; intros l m Hl; cbn.
  - intros H. inversion H. apply (upto_newline_last l Hl).
  - destruct l as [|b l]; [discriminate|].
    cbn in Hl. apply andb_true_iff in Hl as [_ Hl].
    destruct (Ascii.eqb_spec a b) as [<-|]; [|discriminate].
    destruct (match_at lit l) as [m'|] eqn:E; [|discriminate].
    cbn. intros H. inversion H. rewrite (IH l m' Hl E). reflexivity.
Qed.

Lemma match_at_empty (a : ascii) (lit : string) :
  match_at (String a lit) EmptyString = None.
Proof. reflexivity. Qed.

(** [re.search] looks at the lines one after the other. *)
Lemma re_search_line (a : ascii) (lit l r : string) :
  no_newline (String a lit) = true -> no_newline l = true ->
  re_search (String a lit) (l ++ String newline r)
  = match re_search (String a lit) l with
    | Some m => Some m
    | None => re_search (String a lit) r
    end.
Proof.
  intros Hlit. induction l as [|b l IH]; intros Hl.
  - cbn [append re_search]. 
    assert (E : match_at (String a lit) (String newline r) = None).
    { cbn. cbn in Hlit. apply andb_true_iff in Hlit as [Ha _].
      unfold differs in Ha. apply negb_true_iff in Ha. rewrite Ha. reflexivity. }
    rewrite E, match_at_empty. reflexivity.
  - change (String b l ++ String newline r)
      with (String b (l ++ String newline r)).
    cbn [re_search].
    change (String b (l ++ String newline r))
      with (String b l ++ String newline r).
    rewrite (match_at_line _ (String b l) r Hlit Hl).
    destruct (match_at (String a lit) (String b l)); [reflexivity|].
    cbn in Hl. apply andb_true_iff in Hl as [_ Hl]. apply (IH Hl).
Qed.

Lemma findall_go_skip (lit l r : string) :
  findall_go lit (l ++ r) (String.length l) = findall_go lit r 0.
Proof. induction l as [|c l IH]; cbn; [reflexivity | exact IH]. Qed.

Lemma findall_go_skip_all (a : ascii) (lit l : string) :
  findall_go (String a lit) l (String.length l) = [].
Proof. induction l as [|c l IH]; cbn; [reflexivity | exact IH]. Qed.

(** [re.findall] gives at most one match per line, the first one. *)
Lemma findall_line (a : ascii) (lit l r : string) :
  no_newline (String a lit) = true -> no_newline l = true ->
  findall_go (String a lit) (l ++ String newline r) 0
  = (found (re_search (String a lit) l) ++ findall_go (String a lit) r 0)%list.
Proof.
  intros Hlit. induction l as [|b l IH]; intros Hl.
  - cbn [append findall_go re_search].
    assert (E : match_at (String a lit) (String newline r) = None).
    { cbn. cbn in Hlit. apply andb_true_iff in Hlit as [Ha _].
      unfold differs in Ha. apply negb_true_iff in Ha. rewrite Ha. reflexivity. }
    rewrite E, match_at_empty. reflexivity.
  - change (String b l ++ String newline r)
      with (String b (l ++ String newline r)).
    cbn [findall_go re_search].
    change (String b (l ++ String newline r))
      with (String b l ++ String newline r).
    rewrite (match_at_line _ (String b l) r Hlit Hl).
    destruct (match_at (String a lit) (String b l)) as [m|] eqn:E.
    + rewrite (match_at_whole _ _ _ Hl E). cbn [String.length Nat.pred found app].
      rewrite findall_go_skip. cbn [findall_go].
      assert (E' : match_at (String a lit) (String newline r) = None).
      { cbn. cbn in Hlit. apply andb_true_iff in Hlit as [Ha _].
        unfold differs in Ha. apply negb_true_iff in Ha. rewrite Ha. reflexivity. }
      rewrite E'. reflexivity.
    + cbn in Hl. apply andb_true_iff in Hl as [_ Hl]. apply (IH Hl).
Qed.

Lemma findall_last (a : ascii) (lit l : string) :
  no_newline l = true ->
  findall_go (String a lit) l 0 = found (re_search (String a lit) l).
Proof.
  induction l as [|b l IH]; intros Hl; [reflexivity|].
  cbn [findall_go re_search].
  destruct (match_at (String a lit) (String b l)) as [m|] eqn:E.
  - rewrite (match_at_whole _ _ _ Hl E). cbn [String.length Nat.pred found].
    rewrite findall_go_skip_all. reflexivity.
  - cbn in Hl. apply andb_true_iff in Hl as [_ Hl]. apply (IH Hl).
Qed.

(** A pattern cannot match in a text that lacks one of its characters. *)
Lemma match_at_has_char (c : ascii) (lit s m : string) :
  match_at lit s = Some m -> has_char c lit = true -> has_char c s = true.
Proof.
  revert s m. induction lit as [|a lit IH]; intros s m; cbn; [discriminate|].
  destruct s as [|b s]; [discriminate|].
  destruct (Ascii.eqb_spec a b) as [<-|]; [|discriminate].
  destruct (match_at lit s) as [m'|] eqn:E; [|discriminate].
  intros _ H. cbn. apply orb_true_iff in H as [H|H].
  - rewrite H. reflexivity.
  - rewrite (IH s m' E H). apply orb_true_r.
Qed.

Lemma has_char_differs (c : ascii) (s : string) :
  all_chars (differs c) s = true -> has_char c s = false.
Proof.
  induction s as [|b s IH]; cbn; [reflexivity|].
  intros E. apply andb_true_iff in E as [Eb Es]. unfold differs in Eb.
  apply negb_true_iff in Eb. rewrite Ascii.eqb_sym, Eb, (IH Es). reflexivity.
Qed.

Lemma re_search_absent (c : ascii) (lit s : string) :
  has_char c lit = true -> all_chars (differs c) s = true ->
  re_search lit s = None.
Proof.
  intros Hlit. induction s as [|b s IH]; intros Hs; cbn [re_search].
  - destruct (match_at lit "") as [m|] eqn:E; [|reflexivity].
    pose proof (match_at_has_char c _ _ _ E Hlit). discriminate.
  - destruct (match_at lit (String b s)) as [m|] eqn:E.
    + pose proof (match_at_has_char c _ _ _ E Hlit) as H.
      rewrite (has_char_differs c _ Hs) in H. discriminate.
    + cbn in Hs. apply andb_true_iff in Hs as [_ Hs]. apply (IH Hs).
Qed.

(** Splitting a text that lacks the first character of the separator. *)
Lemma split_go_absent (a : ascii) (sep s : string) :
  all_chars (differs a) s = true -> split_go (String a sep) s 0 = [s].
Proof.
  induction s as [|b s IH]; intros Hs; [reflexivity|].
  cbn in Hs. apply andb_true_iff in Hs as [Hb Hs]. unfold differs in Hb.
  apply negb_true_iff in Hb. cbn [split_go startswith].
  rewrite Ascii.eqb_sym, Hb, (IH Hs). reflexivity.
Qed.

Lemma rstrip_no_space (s : string) :
  all_chars (fun c => negb (isspace c)) s = true -> rstrip s = s.
Proof.
  induction s as [|c s IH]; intros Hs; [reflexivity|].
  cbn in Hs. apply andb_true_iff in Hs as [Hc Hs]. apply negb_true_iff in Hc.
  cbn [rstrip]. rewrite (IH Hs), Hc. destruct s; reflexivity.
Qed.

Lemma lstrip_no_space (s : string) :
  all_chars (fun c => negb (isspace c)) s = true -> lstrip s = s.
Proof.
  destruct s as [|c s]; [reflexivity|]. cbn. intros Hs.
  apply andb_true_iff in Hs as [Hc _]. apply negb_true_iff in Hc.
  rewrite Hc. reflexivity.
Qed.

(** Stripping what follows the separator: one space, then the value. *)
Lemma strip_space (s : string) :
  all_chars (fun c => negb (isspace c)) s = true -> strip (String " " s) = s.
Proof.
  intros Hs. unfold strip. cbn [rstrip]. rewrite (rstrip_no_space s Hs).
  destruct s as [|c s]; [reflexivity|].
  cbn [lstrip]. change (isspace " ") with true. cbv iota.
  apply (lstrip_no_space _ Hs).
Qed.

Lemma replace_dots (s : string) : replace s "." "" = without_dots s.
Proof.
  unfold replace. induction s as [|c s IH]; [reflexivity|].
  cbn [replace_go startswith without_dots]. rewrite Ascii.eqb_sym.
  destruct (Ascii.eqb c "."); cbn; rewrite IH; reflexivity.
Qed.

End Lines.

Section Scraper.

Import PyStr.

Lemma token_char (c : ascii) :
  (negb (isspace c) && differs "=" c && differs ":" c)%bool = true ->
  negb (isspace c) = true /\ differs newline c = true /\
  differs " " c = true /\ differs "=" c = true /\ differs ":" c = true.
Proof.
  destruct c as [[] [] [] [] [] [] [] []]; vm_compute; intros H;
    try discriminate; repeat split.
Qed.

Lemma dotted_char (c : ascii) :
  (is_digit c || Ascii.eqb c ".")%bool = true ->
  negb (isspace c) = true /\ differs newline c = true /\
  differs " " c = true /\ differs "f" c = true /\
  differs "=" c = true /\ differs "A" c = true.
Proof.
  destruct c as [[] [] [] [] [] [] [] []]; vm_compute; intros H;
    try discriminate; repeat split.
Qed.

Lemma token_facts (s : string) :
  token s = true ->
  all_chars (fun c => negb (isspace c)) s = true /\ no_newline s = true /\
  all_chars (differs " ") s = true /\ all_chars (differs "=") s = true /\
  all_chars (differs ":") s = true.
Proof.
  intros H. repeat split;
    (eapply all_chars_impl; [|exact H]); intros c Hc; apply token_char in Hc; tauto.
Qed.

Lemma dotted_facts (s : string) :
  dotted s = true ->
  all_chars (fun c => negb (isspace c)) s = true /\ no_newline s = true /\
  all_chars (differs " ") s = true /\ all_chars (differs "f") s = true /\
  all_chars (differs "=") s = true /\ all_chars (differs "A") s = true.
Proof.
  intros H. repeat split;
    (eapply all_chars_impl; [|exact H]); intros c Hc; apply dotted_char in Hc; tauto.
Qed.

Lemma stamp_facts (marker s : string) :
  stamp_ok marker s = true ->
  no_newline s = true /\ find (s ++ marker) marker = Z.of_nat (String.length s).
Proof.
  unfold stamp_ok. intros H. apply andb_true_iff in H as [Hn Hf].
  split; [exact Hn | apply Z.eqb_eq, Hf].
Qed.

Lemma match_at_self (lit rest : string) :
  match_at lit (lit ++ rest) = Some (lit ++ upto_newline rest).
Proof.
  induction lit as [|a lit IH]; cbn; [reflexivity|].
  rewrite Ascii.eqb_refl, IH. reflexivity.
Qed.

Lemma append_assoc (a b c : string) : (a ++ b) ++ c = a ++ b ++ c.
Proof. induction a as [|x a IH]; [reflexivity | cbn; rewrite IH; reflexivity]. Qed.

Lemma length_append (a b : string) :
  String.length (a ++ b) = (String.length a + String.length b)%nat.
Proof. induction a as [|x a IH]; [reflexivity | cbn; rewrite IH; reflexivity]. Qed.

Lemma startswith_app_long (lit a b : string) :
  (String.length lit <= String.length a)%nat ->
  startswith lit (a ++ b) = startswith lit a.
Proof.
  revert a. induction lit as [|c lit IH]; intros a H; [reflexivity|].
  destruct a as [|x a]; [cbn in H; lia|].
  cbn. destruct (Ascii.eqb c x); [|reflexivity]. apply IH. cbn in H. lia.
Qed.

Lemma match_at_re_search (lit s m : string) :
  match_at lit s = Some m -> re_search lit s = Some m.
Proof. intros H. destruct s; cbn [re_search]; rewrite H; reflexivity. Qed.

Lemma find_from_bounds (sub s : string) (i : Z) :
  find_from sub s i = (-1)%Z \/ (i <= find_from sub s i)%Z.
Proof.
  revert i. induction s as [|c s IH]; intros i; cbn [find_from].
  - destruct (startswith sub ""); [right; lia | now left].
  - destruct (startswith sub (String c s)); [right; lia|].
    destruct (IH (i + 1)%Z) as [H|H]; [now left | right; lia].
Qed.

(** The first match of a marker is where the marker first occurs: after a
    text in which it does not occur earlier, the match is the marker and
    the rest of its line. *)
Lemma re_search_at (lit pre rest : string) (i : Z) :
  find_from lit (pre ++ lit) i = (i + Z.of_nat (String.length pre))%Z ->
  re_search lit (pre ++ lit ++ rest) = Some (lit ++ upto_newline rest).
Proof.
  revert i. induction pre as [|c pre IH]; intros i H.
  - apply match_at_re_search. exact (match_at_self lit rest).
  - change (String c pre ++ lit ++ rest) with (String c (pre ++ lit ++ rest)).
    change (String c pre ++ lit) with (String c (pre ++ lit)) in H.
    cbn [find_from] in H.
    destruct (startswith lit (String c (pre ++ lit))) eqn:Es;
      [cbn [String.length] in H; lia|].
    assert (Hm : match_at lit (String c (pre ++ lit ++ rest)) = None).
    { destruct (match_at lit (String c (pre ++ lit ++ rest))) as [m|] eqn:Em;
        [|reflexivity].
      assert (Hs : startswith lit (String c (pre ++ lit ++ rest)) = true)
        by (apply match_at_startswith; eauto).
      change (String c (pre ++ lit ++ rest))
        with (String c pre ++ lit ++ rest) in Hs.
      rewrite <- append_assoc in Hs.
      rewrite startswith_app_long in Hs.
      - change (String c pre ++ lit) with (String c (pre ++ lit)) in Hs.
        congruence.
      - rewrite length_append. lia. }
    cbn [re_search]. rewrite Hm. apply (IH (i + 1)%Z).
    rewrite H. cbn [String.length]. lia.
Qed.

Lemma re_search_first_on_line (marker stamp rest : string) :
  stamp_ok marker stamp = true -> no_newline rest = true ->
  re_search marker (stamp ++ marker ++ rest) = Some (marker ++ rest).
Proof.
  intros H Hrest. destruct (stamp_facts marker stamp H) as [_ Hf].
  rewrite (re_search_at marker stamp rest 0 Hf), (upto_newline_last rest Hrest).
  reflexivity.
Qed.

(** The three searches on the lines of a log. *)
Lemma re_search_lines (a : ascii) (lit : string) (ls : list string) :
  no_newline (String a lit) = true ->
  forallb no_newline ls = true ->
  re_search (String a lit) (unlines ls)
  = first_some (map (re_search (String a lit)) ls).
Proof.
  intros Hlit. induction ls as [|l ls IH]; intros Hls; [reflexivity|].
  cbn in Hls. apply andb_true_iff in Hls as [Hl Hls].
  destruct ls as [|l' ls].
  - cbn. destruct (re_search (String a lit) l); reflexivity.
  - change (unlines (l :: l' :: ls))
      with (l ++ String newline (unlines (l' :: ls))).
    rewrite (re_search_line a lit l _ Hlit Hl), (IH Hls).
    cbn [map first_some]. destruct (re_search (String a lit) l); reflexivity.
Qed.

Lemma re_findall_lines (a : ascii) (lit : string) (ls : list string) :
  no_newline (String a lit) = true ->
  forallb no_newline ls = true ->
  re_findall (String a lit) (unlines ls)
  = flat_map (fun l => found (re_search (String a lit) l)) ls.
Proof.
  unfold re_findall.
  intros Hlit. induction ls as [|l ls IH]; intros Hls; [reflexivity|].
  cbn in Hls. apply andb_true_iff in Hls as [Hl Hls].
  destruct ls as [|l' ls].
  - cbn [unlines String.concat flat_map]. rewrite app_nil_r.
    apply (findall_last a lit l Hl).
  - change (unlines (l :: l' :: ls))
      with (l ++ String newline (unlines (l' :: ls))).
    rewrite (findall_line a lit l _ Hlit Hl), (IH Hls). reflexivity.
Qed.

(** What each search finds on one line of the log. *)
Ltac valid_parts H :=
  let H1 := fresh "Hfirst" in
  let H2 := fresh "Hvalue" in
  let H3 := fresh "Hlacks" in
  let H4 := fresh "Hlacks" in
  apply andb_true_iff in H as [H H4];
  apply andb_true_iff in H as [H H3];
  apply andb_true_iff in H as [H1 H2].

Lemma render_no_newline (e : entry) :
  valid e = true -> no_newline (render e) = true.
Proof.
  destruct e as [st X|st B|st ip|t]; cbn [valid render]; intros H;
    valid_parts H.
  - destruct (stamp_facts _ st Hfirst) as (Hst & _),
      (token_facts X Hvalue) as (_ & Hx & _).
    unfold no_newline in *. rewrite !all_chars_app, Hst, Hx. reflexivity.
  - destruct (stamp_facts _ st Hfirst) as (Hst & _),
      (token_facts B Hvalue) as (_ & Hx & _).
    unfold no_newline in *. rewrite !all_chars_app, Hst, Hx. reflexivity.
  - destruct (stamp_facts _ st Hfirst) as (Hst & _),
      (dotted_facts ip Hvalue) as (_ & Hx & _).
    unfold no_newline in *. rewrite !all_chars_app, Hst, Hx. reflexivity.
  - assumption.
Qed.

Lemma other_line (lit t : string) :
  lacks lit t = true -> re_search lit t = None.
Proof. intros H. apply find_re_search, Z.eqb_eq, H. Qed.

Lemma line_snapshot (e : entry) :
  valid e = true ->
  re_search "snapshot=" (render e)
  = match e with
    | Snapshot _ X => Some ("snapshot=" ++ X)
    | _ => None
    end.
Proof.
  destruct e as [st X|st B|st ip|t]; cbn [valid]; intros H;
    valid_parts H; try (apply other_line; assumption).
  destruct (token_facts X Hvalue) as (_ & Hnl & _).
  apply (re_search_first_on_line "snapshot=" st X Hfirst Hnl).
Qed.

Lemma line_bucket (e : entry) :
  valid e = true ->
  re_search "Adding new bucket" (render e)
  = match e with
    | Bucket _ B => Some ("Adding new bucket: " ++ B)
    | _ => None
    end.
Proof.
  destruct e as [st X|st B|st ip|t]; cbn [valid]; intros H;
    valid_parts H; try (apply other_line; assumption).
  destruct (token_facts B Hvalue) as (_ & Hnl & _).
  apply (re_search_first_on_line "Adding new bucket" st
           (String ":" (String " " B)) Hfirst).
  unfold no_newline in *. cbn [all_chars]. rewrite Hnl. reflexivity.
Qed.

Lemma line_node (e : entry) :
  valid e = true ->
  re_search "Getting memcached port from" (render e)
  = match e with
    | Node _ ip => Some ("Getting memcached port from " ++ ip)
    | _ => None
    end.
Proof.
  destruct e as [st X|st B|st ip|t]; cbn [valid]; intros H;
    valid_parts H; try (apply other_line; assumption).
  destruct (dotted_facts ip Hvalue) as (_ & Hnl & _).
  apply (re_search_first_on_line "Getting memcached port from" st
           (String " " ip) Hfirst).
  unfold no_newline in *. cbn [all_chars]. rewrite Hnl. reflexivity.
Qed.

(** What the script makes of each match. *)
Lemma snapshot_of_match (X : string) :
  token X = true -> index (split ("snapshot=" ++ X) "=") 1 = ret X.
Proof.
  intros H. destruct (token_facts X H) as (_ & _ & _ & He & _).
  unfold split. cbn. rewrite (split_go_absent "=" "" X He). reflexivity.
Qed.

Lemma bucket_of_match (B : string) :
  token B = true ->
  (b <- index (split ("Adding new bucket: " ++ B) ":") 1 ;; ret (strip b))
  = ret B.
Proof.
  intros H. destruct (token_facts B H) as (Hsp & _ & _ & _ & Hc).
  unfold split. cbn. rewrite (split_go_absent ":" "" B Hc).
  cbn [index nth_error]. rewrite bind_ret_l, (strip_space B Hsp). reflexivity.
Qed.

Lemma node_of_match (ip : string) :
  dotted ip = true ->
  (a <- index (split ("Getting memcached port from " ++ ip) "from") 1 ;;
   ret (replace (strip a) "." "")) = ret (without_dots ip).
Proof.
  intros H. destruct (dotted_facts ip H) as (Hsp & _ & _ & Hf & _).
  unfold split. cbn. rewrite (split_go_absent "f" "rom" ip Hf).
  cbn [index nth_error]. rewrite bind_ret_l, (strip_space ip Hsp), replace_dots.
  reflexivity.
Qed.

Variable es : list entry.
Hypothesis Hvalid : forallb valid es = true.

Lemma lines_no_newline : forallb no_newline (map render es) = true.
Proof.
  clear - Hvalid. induction es as [|e l IH]; [reflexivity|].
  cbn in *. apply andb_true_iff in Hvalid as [He Hl].
  rewrite (render_no_newline e He), (IH Hl). reflexivity.
Qed.

Lemma scrape_snapshot_log :
  scrape_snapshot (log_of es)
  = match snapshots es with
    | X :: _ => ret X
    | [] => raise AttributeError
    end.
Proof.
  unfold scrape_snapshot, log_of.
  rewrite (re_search_lines "s" "napshot=" _ eq_refl lines_no_newline).
  clear - Hvalid. induction es as [|e l IH]; [reflexivity|].
  cbn [forallb] in Hvalid. apply andb_true_iff in Hvalid as [He Hl].
  cbn [map first_some]. rewrite (line_snapshot e He).
  destruct e as [st X|st B|st ip|t]; cbn [snapshots flat_map app];
    try apply (IH Hl).
  cbn [group0]. rewrite bind_ret_l. apply snapshot_of_match.
  cbn [valid] in He. valid_parts He. assumption.
Qed.

Lemma scrape_bucket_log :
  scrape_bucket (log_of es)
  = match buckets es with
    | B :: _ => ret B
    | [] => raise AttributeError
    end.
Proof.
  unfold scrape_bucket, log_of.
  rewrite (re_search_lines "A" "dding new bucket" _ eq_refl lines_no_newline).
  clear - Hvalid. induction es as [|e l IH]; [reflexivity|].
  cbn [forallb] in Hvalid. apply andb_true_iff in Hvalid as [He Hl].
  cbn [map first_some]. rewrite (line_bucket e He).
  destruct e as [st X|st B|st ip|t]; cbn [buckets flat_map app];
    try apply (IH Hl).
  cbn [group0]. rewrite bind_ret_l. apply bucket_of_match.
  cbn [valid] in He. valid_parts He. assumption.
Qed.

Lemma scrape_nodes_log :
  scrape_nodes (log_of es) = ret (map without_dots (addresses es)).
Proof.
  unfold scrape_nodes, log_of.
  rewrite (re_findall_lines "G" "etting memcached port from" _ eq_refl
             lines_no_newline).
  clear - Hvalid. induction es as [|e l IH]; [reflexivity|].
  cbn [forallb] in Hvalid. apply andb_true_iff in Hvalid as [He Hl].
  cbn [map flat_map]. rewrite (line_node e He).
  destruct e as [st X|st B|st ip|t]; cbn [addresses flat_map found app];
    try apply (IH Hl).
  cbn [mapM map]. rewrite node_of_match, bind_ret_l, (IH Hl), bind_ret_l.
  - reflexivity.
  - cbn [valid] in He. valid_parts He. assumption.
Qed.

End Scraper.

(** C9, as amended.  Take a console log each line of which holds at most
    one of the three markers [snapshot=], [Adding new bucket] and
    [Getting memcached port from], whatever precedes the marker on the
    line, with the value after the marker running to the end of the line:
    [snapshot=X] with [X] free of white space, [=] and [:],
    [Adding new bucket: B] with [B] free of them too, and
    [Getting memcached port from ] followed by an address of digits and
    dots.  When its first [snapshot=] line carries [X], its first
    [Adding new bucket: ] line carries [B] and its
    [Getting memcached port from] lines carry three addresses, the scraper
    extracts the snapshot [X] (the text after the [=]), the bucket [B] and
    the set of the three addresses with their dots removed: each of them is
    in the set once, in whatever order the set lists them.  The set has
    three elements when the addresses are still pairwise distinct after
    their dots are removed. *)
Theorem scraper_extracts (w : World) (es : list entry)
    (X B ip1 ip2 ip3 : string) :
  set_like (set_order w) ->
  forallb valid es = true ->
  hd_error (snapshots es) = Some X ->
  hd_error (buckets es) = Some B ->
  addresses es = [ip1; ip2; ip3] ->
  let stripped := [without_dots ip1; without_dots ip2; without_dots ip3] in
  let nodes := set_order w stripped in
  scrape_snapshot (log_of es) = ret X /\
  scrape_bucket (log_of es) = ret B /\
  scrape_nodes (log_of es) = ret stripped /\
  scraped w (log_of es) = Some (X, nodes, B) /\
  NoDup nodes /\
  (forall x, In x nodes <-> In x stripped) /\
  (NoDup stripped -> List.length nodes = 3%nat).
Proof.
  intros Hset Hvalid HX HB Hips stripped nodes.
  pose proof (scrape_snapshot_log es Hvalid) as Es.
  pose proof (scrape_bucket_log es Hvalid) as Eb.
  pose proof (scrape_nodes_log es Hvalid) as En.
  destruct (snapshots es) as [|X' ?]; [discriminate|]. inversion HX; subst X'.
  destruct (buckets es) as [|B' ?]; [discriminate|]. inversion HB; subst B'.
  rewrite Hips in En. cbn [map] in En. fold stripped in En.
  destruct (Hset stripped) as [Hnodup Hin]. fold nodes in Hnodup, Hin.
  repeat split; try assumption.
  - unfold scraped. rewrite Es, Eb, En. reflexivity.
  - apply Hin.
  - apply Hin.
  - intros Hdistinct.
    change 3%nat with (List.length stripped).
    apply Permutation_length, NoDup_Permutation; assumption.
Qed.

Lemma first_occurrences_set_like : set_like Demo.first_occurrences.
Proof.
  intros l. unfold Demo.first_occurrences. split.
  - apply NoDup_rev, NoDup_nodup.
  - intros x. rewrite <- in_rev, nodup_In, <- in_rev. reflexivity.
Qed.

Lemma scraper_extracts_witness :
  let stripped := [without_dots "172.23.96.100"; without_dots "172.23.96.101";
                   without_dots "172.23.96.102"] in
  let nodes := set_order Demo.healthy stripped in
  scrape_snapshot (log_of Demo.perfrunner_log) = ret "hera_pl_60_1a2b" /\
  scrape_bucket (log_of Demo.perfrunner_log) = ret "bucket-1" /\
  scrape_nodes (log_of Demo.perfrunner_log) = ret stripped /\
  scraped Demo.healthy (log_of Demo.perfrunner_log)
  = Some ("hera_pl_60_1a2b", nodes, "bucket-1") /\
  NoDup nodes /\
  (forall x, In x nodes <-> In x stripped) /\
  (NoDup stripped -> List.length nodes = 3%nat).
Proof.
  apply (scraper_extracts Demo.healthy Demo.perfrunner_log
           "hera_pl_60_1a2b" "bucket-1"
           "172.23.96.100" "172.23.96.101" "172.23.96.102");
    try reflexivity.
  exact first_occurrences_set_like.
Defined.

(** C9 as stated fails: [172.23.9.61] and [172.23.96.1] are distinct
    addresses, but without their dots they are the same node, and the set
    has two elements. *)
Lemma distinct_addresses_collide :
  ~ (forall (w : World) (es : list entry) (X B ip1 ip2 ip3 : string),
        set_like (set_order w) ->
        forallb valid es = true ->
        hd_error (snapshots es) = Some X ->
        hd_error (buckets es) = Some B ->
        addresses es = [ip1; ip2; ip3] ->
        ip1 <> ip2 -> ip1 <> ip3 -> ip2 <> ip3 ->
        exists nodes,
          scraped w (log_of es) = Some (X, nodes, B) /\
          List.length nodes = 3%nat).
Proof.
  intros H.
  destruct (H Demo.healthy
              [Snapshot "" "_p_1_"; Bucket "" "bucket-1";
               Node "" "172.23.9.61"; Node "" "172.23.96.1";
               Node "" "172.23.96.2"]
              "_p_1_" "bucket-1" "172.23.9.61" "172.23.96.1" "172.23.96.2")
    as (nodes & Hnodes & Hlen);
    try reflexivity; try discriminate; [exact first_occurrences_set_like|].
  vm_compute in Hnodes. inversion Hnodes; subst nodes. discriminate.
Qed.

(* ================================================================= *)
(** ** The reducers on any payload *)

Section Payloads.

Variable w : World.

Lemma trace_downloadData (url : string) :
  trace (downloadData w url) = download_events url.
Proof. unfold downloadData. destruct (urlopen w url); reflexivity. Qed.

Lemma trace_pair_value (pair : json) : trace (pair_value w pair) = [].
Proof.
  unfold pair_value. rewrite trace_bind.
  assert (H : trace (item1 pair) = []).
  { destruct pair as [| | | | s|items|]; try reflexivity.
    - cbn [item1]. rewrite trace_bind.
      destruct (index (list_ascii_of_string s) 1) as [t [c|e]] eqn:E;
        pose proof (trace_index (list_ascii_of_string s) 1) as Ht;
        rewrite E in Ht; cbn in *; subst; reflexivity.
    - apply trace_index. }
  rewrite H. destruct (result (item1 pair)) as [v|e]; [|reflexivity].
  destruct v as [| |z| |s| |]; cbn; try reflexivity.
  - destruct (PyFloat.is_finite (PyFloat.of_Z z)); reflexivity.
  - destruct (float_of_str w s); reflexivity.
Qed.

(** The loop of a reducer computes the values of the pairs, then folds
    them; the first pair without a value ends it. *)
Lemma fold_pairs (g : PyFloat.float -> PyFloat.float -> PyFloat.float)
    (items : list json) (acc : PyFloat.float) :
  foldM (fun a pair => v <- item1 pair ;; x <- to_float w v ;; ret (g a x))
        items acc
  = (vs <- mapM (pair_value w) items ;; ret (fold_left g vs acc)).
Proof.
  revert acc. induction items as [|pair items IH]; intros acc; cbn [foldM mapM].
  - rewrite bind_ret_l. reflexivity.
  - unfold pair_value at 1. rewrite !bind_assoc. apply bind_ext. intros v.
    rewrite !bind_assoc. apply bind_ext. intros x.
    rewrite bind_ret_l, bind_assoc, IH. apply bind_ext. intros vs.
    rewrite bind_ret_l. reflexivity.
Qed.

(** What a payload gives: the values of its pairs. *)
Lemma getMax_values (url : string) :
  getMax w url
  = (text <- downloadData w url ;;
     pairs <- loads w text ;;
     items <- iterate w pairs ;;
     vs <- mapM (pair_value w) items ;;
     ret (fold_left max_step vs PyFloat.zero)).
Proof.
  unfold getMax. apply bind_ext. intros text. apply bind_ext. intros pairs.
  apply bind_ext. intros items. apply (fold_pairs max_step).
Qed.

Lemma getAverage_values (url : string) :
  getAverage w url
  = (text <- downloadData w url ;;
     pairs <- loads w text ;;
     items <- iterate w pairs ;;
     vs <- mapM (pair_value w) items ;;
     n <- len pairs ;;
     truediv (float_sum vs) n).
Proof.
  unfold getAverage. apply bind_ext. intros text. apply bind_ext. intros pairs.
  apply bind_ext. intros items. rewrite (fold_pairs PyFloat.add), bind_assoc.
  apply bind_ext. intros vs. rewrite bind_ret_l. reflexivity.
Qed.

Lemma trace_loads (text : string) : trace (loads w text) = [].
Proof. unfold loads. destruct (json_loads w text); reflexivity. Qed.

Lemma trace_iterate (v : json) : trace (iterate w v) = [].
Proof. destruct v; reflexivity. Qed.

Lemma trace_len (v : json) : trace (len v) = [].
Proof. destruct v; reflexivity. Qed.

Lemma trace_truediv (x : PyFloat.float) (n : Z) : trace (truediv x n) = [].
Proof. unfold truediv. destruct (n =? 0)%Z; reflexivity. Qed.

Lemma trace_values (items : list json) : trace (mapM (pair_value w) items) = [].
Proof. apply trace_mapM_pure. apply trace_pair_value. Qed.

(** A step after the download adds no event. *)
Lemma trace_bind_pure {A B} (m : M A) (f : A -> M B) :
  (forall a, trace (f a) = []) -> trace (bind m f) = trace m.
Proof.
  intros H. rewrite trace_bind. destruct (result m) as [a|e]; [|reflexivity].
  rewrite H. apply app_nil_r.
Qed.

Lemma trace_pure_bind {A B} (m : M A) (f : A -> M B) :
  trace m = [] -> (forall a, trace (f a) = []) -> trace (bind m f) = [].
Proof. intros Hm H. rewrite trace_bind_pure; assumption. Qed.

Lemma trace_getAverage (url : string) :
  trace (getAverage w url) = download_events url.
Proof.
  rewrite getAverage_values, trace_bind_pure; [apply trace_downloadData|].
  intros text. apply trace_pure_bind; [apply trace_loads|]. intros pairs.
  apply trace_pure_bind; [apply trace_iterate|]. intros items.
  apply trace_pure_bind; [apply trace_values|]. intros vs.
  apply trace_pure_bind; [apply trace_len|]. intros n. apply trace_truediv.
Qed.

Lemma trace_getMax (url : string) :
  trace (getMax w url) = download_events url.
Proof.
  rewrite getMax_values, trace_bind_pure; [apply trace_downloadData|].
  intros text. apply trace_pure_bind; [apply trace_loads|]. intros pairs.
  apply trace_pure_bind; [apply trace_iterate|]. intros items.
  apply trace_pure_bind; [apply trace_values|]. intros vs. reflexivity.
Qed.

(** A payload that can be iterated has a length. *)
Lemma len_iterate (pairs : json) (t : list event) (items : list json) :
  iterate w pairs = (t, Return items) ->
  exists n, len pairs = ret n.
Proof. destruct pairs; cbn; intros H; try discriminate; eexists; reflexivity. Qed.

End Payloads.

(** X1.  Whatever the server answers and whatever the payload holds, a
    call of [getAverage] or of [getMax] announces and performs exactly one
    download and nothing else: no other line is printed and no file is
    touched. *)
Theorem reducer_single_download (w : World) (url : string) :
  trace (getAverage w url) = download_events url /\
  trace (getMax w url) = download_events url /\
  fetched (trace (getAverage w url)) = [url] /\
  fetched (trace (getMax w url)) = [url] /\
  file_events (trace (getAverage w url)) = [] /\
  file_events (trace (getMax w url)) = [].
Proof.
  rewrite trace_getAverage, trace_getMax. repeat split.
Qed.

(** X2.  [getMax] fails only where [getAverage] fails, with the same
    exception; [getAverage] fails besides only with [ZeroDivisionError],
    on a payload of length zero, where [getMax] returns.  So once the
    mean of a series was computed, its maximum is computed too when the
    server answers the same. *)
Theorem reducers_fail_alike (w : World) (url : string) :
  (forall e, result (getMax w url) = Raise e ->
             result (getAverage w url) = Raise e) /\
  (forall e, result (getAverage w url) = Raise e ->
             result (getMax w url) = Raise e \/
             (e = ZeroDivisionError /\
              exists r, result (getMax w url) = Return r)) /\
  (forall x, result (getAverage w url) = Return x ->
             exists r, result (getMax w url) = Return r).
Proof.
  rewrite getMax_values, getAverage_values.
  rewrite !result_bind.
  destruct (result (downloadData w url)) as [text|e0];
    [|repeat split; intros; try discriminate; auto].
  rewrite !result_bind.
  destruct (result (loads w text)) as [pairs|e0];
    [|repeat split; intros; try discriminate; auto].
  rewrite !result_bind.
  destruct (iterate w pairs) as [ti [items|e0]] eqn:Eit; cbn [result snd];
    [|repeat split; intros; try discriminate; auto].
  destruct (len_iterate w pairs ti items Eit) as [n Hn].
  rewrite !result_bind.
  destruct (result (mapM (pair_value w) items)) as [vs|e0];
    [|repeat split; intros; try discriminate; auto].
  rewrite result_bind, Hn. cbn [result snd ret]. unfold truediv.
  destruct (n =? 0)%Z; cbn [result snd raise ret];
    repeat split; intros; try discriminate; try (eexists; reflexivity).
  right. inversion H. split; [reflexivity | eexists; reflexivity].
Qed.

(** A value that exceeded a maximum that was not negative is not negative
    either: it is no NaN and at least zero. *)
Lemma leb_zero_step (m v : PyFloat.float) :
  PyFloat.leb PyFloat.zero m = true -> PyFloat.ltb m v = true ->
  PyFloat.leb PyFloat.zero v = true.
Proof.
  unfold PyFloat.leb, PyFloat.ltb, PyFloat.zero, SFleb, SFltb, SFcompare.
  destruct m as [sm|sm| |sm mm em], v as [sv|sv| |sv mv ev];
    try destruct sm; try destruct sv; cbn; try congruence;
    intros H1 H2; compare_cases; cbn in *; congruence.
Qed.

Lemma max_loop_nonnegative (vs : list PyFloat.float) (m : PyFloat.float) :
  PyFloat.leb PyFloat.zero m = true ->
  PyFloat.leb PyFloat.zero (fold_left max_step vs m) = true.
Proof.
  revert m. induction vs as [|v vs IH]; intros m Hm; [exact Hm|].
  cbn [fold_left]. apply IH. unfold max_step.
  destruct (PyFloat.ltb m v) eqn:E; [eapply leb_zero_step; eauto | exact Hm].
Qed.

(** X3.  Whatever the payload holds, negative values, NaN or strings, what
    [getMax] returns is a number and is not negative. *)
Theorem getMax_nonnegative (w : World) (url : string) (r : PyFloat.float) :
  result (getMax w url) = Return r ->
  PyFloat.leb PyFloat.zero r = true /\
  PyFloat.ltb r PyFloat.zero = false /\
  r <> S754_nan.
Proof.
  rewrite getMax_values, !result_bind.
  destruct (result (downloadData w url)) as [text|e0]; [|discriminate].
  rewrite !result_bind.
  destruct (result (loads w text)) as [pairs|e0]; [|discriminate].
  rewrite !result_bind.
  destruct (result (iterate w pairs)) as [items|e0]; [|discriminate].
  rewrite !result_bind.
  destruct (result (mapM (pair_value w) items)) as [vs|e0]; [|discriminate].
  cbn [result snd ret]. intros H. inversion H as [Hr].
  pose proof (max_loop_nonnegative vs PyFloat.zero eq_refl) as Hle.
  set (m := fold_left max_step vs PyFloat.zero) in *. clearbody m.
  repeat split; [exact Hle | | intros ->; discriminate].
  revert Hle. unfold PyFloat.leb, PyFloat.ltb, PyFloat.zero, SFleb, SFltb, SFcompare.
  destruct m as [s|s| |s mm em]; try destruct s; cbn; congruence.
Qed.

Lemma getMax_nonnegative_witness :
  PyFloat.leb PyFloat.zero PyFloat.zero = true /\
  PyFloat.ltb PyFloat.zero PyFloat.zero = false /\
  PyFloat.zero <> S754_nan.
Proof.
  apply (getMax_nonnegative (Demo.constant "[[0,-1],[1,-2]]") "u" PyFloat.zero).
  vm_compute. reflexivity.
Defined.

Section BadPair.

Variable w : World.

Lemma values_app (l1 l2 : list json) :
  mapM (pair_value w) (l1 ++ l2)
  = (vs1 <- mapM (pair_value w) l1 ;;
     vs2 <- mapM (pair_value w) l2 ;;
     ret (vs1 ++ vs2)%list).
Proof.
  induction l1 as [|a l1 IH]; cbn [mapM app].
  - rewrite bind_ret_l. symmetry. apply bind_ret_r.
  - rewrite !bind_assoc. apply bind_ext. intros x.
    rewrite IH, !bind_assoc. apply bind_ext. intros vs1.
    rewrite bind_ret_l, bind_assoc. apply bind_ext. intros vs2.
    rewrite !bind_ret_l. reflexivity.
Qed.

Lemma values_series (s : series) :
  well_formed s = true ->
  mapM (pair_value w) (map pair_json s) = ret (values s).
Proof.
  induction s as [|p s IH]; intros Hs; [reflexivity|].
  cbn in Hs. apply andb_true_iff in Hs as [Hp Hs].
  cbn [map mapM]. unfold pair_value at 1, pair_json at 1. cbn [item1 index nth_error].
  rewrite bind_ret_l, (to_float_number w _ Hp), bind_ret_l, (IH Hs), bind_ret_l.
  reflexivity.
Qed.

Lemma values_bad_pair (s : series) (bad : json) (rest : list json) (e : exn) :
  well_formed s = true ->
  result (pair_value w bad) = Raise e ->
  result (mapM (pair_value w) (map pair_json s ++ bad :: rest)) = Raise e.
Proof.
  intros Hs Hbad. rewrite values_app, (values_series s Hs), bind_ret_l.
  cbn [mapM]. rewrite !result_bind, Hbad. reflexivity.
Qed.

End BadPair.

(** X4.  A payload that is not JSON ends both reducers with [ValueError],
    one that is a number, a boolean or [null] with [TypeError], a string
    that is not empty with [IndexError].  In an array, the first element that is not a pair with a number in
    second place ends both with the exception of [float(pair\[1\])] on it:
    [IndexError] for an array of fewer than two elements, [TypeError] for
    a value that is [null], an array or an object and for an element that
    is a number, [ValueError] for a value that is a string [float] cannot
    read. *)
Theorem first_bad_pair (w : World) (url text : string) :
  urlopen w url = Body text ->
  (json_loads w text = None ->
   result (getAverage w url) = Raise ValueError /\
   result (getMax w url) = Raise ValueError) /\
  (forall (s : series) (bad : json) (rest : list json) (e : exn),
      json_loads w text = Some (JArray (map pair_json s ++ bad :: rest)) ->
      well_formed s = true ->
      result (pair_value w bad) = Raise e ->
      result (getAverage w url) = Raise e /\ result (getMax w url) = Raise e) /\
  (forall t, pair_value w (JArray []) = raise IndexError /\
             pair_value w (JArray [t]) = raise IndexError) /\
  (forall t rest,
      pair_value w (JArray (t :: JNull :: rest)) = raise TypeError /\
      (forall l, pair_value w (JArray (t :: JArray l :: rest)) = raise TypeError) /\
      (forall o, pair_value w (JArray (t :: JObject o :: rest)) = raise TypeError) /\
      (forall v, float_of_str w v = None ->
                 pair_value w (JArray (t :: JString v :: rest)) = raise ValueError)) /\
  (forall z x, pair_value w (JInt z) = raise TypeError /\
               pair_value w (JFloat x) = raise TypeError /\
               pair_value w JNull = raise TypeError) /\
  (forall j, json_loads w text = Some j -> scalar j = true ->
             result (getAverage w url) = Raise TypeError /\
             result (getMax w url) = Raise TypeError) /\
  (forall c s, json_loads w text = Some (JString (String c s)) ->
               result (getAverage w url) = Raise IndexError /\
               result (getMax w url) = Raise IndexError).
Proof.
  intros Hurl.
  assert (Hdl : result (downloadData w url) = Return text)
    by (rewrite (downloadData_Body w url text Hurl); reflexivity).
  split; [|split; [|split; [|split; [|split; [|split]]]]].
  - intros Hjson. rewrite getAverage_values, getMax_values, !result_bind, Hdl.
    rewrite !result_bind. unfold loads. rewrite Hjson. split; reflexivity.
  - intros s bad rest e Hjson Hs Hbad.
    rewrite getAverage_values, getMax_values, !result_bind, Hdl.
    rewrite !result_bind. unfold loads. rewrite Hjson. cbn [result snd ret iterate].
    rewrite !bind_ret_l, !result_bind, (values_bad_pair w s bad rest e Hs Hbad).
    split; reflexivity.
  - intros t. split; reflexivity.
  - intros t rest. repeat split.
    intros v Hv. unfold pair_value. cbn. rewrite Hv. reflexivity.
  - intros z x. repeat split.
  - intros j Hjson Hj.
    rewrite getAverage_values, getMax_values, !result_bind, Hdl.
    rewrite !result_bind. unfold loads. rewrite Hjson. cbn [result snd ret].
    rewrite !result_bind. destruct j; try discriminate; split; reflexivity.
  - intros c s Hjson.
    rewrite getAverage_values, getMax_values, !result_bind, Hdl.
    rewrite !result_bind. unfold loads. rewrite Hjson. split; reflexivity.
Qed.

Lemma first_bad_pair_witness :
  let w := Demo.constant "[[0,1],[2],[3,4]]" in
  (json_loads w "[[0,1],[2],[3,4]]" = None ->
   result (getAverage w "u") = Raise ValueError /\
   result (getMax w "u") = Raise ValueError) /\
  (forall (s : series) (bad : json) (rest : list json) (e : exn),
      json_loads w "[[0,1],[2],[3,4]]"
      = Some (JArray (map pair_json s ++ bad :: rest)) ->
      well_formed s = true ->
      result (pair_value w bad) = Raise e ->
      result (getAverage w "u") = Raise e /\ result (getMax w "u") = Raise e) /\
  (forall t, pair_value w (JArray []) = raise IndexError /\
             pair_value w (JArray [t]) = raise IndexError) /\
  (forall t rest,
      pair_value w (JArray (t :: JNull :: rest)) = raise TypeError /\
      (forall l, pair_value w (JArray (t :: JArray l :: rest)) = raise TypeError) /\
      (forall o, pair_value w (JArray (t :: JObject o :: rest)) = raise TypeError) /\
      (forall v, float_of_str w v = None ->
                 pair_value w (JArray (t :: JString v :: rest)) = raise ValueError)) /\
  (forall z x, pair_value w (JInt z) = raise TypeError /\
               pair_value w (JFloat x) = raise TypeError /\
               pair_value w JNull = raise TypeError) /\
  (forall j, json_loads w "[[0,1],[2],[3,4]]" = Some j -> scalar j = true ->
             result (getAverage w "u") = Raise TypeError /\
             result (getMax w "u") = Raise TypeError) /\
  (forall c s, json_loads w "[[0,1],[2],[3,4]]" = Some (JString (String c s)) ->
               result (getAverage w "u") = Raise IndexError /\
               result (getMax w "u") = Raise IndexError).
Proof.
  apply (first_bad_pair (Demo.constant "[[0,1],[2],[3,4]]") "u" "[[0,1],[2],[3,4]]").
  reflexivity.
Defined.

(** The payload [\[\[0,1\],\[2\],\[3,4\]\]]: the second element has no
    second element. *)
Example short_pair :
  getAverage (Demo.constant "[[0,1],[2],[3,4]]") "u"
  = (download_events "u", Raise IndexError) /\
  getMax (Demo.constant "[[0,1],[2],[3,4]]") "u"
  = (download_events "u", Raise IndexError).
Proof. vm_compute. split; reflexivity. Qed.

(* ================================================================= *)
(** ** The order of the downloads *)

Section Order.

Variable w : World.

Lemma mean_loop_fetched (urls : list string) (acc : PyFloat.float) :
  fetched (trace (foldM (fun accumulator url =>
                           a <- getAverage w url ;;
                           ret (PyFloat.add accumulator a))
                        urls acc))
  = fetched_until w urls.
Proof.
  revert acc. induction urls as [|url urls IH]; intros acc; [reflexivity|].
  cbn [foldM fetched_until]. rewrite bind_assoc, trace_bind, trace_getAverage.
  destruct (result (getAverage w url)) as [a|e]; [|reflexivity].
  rewrite bind_ret_l. cbn [download_events app fetched flat_map].
  f_equal. apply IH.
Qed.

Lemma mean_loop_result (before : list string) (url : string)
    (after : list string) (e : exn) (acc : PyFloat.float) :
  Forall (fun u => exists x, result (getAverage w u) = Return x) before ->
  result (getAverage w url) = Raise e ->
  result (foldM (fun accumulator url =>
                   a <- getAverage w url ;; ret (PyFloat.add accumulator a))
                (before ++ url :: after) acc) = Raise e.
Proof.
  intros Hb He. revert acc.
  induction Hb as [|u before [x Hx] _ IH]; intros acc; cbn [app foldM].
  - rewrite !result_bind, He. reflexivity.
  - rewrite bind_assoc, result_bind, Hx, bind_ret_l. apply IH.
Qed.

Lemma fetched_until_stops (before : list string) (url : string)
    (after : list string) (e : exn) :
  Forall (fun u => exists x, result (getAverage w u) = Return x) before ->
  result (getAverage w url) = Raise e ->
  fetched_until w (before ++ url :: after) = (before ++ [url])%list.
Proof.
  intros Hb He. induction Hb as [|u before [x Hx] _ IH]; cbn [app fetched_until].
  - rewrite He. reflexivity.
  - rewrite Hx, IH. reflexivity.
Qed.

Lemma fetched_until_all (urls : list string) :
  Forall (fun u => exists x, result (getAverage w u) = Return x) urls ->
  fetched_until w urls = urls.
Proof.
  intros H. induction H as [|u urls [x Hx] _ IH]; cbn [fetched_until];
    [reflexivity | rewrite Hx, IH; reflexivity].
Qed.

Lemma getAverageFromList_fetched (urls : list string) (b : bool) :
  fetched (trace (getAverageFromList w urls b)) = fetched_until w urls.
Proof.
  unfold getAverageFromList. rewrite trace_bind_pure; [apply mean_loop_fetched|].
  intros acc. destruct b; [apply trace_truediv | reflexivity].
Qed.

(** Composition of downloads in order. *)
Lemma in_order_bind {A B} (us1 us2 : list string) (m : M A) (f : A -> M B) :
  downloads_in_order us1 m -> (forall a, downloads_in_order us2 (f a)) ->
  downloads_in_order (us1 ++ us2) (bind m f).
Proof.
  intros [[rest1 Hp1] Ha1] Hf. unfold downloads_in_order.
  rewrite trace_bind, result_bind.
  destruct m as [t [a|e]]; cbn [result trace fst snd] in *.
  - destruct (Hf a) as [[rest2 Hp2] Ha2]. rewrite fetched_app, (Ha1 a eq_refl).
    split.
    + exists rest2. rewrite <- app_assoc, <- Hp2. reflexivity.
    + intros b Hb. rewrite (Ha2 b Hb). reflexivity.
  - split; [|discriminate].
    exists (rest1 ++ us2)%list. rewrite app_assoc, <- Hp1. reflexivity.
Qed.

Lemma in_order_pure {A} (m : M A) : trace m = [] -> downloads_in_order [] m.
Proof.
  intros H. unfold downloads_in_order. rewrite H.
  split; [exists []; reflexivity | reflexivity].
Qed.

Lemma in_order_getAverage (url : string) :
  downloads_in_order [url] (getAverage w url).
Proof.
  unfold downloads_in_order. rewrite trace_getAverage.
  split; [exists []; reflexivity | reflexivity].
Qed.

Lemma in_order_getMax (url : string) :
  downloads_in_order [url] (getMax w url).
Proof.
  unfold downloads_in_order. rewrite trace_getMax.
  split; [exists []; reflexivity | reflexivity].
Qed.

Lemma in_order_then {A B} (us : list string) (m : M A) (f : A -> M B) :
  downloads_in_order us m -> (forall a, trace (f a) = []) ->
  downloads_in_order us (bind m f).
Proof.
  intros Hm Hf. rewrite <- (app_nil_r us).
  apply in_order_bind; [exact Hm | intros a; apply in_order_pure, Hf].
Qed.

Lemma in_order_mean_loop (urls : list string) (acc : PyFloat.float) :
  downloads_in_order urls
    (foldM (fun accumulator url =>
              a <- getAverage w url ;; ret (PyFloat.add accumulator a))
           urls acc).
Proof.
  revert acc. induction urls as [|url urls IH]; intros acc; cbn [foldM].
  - apply in_order_pure. reflexivity.
  - change (url :: urls) with ([url] ++ urls)%list.
    apply in_order_bind; [|intros b; apply IH].
    apply in_order_then; [apply in_order_getAverage | reflexivity].
Qed.

Lemma in_order_getAverageFromList (urls : list string) (b : bool) :
  downloads_in_order urls (getAverageFromList w urls b).
Proof.
  unfold getAverageFromList. apply in_order_then; [apply in_order_mean_loop|].
  intros acc. destruct b; [apply trace_truediv | reflexivity].
Qed.

Lemma in_order_latency (hasLatency : bool) (url : string) :
  downloads_in_order (if hasLatency then [url] else [])
    (if hasLatency then x <- getAverage w url ;; ret (fmt x) else ret "N/A").
Proof.
  destruct hasLatency.
  - apply in_order_then; [apply in_order_getAverage | reflexivity].
  - apply in_order_pure. reflexivity.
Qed.

Lemma in_order_build_data project number label snapshot bucket nodes hasLatency :
  downloads_in_order (catalog snapshot bucket nodes hasLatency)
    (build_data w project number label snapshot bucket nodes hasLatency).
Proof.
  unfold catalog, build_data. cbv zeta.
  repeat first
    [ apply in_order_bind;
      [ first [ apply in_order_getAverage | apply in_order_getMax
              | apply in_order_latency | apply in_order_getAverageFromList ]
      | intros ? ]
    | apply in_order_then;
      [ apply in_order_getAverageFromList | intros ?; reflexivity ] ].
Qed.

Lemma catalog_length snapshot bucket nodes hasLatency :
  List.length (catalog snapshot bucket nodes hasLatency)
  = (7 + 6 * List.length nodes + (if hasLatency then 2 else 0))%nat.
Proof.
  unfold catalog. cbv zeta. rewrite !length_app, !length_map.
  destruct hasLatency; cbn [List.length]; lia.
Qed.

Lemma catalog_host snapshot bucket nodes hasLatency :
  Forall (fun url => PyStr.startswith host url = true)
    (catalog snapshot bucket nodes hasLatency).
Proof.
  unfold catalog. cbv zeta.
  repeat (apply Forall_app; split);
    try (destruct hasLatency; repeat constructor; fail);
    apply Forall_forall; intros u Hu; apply in_map_iff in Hu as (node & <- & _);
    reflexivity.
Qed.

End Order.

(** X5.  [getAverageFromList] downloads the URLs of its list in order,
    each once, and stops at the first one whose mean cannot be computed:
    it ends with the exception of that mean and the URLs after it are
    not asked for. *)
Theorem getAverageFromList_stops (w : World) (before : list string)
    (url : string) (after : list string) (e : exn) (per_single_node : bool) :
  Forall (fun u => exists x, result (getAverage w u) = Return x) before ->
  result (getAverage w url) = Raise e ->
  result (getAverageFromList w (before ++ url :: after) per_single_node)
  = Raise e /\
  fetched (trace (getAverageFromList w (before ++ url :: after) per_single_node))
  = (before ++ [url])%list /\
  (forall urls b,
      fetched (trace (getAverageFromList w urls b)) = fetched_until w urls).
Proof.
  intros Hb He. split; [|split].
  - unfold getAverageFromList.
    rewrite result_bind, (mean_loop_result w before url after e _ Hb He).
    reflexivity.
  - rewrite getAverageFromList_fetched. apply (fetched_until_stops w _ _ _ e Hb He).
  - apply getAverageFromList_fetched.
Qed.

Lemma getAverageFromList_stops_witness :
  result (getAverageFromList Cases.one_empty (["a"] ++ "b" :: ["c"]) true)
  = Raise ZeroDivisionError /\
  fetched (trace (getAverageFromList Cases.one_empty (["a"] ++ "b" :: ["c"]) true))
  = (["a"] ++ ["b"])%list /\
  (forall urls b,
      fetched (trace (getAverageFromList Cases.one_empty urls b))
      = fetched_until Cases.one_empty urls).
Proof.
  apply (getAverageFromList_stops Cases.one_empty ["a"] "b" ["c"]
           ZeroDivisionError true).
  - repeat constructor. exists (PyFloat.of_Z 10). vm_compute. reflexivity.
  - vm_compute. reflexivity.
Defined.

(** X6.  The metric downloads of a job follow the dict literal of lines
    196-241: whatever happens they are the first URLs of the catalog, in
    its order, and all of them when the record is built.  The catalog has
    [7 + 6n] URLs for [n] nodes, two more with latencies, all of the
    metrics host. *)
Theorem catalog_in_order (w : World)
    (project number label snapshot bucket : string) (nodes : list string)
    (hasLatency : bool) :
  let run := build_data w project number label snapshot bucket nodes hasLatency in
  let urls := catalog snapshot bucket nodes hasLatency in
  (exists rest, urls = (fetched (trace run) ++ rest)%list) /\
  (forall d, result run = Return d -> fetched (trace run) = urls) /\
  List.length urls
  = (7 + 6 * List.length nodes + (if hasLatency then 2 else 0))%nat /\
  Forall (fun url => PyStr.startswith host url = true) urls.
Proof.
  cbv zeta.
  destruct (in_order_build_data w project number label snapshot bucket nodes
              hasLatency) as [Hprefix Hall].
  repeat split; try assumption.
  - apply catalog_length.
  - apply catalog_host.
Qed.

(* ================================================================= *)
(** ** Files of a run *)

Section Files.

Variable w : World.
Variable output_dir : string.

Lemma fileless_bind {A B} (m : M A) (f : A -> M B) :
  fileless m -> (forall a, fileless (f a)) -> fileless (bind m f).
Proof.
  unfold fileless. intros Hm Hf. rewrite trace_bind.
  destruct (result m) as [a|e]; [|exact Hm].
  rewrite file_events_app, Hm, Hf. reflexivity.
Qed.

Lemma fileless_pure {A} (m : M A) : trace m = [] -> fileless m.
Proof. unfold fileless. intros ->. reflexivity. Qed.

Lemma fileless_print (s : string) : fileless (print s).
Proof. reflexivity. Qed.

Lemma fileless_downloadData (url : string) : fileless (downloadData w url).
Proof. unfold fileless. rewrite trace_downloadData. reflexivity. Qed.

Lemma fileless_getAverage (url : string) : fileless (getAverage w url).
Proof. unfold fileless. rewrite trace_getAverage. reflexivity. Qed.

Lemma fileless_getMax (url : string) : fileless (getMax w url).
Proof. unfold fileless. rewrite trace_getMax. reflexivity. Qed.

Lemma fileless_foldM {A B} (f : B -> A -> M B) (l : list A) (b : B) :
  (forall b a, fileless (f b a)) -> fileless (foldM f l b).
Proof.
  intros Hf. revert b. induction l as [|a l IH]; intros b; [reflexivity|].
  cbn [foldM]. apply fileless_bind; [apply Hf | exact IH].
Qed.

Lemma fileless_getAverageFromList (urls : list string) (b : bool) :
  fileless (getAverageFromList w urls b).
Proof.
  unfold getAverageFromList. apply fileless_bind.
  - apply fileless_foldM. intros acc url.
    apply fileless_bind; [apply fileless_getAverage | intros; reflexivity].
  - intros acc. apply fileless_pure.
    destruct b; [apply trace_truediv | reflexivity].
Qed.

Lemma fileless_build_data project number label snapshot bucket nodes hasLatency :
  fileless (build_data w project number label snapshot bucket nodes hasLatency).
Proof.
  unfold build_data. cbv zeta.
  repeat first
    [ apply fileless_getAverage | apply fileless_getMax
    | apply fileless_getAverageFromList
    | apply fileless_bind; [|intros ?]
    | match goal with
      | |- fileless (if ?b then _ else _) => destruct b
      end
    | reflexivity ].
Qed.

Lemma opened_only_bind (path : string) {A B} (m : M A) (f : A -> M B) :
  fileless m -> (forall a, opened_only path (f a)) ->
  opened_only path (bind m f).
Proof.
  unfold opened_only, fileless. intros Hm Hf e. rewrite result_bind, trace_bind.
  destruct (result m) as [a|e0]; [|intros _; left; exact Hm].
  intros He. rewrite file_events_app, Hm. exact (Hf a e He).
Qed.

Lemma opened_only_fileless (path : string) {A} (m : M A) :
  fileless m -> opened_only path m.
Proof. intros H e _. left. exact H. Qed.

(** Once the record is built only [json.dumps] can fail, with the file
    open. *)
Lemma opened_only_process_job project number label log vars :
  opened_only (json_path output_dir project number)
    (process_job w output_dir project number label log vars).
Proof.
  unfold process_job.
  apply opened_only_bind;
    [apply fileless_pure, trace_scrape_snapshot | intros snapshot].
  apply opened_only_bind; [apply fileless_print | intros _].
  apply opened_only_bind;
    [apply fileless_pure, trace_scrape_nodes | intros node_list].
  apply opened_only_bind; [apply fileless_print | intros _].
  apply opened_only_bind;
    [apply fileless_pure, trace_scrape_bucket | intros bucket].
  apply opened_only_bind; [apply fileless_print | intros _].
  apply opened_only_bind; [apply fileless_build_data | intros d].
  intros e. unfold dumps.
  destruct (forallb _ d); cbn; intros H; [discriminate|].
  right. inversion H. split; reflexivity.
Qed.

Lemma opened_only_job_body (job : string) (vars : Vars) :
  opened_only (job_json_path output_dir job) (job_body w output_dir job vars).
Proof.
  unfold job_body.
  apply opened_only_bind; [apply fileless_print | intros _].
  apply opened_only_bind; [apply fileless_print | intros _].
  apply opened_only_bind; [apply fileless_print | intros _].
  destruct (List.length (PyStr.split job ":") <? 2)%nat.
  - apply opened_only_fileless. reflexivity.
  - apply opened_only_bind; [apply fileless_downloadData | intros log].
    destruct (PyStr.find log "snapshot=" =? -1)%Z.
    + apply opened_only_fileless. reflexivity.
    + apply opened_only_process_job.
Qed.

(** The file events of one iteration: none, those of the JSON file of
    the job, or the opening of that file alone. *)
Lemma job_body_files (job : string) (vars : Vars) :
  file_events (trace (job_body w output_dir job vars)) = [] \/
  (exists d, file_events (trace (job_body w output_dir job vars))
             = json_events output_dir job d) \/
  file_events (trace (job_body w output_dir job vars))
  = [FileOpen (job_json_path output_dir job)].
Proof.
  pose proof (opened_only_job_body job vars) as Hat.
  destruct (job_body w output_dir job vars) as [t [vars'|e]] eqn:E.
  2:{ destruct (Hat e eq_refl) as [H | [H _]]; [left | right; right]; exact H. }
  clear Hat. cbn [trace fst]. revert E. unfold job_body.
  cbn [print emit bind].
  destruct (List.length (PyStr.split job ":") <? 2)%nat; [discriminate|].
  fold (job_project job) (job_number job).
  destruct (downloadData w (console_url (job_project job) (job_number job)))
    as [td [log|e]] eqn:Ed; cbn [bind]; [|discriminate].
  pose proof (fileless_downloadData (console_url (job_project job) (job_number job)))
    as Hd. unfold fileless in Hd. rewrite Ed in Hd. cbn [trace fst] in Hd.
  destruct (PyStr.find log "snapshot=" =? -1)%Z.
  - cbn. intros H. inversion H; subst. left.
    cbn [file_events filter is_file_event]. fold (file_events (td ++ [Print
      ("Snapshot not found for job" ++ job
       ++ ", probably the job has been aborted. Skipping..")])).
    rewrite file_events_app, Hd. reflexivity.
  - destruct (process_job w output_dir (job_project job) (job_number job) _ log vars)
      as [tp [v|e]] eqn:Ep; [|discriminate].
    intros H. inversion H; subst. right. left.
    apply process_job_inv in Ep
      as (snapshot & node_list & bucket & tb & d & _ & _ & _ & Eb & _ & ->).
    exists d. pose proof (fileless_build_data (job_project job) (job_number job)
      (if (List.length (PyStr.split job ":") =? 3)%nat
       then nth 2 (PyStr.split job ":") "" else "")
      snapshot bucket (set_order w node_list)
      (negb (PyStr.find log "spring_latency" =? -1)%Z)) as Hb.
    unfold fileless in Hb. rewrite Eb in Hb. cbn [trace fst] in Hb.
    cbn [file_events filter is_file_event].
    fold (file_events (td ++ [Print ("snapshot: " ++ snapshot);
        Print ("nodes: " ++ PyRepr.str_of_set (set_order w node_list));
        Print ("bucket: " ++ bucket)] ++ tb ++
       [FileOpen (json_path output_dir (job_project job) (job_number job));
        FileWrite (json_path output_dir (job_project job) (job_number job))
          (JsonDumps d);
        FileClose (json_path output_dir (job_project job) (job_number job));
        Print ("Data written to "
               ++ json_path output_dir (job_project job) (job_number job))])).
    rewrite !file_events_app, Hd, Hb. reflexivity.
Qed.

Lemma json_files_only_app (t1 t2 : list event) :
  json_files_only output_dir t1 -> json_files_only output_dir t2 ->
  json_files_only output_dir (t1 ++ t2).
Proof.
  unfold json_files_only. intros H1 H2. rewrite file_events_app.
  apply Forall_app. split; assumption.
Qed.

Lemma job_body_json_only (job : string) (vars : Vars) :
  json_files_only output_dir (trace (job_body w output_dir job vars)).
Proof.
  unfold json_files_only.
  destruct (job_body_files job vars) as [-> | [[d ->] | ->]]; [constructor| |].
  - unfold json_events. repeat constructor; eexists _, _; reflexivity.
  - repeat constructor. eexists _, _. reflexivity.
Qed.

Lemma main_loop_json_only (job_list : list string) (vars : Vars) :
  json_files_only output_dir (trace (main_loop w output_dir job_list vars)).
Proof.
  revert vars. induction job_list as [|job rest IH]; intros vars.
  - constructor.
  - rewrite main_loop_cons, trace_bind.
    destruct (result (job_body w output_dir job vars)) as [vars'|e].
    + apply json_files_only_app; [apply job_body_json_only | apply IH].
    + apply job_body_json_only.
Qed.

Lemma last_char_app (a b : string) (d : ascii) :
  last_char (a ++ b) d = last_char b (last_char a d).
Proof.
  revert d. induction a as [|c a IH]; intros d; [reflexivity|]. cbn. apply IH.
Qed.

(** No JSON file of a job is the CSV file. *)
Lemma json_path_not_csv (project number : string) :
  json_path output_dir project number <> csv_path output_dir.
Proof.
  unfold json_path, csv_path. intros H.
  apply (f_equal (fun s => last_char s "x"%char)) in H.
  rewrite !last_char_app in H. cbn in H. discriminate.
Qed.

Lemma file_content_app (path : string) (t1 t2 : list event) cur :
  file_content path (t1 ++ t2) cur
  = file_content path t2 (file_content path t1 cur).
Proof.
  revert cur. induction t1 as [|ev t1 IH]; intros cur; [reflexivity|].
  destruct ev; cbn; apply IH.
Qed.

Lemma file_content_untouched (path : string) (t : list event) cur :
  untouched path t -> file_content path t cur = cur.
Proof.
  intros H. revert cur. induction H as [|ev t Hev _ IH]; intros cur; [reflexivity|].
  destruct ev as [| |p|p c|p]; cbn in *; try apply IH.
  - destruct (String.eqb_spec p path); [congruence | apply IH].
  - destruct (String.eqb_spec p path); [congruence | apply IH].
Qed.

Lemma json_only_untouched (t : list event) :
  json_files_only output_dir t -> untouched (csv_path output_dir) (file_events t).
Proof.
  unfold json_files_only, untouched. intros H.
  eapply Forall_impl; [|exact H]. cbn. intros ev (p & n & ->) E.
  inversion E as [E']. exact (json_path_not_csv p n E').
Qed.

(** A loop over jobs never touches the CSV file. *)
Lemma main_loop_spares_csv (job_list : list string) (vars : Vars) cur :
  file_content (csv_path output_dir)
    (trace (main_loop w output_dir job_list vars)) cur = cur.
Proof.
  rewrite file_content_file_events. apply file_content_untouched.
  apply json_only_untouched, main_loop_json_only.
Qed.

(** A run that stops in the loop. *)
Lemma main_stops (before after : list string) (job : string)
    (t1 : list event) (vars1 : Vars) (e : exn) :
  main_loop w output_dir before first_vars = (t1, Return vars1) ->
  result (job_body w output_dir job vars1) = Raise e ->
  main w (before ++ job :: after) output_dir
  = ((run_header (before ++ job :: after) output_dir ++ t1
      ++ trace (job_body w output_dir job vars1))%list,
     Raise e).
Proof.
  intros Hbefore Hjob.
  unfold main. rewrite main_loop_app. fold first_vars. rewrite Hbefore.
  cbn [bind print emit]. rewrite main_loop_cons.
  destruct (job_body w output_dir job vars1) as [t r]. cbn in Hjob. subst r.
  reflexivity.
Qed.

(** A run that stops in the loop at a job that touched no file leaves
    the files of the jobs before. *)
Lemma stopped_run_files (before after : list string) (job : string)
    (t1 : list event) (vars1 : Vars) (e : exn) :
  main_loop w output_dir before first_vars = (t1, Return vars1) ->
  result (job_body w output_dir job vars1) = Raise e ->
  file_events (trace (job_body w output_dir job vars1)) = [] ->
  let run := main w (before ++ job :: after) output_dir in
  file_events (trace (job_body w output_dir job vars1)) = [] /\
  result run = Raise e /\
  file_events (trace run) = file_events t1 /\
  (forall path, file_after (trace run) path = file_after t1 path) /\
  file_after (trace run) (csv_path output_dir) = None.
Proof.
  intros Hbefore Hjob Hfiles run.
  assert (Hev : file_events (trace run) = file_events t1).
  { unfold run. rewrite (main_stops before after job t1 vars1 e Hbefore Hjob).
    cbn [trace fst]. rewrite !file_events_app, Hfiles, app_nil_r. reflexivity. }
  assert (Hall : forall path, file_after (trace run) path = file_after t1 path).
  { intros path. unfold file_after.
    rewrite (file_content_file_events path (trace run)), Hev.
    symmetry. apply file_content_file_events. }
  repeat split; try assumption.
  - unfold run. rewrite (main_stops before after job t1 vars1 e Hbefore Hjob).
    reflexivity.
  - rewrite Hall. unfold file_after.
    pose proof (main_loop_spares_csv before first_vars None) as H.
    rewrite Hbefore in H. exact H.
Qed.

(** A run that stops at a job that has only opened its JSON file: the
    file is empty and the others are as the jobs before left them. *)
Lemma stopped_run_opened (before after : list string) (job : string)
    (t1 : list event) (vars1 : Vars) (e : exn) :
  main_loop w output_dir before first_vars = (t1, Return vars1) ->
  result (job_body w output_dir job vars1) = Raise e ->
  file_events (trace (job_body w output_dir job vars1))
  = [FileOpen (job_json_path output_dir job)] ->
  let run := main w (before ++ job :: after) output_dir in
  result run = Raise e /\
  file_after (trace run) (job_json_path output_dir job) = Some [] /\
  (forall path, path <> job_json_path output_dir job ->
                file_after (trace run) path = file_after t1 path) /\
  file_after (trace run) (csv_path output_dir) = None.
Proof.
  intros Hbefore Hjob Hfiles run.
  assert (Hev : file_events (trace run)
                = (file_events t1 ++ [FileOpen (job_json_path output_dir job)])%list).
  { unfold run. rewrite (main_stops before after job t1 vars1 e Hbefore Hjob).
    cbn [trace fst]. rewrite !file_events_app, Hfiles. reflexivity. }
  assert (Hall : forall path,
             file_after (trace run) path
             = file_content path [FileOpen (job_json_path output_dir job)]
                 (file_after t1 path)).
  { intros path. unfold file_after.
    rewrite (file_content_file_events path (trace run)), Hev, file_content_app.
    rewrite <- file_content_file_events. reflexivity. }
  assert (Hother : forall path, path <> job_json_path output_dir job ->
                                file_after (trace run) path = file_after t1 path).
  { intros path Hpath. rewrite Hall. cbn [file_content].
    destruct (String.eqb_spec (job_json_path output_dir job) path);
      [congruence | reflexivity]. }
  split; [|split; [|split]].
  - unfold run. rewrite (main_stops before after job t1 vars1 e Hbefore Hjob).
    reflexivity.
  - rewrite Hall. cbn [file_content]. rewrite String.eqb_refl. reflexivity.
  - exact Hother.
  - rewrite Hother.
    + unfold file_after.
      pose proof (main_loop_spares_csv before first_vars None) as H.
      rewrite Hbefore in H. exact H.
    + intros H. symmetry in H. exact (json_path_not_csv _ _ H).
Qed.

End Files.

(** X7.  A job that fails has written no record.  It has touched no file
    at all, except when it is [json.dumps] that fails, on a job
    identifier, label or snapshot that is not UTF-8: the JSON file of the
    job is then already open, created or truncated, and stays empty.  The
    run ends there with the exception of the job; every other file is as
    the jobs before left it, and [data.csv] does not exist. *)
Theorem failed_job_keeps_earlier_files (w : World) (output_dir : string)
    (before after : list string) (job : string)
    (t1 : list event) (vars1 : Vars) (e : exn) :
  main_loop w output_dir before first_vars = (t1, Return vars1) ->
  result (job_body w output_dir job vars1) = Raise e ->
  let run := main w (before ++ job :: after) output_dir in
  let path := job_json_path output_dir job in
  result run = Raise e /\
  file_after (trace run) (csv_path output_dir) = None /\
  (forall other, other <> path ->
                 file_after (trace run) other = file_after t1 other) /\
  ((file_events (trace (job_body w output_dir job vars1)) = [] /\
    file_after (trace run) path = file_after t1 path) \/
   (e = UnicodeDecodeError /\
    file_events (trace (job_body w output_dir job vars1)) = [FileOpen path] /\
    file_after (trace run) path = Some [])).
Proof.
  intros Hbefore Hjob run path.
  destruct (opened_only_job_body w output_dir job vars1 e Hjob)
    as [Hfiles | [Hfiles He]].
  - destruct (stopped_run_files w output_dir before after job t1 vars1 e
                Hbefore Hjob Hfiles) as (_ & Hr & _ & Hall & Hcsv).
    repeat split; try assumption.
    + intros other _. apply Hall.
    + left. split; [exact Hfiles | apply Hall].
  - destruct (stopped_run_opened w output_dir before after job t1 vars1 e
                Hbefore Hjob Hfiles) as (Hr & Hpath & Hother & Hcsv).
    repeat split; try assumption.
    right. repeat split; assumption.
Qed.

Lemma failed_job_keeps_earlier_files_witness :
  let job := "p:2:" ++ String (ascii_of_nat 255) "" in
  let t1 := trace (main_loop Demo.healthy "D" ["p:1"] first_vars) in
  let vars1 := match result (main_loop Demo.healthy "D" ["p:1"] first_vars) with
               | Return vars => vars
               | Raise _ => first_vars
               end in
  let run := main Demo.healthy (["p:1"] ++ job :: ["p:2"]) "D" in
  let path := job_json_path "D" job in
  result run = Raise UnicodeDecodeError /\
  file_after (trace run) (csv_path "D") = None /\
  (forall other, other <> path ->
                 file_after (trace run) other = file_after t1 other) /\
  ((file_events (trace (job_body Demo.healthy "D" job vars1)) = [] /\
    file_after (trace run) path = file_after t1 path) \/
   (UnicodeDecodeError = UnicodeDecodeError /\
    file_events (trace (job_body Demo.healthy "D" job vars1)) = [FileOpen path] /\
    file_after (trace run) path = Some [])).
Proof.
  intros job t1 vars1.
  apply (failed_job_keeps_earlier_files Demo.healthy "D" ["p:1"] ["p:2"] job
           t1 vars1 UnicodeDecodeError); vm_compute; reflexivity.
Defined.

(** A label that is the byte [FF]: the record is built, the file is
    opened and [json.dumps] fails; the file [D/p-2.json] is left empty. *)
Example label_not_utf8 :
  let job := "p:2:" ++ String (ascii_of_nat 255) "" in
  let run := main Demo.healthy ["p:1"; job] "D" in
  result run = Raise UnicodeDecodeError /\
  file_after (trace run) "D/p-2.json" = Some [] /\
  file_after (trace run) "D/data.csv" = None /\
  exists d, file_after (trace run) "D/p-1.json" = Some [JsonDumps d].
Proof. vm_compute. repeat split. eexists. reflexivity. Qed.

Section Handled.

Variable w : World.
Variable output_dir : string.
Hypothesis Hmetrics : metrics_ok w.

Lemma main_loop_handled (job_list : list string) (vars : Vars) :
  forallb (job_handled w) job_list = true ->
  exists t ds,
    main_loop w output_dir job_list vars
    = (t, Return {| data_list := (data_list vars ++ ds)%list;
                    data := last (map Some ds) (data vars) |}) /\
    file_events t
    = flat_map (fun jd => json_events output_dir (fst jd) (snd jd))
        (combine (ready_jobs w job_list) ds) /\
    Forall2 record_of (ready_jobs w job_list) ds.
Proof.
  revert vars. induction job_list as [|job rest IH]; intros vars H.
  - exists [], []. cbn. rewrite app_nil_r. destruct vars. repeat split. constructor.
  - cbn [forallb] in H. apply andb_true_iff in H as [Hjob Hrest].
    unfold ready_jobs. cbn [filter]. fold (ready_jobs w rest).
    unfold job_handled in Hjob.
    destruct (job_ready w job) eqn:Hready.
    + destruct (job_body_ready w Hmetrics output_dir job vars Hready)
        as (t & d & Ebody & Ht & Hd).
      destruct (IH {| data_list := (data_list vars ++ [d])%list; data := Some d |}
                   Hrest) as (t' & ds & Eloop & Ht' & Hds).
      exists (t ++ t')%list, (d :: ds). split; [|split].
      * rewrite main_loop_cons, Ebody. cbn [bind]. rewrite Eloop.
        cbn [data_list data]. rewrite <- app_assoc. cbn [app map].
        rewrite last_cons_default. reflexivity.
      * rewrite file_events_app, Ht, Ht'. reflexivity.
      * constructor; assumption.
    + cbn [orb] in Hjob.
      destruct (IH vars Hrest) as (t' & ds & Eloop & Ht' & Hds).
      exists (skip_events job ++ t')%list, ds. split; [|split].
      * rewrite main_loop_cons, (job_body_skipped w output_dir job vars Hjob).
        cbn [bind]. rewrite Eloop. reflexivity.
      * rewrite file_events_app, Ht'. reflexivity.
      * assumption.
Qed.

Lemma file_events_csv (ds : list dict) (last_d : dict) :
  file_events (csv_events w output_dir ds last_d)
  = csv_events w output_dir ds last_d.
Proof.
  unfold csv_events. cbn. f_equal. f_equal. unfold file_events.
  rewrite filter_app. cbn. f_equal.
  induction ds as [|d ds' IHds]; [reflexivity|]. cbn. f_equal. apply IHds.
Qed.

Lemma main_handled (job_list : list string) :
  forallb (job_handled w) job_list = true ->
  ready_jobs w job_list <> [] ->
  exists t ds last_d,
    main w job_list output_dir = (t, Return tt) /\
    file_events t
    = (flat_map (fun jd => json_events output_dir (fst jd) (snd jd))
         (combine (ready_jobs w job_list) ds)
       ++ csv_events w output_dir ds last_d)%list /\
    Forall2 record_of (ready_jobs w job_list) ds /\
    last (map Some ds) None = Some last_d.
Proof.
  intros Hhandled Hne.
  destruct (main_loop_handled job_list first_vars Hhandled)
    as (t & ds & Eloop & Ht & Hds).
  cbn [first_vars data_list data app] in Eloop.
  assert (Hlast : exists last_d, last (map Some ds) None = Some last_d
                                 /\ map fst last_d = record_keys).
  { pose proof (record_of_keys _ _ Hds) as Hkeys.
    destruct Hds as [|job d jobs ds' Hd Hds']; [congruence|].
    cbn [map]. rewrite last_cons_default. inversion Hkeys; subst.
    apply last_record; assumption. }
  destruct Hlast as (last_d & Hlast & Hkeys).
  exists (run_header job_list output_dir ++ t
          ++ csv_events w output_dir ds last_d
          ++ [Print ("Aggregated data for all jobs written to "
                     ++ csv_path output_dir)])%list, ds, last_d.
  repeat split; try assumption.
  - unfold main. fold first_vars. cbn [print emit bind]. rewrite Eloop.
    cbn [bind]. rewrite Hlast.
    rewrite write_csv_ready;
      [reflexivity | eapply record_of_keys; eauto | assumption].
  - rewrite !file_events_app, Ht, file_events_csv. cbn. rewrite app_nil_r.
    reflexivity.
Qed.

Lemma file_content_writes (path : string) (f : dict -> chunk) (ds : list dict)
    (rest : list event) (acc : list chunk) :
  file_content path (map (fun d => FileWrite path (f d)) ds ++ rest) (Some acc)
  = file_content path rest (Some (acc ++ map f ds)%list).
Proof.
  revert acc. induction ds as [|d ds IH]; intros acc; cbn [map app file_content].
  - rewrite app_nil_r. reflexivity.
  - rewrite String.eqb_refl. cbn [option_map]. rewrite IH, <- app_assoc.
    reflexivity.
Qed.

Lemma file_content_csv (ds : list dict) (last_d : dict) cur :
  file_content (csv_path output_dir) (csv_events w output_dir ds last_d) cur
  = Some (csv_content w ds last_d).
Proof.
  unfold csv_events, csv_content. cbn [app file_content].
  rewrite !String.eqb_refl. cbn [option_map app].
  rewrite file_content_writes. reflexivity.
Qed.

Lemma file_content_json (job : string) (d : dict) cur :
  file_content (job_json_path output_dir job) (json_events output_dir job d) cur
  = Some [JsonDumps d].
Proof.
  unfold json_events. fold (job_json_path output_dir job).
  cbn [file_content]. rewrite !String.eqb_refl. reflexivity.
Qed.

Lemma json_jobs_untouched (path : string) (jds : list (string * dict)) :
  Forall (fun jd => job_json_path output_dir (fst jd) <> path) jds ->
  untouched path
    (flat_map (fun jd => json_events output_dir (fst jd) (snd jd)) jds).
Proof.
  intros H. induction H as [|[j d] jds Hj _ IH]; [constructor|].
  cbn [flat_map]. apply Forall_app. split; [|exact IH].
  unfold json_events. cbn [fst snd] in *. unfold job_json_path in Hj.
  repeat constructor; cbn; congruence.
Qed.

Lemma csv_untouched (path : string) (ds : list dict) (last_d : dict) :
  path <> csv_path output_dir ->
  untouched path (csv_events w output_dir ds last_d).
Proof.
  intros H. unfold csv_events, untouched.
  repeat (apply Forall_app; split); repeat constructor; cbn; try congruence.
  apply Forall_forall. intros ev Hev. apply in_map_iff in Hev as (d & <- & _).
  cbn. congruence.
Qed.

Lemma combine_app_same {A B} (l1 l2 : list A) (k1 k2 : list B) :
  List.length l1 = List.length k1 ->
  combine (l1 ++ l2) (k1 ++ k2) = (combine l1 k1 ++ combine l2 k2)%list.
Proof.
  revert k1. induction l1 as [|a l1 IH]; intros [|b k1] H; try discriminate.
  - reflexivity.
  - cbn. f_equal. apply IH. cbn in H. lia.
Qed.

Lemma combine_fst_forall {A B} (P : A -> Prop) (l : list A) (k : list B) :
  Forall P l -> Forall (fun ab => P (fst ab)) (combine l k).
Proof.
  intros H. revert k. induction H as [|a l Ha _ IH]; intros [|b k]; cbn;
    constructor; [exact Ha | apply IH].
Qed.

End Handled.

(** X8.  A job is processed to a record when its console log is
    downloaded and names a snapshot, a bucket and at least one node, and
    its project, number, label and snapshot are valid UTF-8, which
    [json.dumps] asks of them.  When every metric series is served, every
    job of the list is either processed to a record or skipped for want of
    [snapshot=], and at least one is processed, the run ends normally and
    [data.csv] holds the header, the keys of the last record built,
    followed by one row per processed job, in job-list order; the skipped
    jobs leave no row and no file. *)
Theorem handled_jobs_csv (w : World) (output_dir : string)
    (job_list : list string) :
  metrics_ok w ->
  forallb (job_handled w) job_list = true ->
  ready_jobs w job_list <> [] ->
  exists ds last_d,
    let run := main w job_list output_dir in
    result run = Return tt /\
    Forall2 record_of (ready_jobs w job_list) ds /\
    last (map Some ds) None = Some last_d /\
    file_after (trace run) (csv_path output_dir) = Some (csv_content w ds last_d) /\
    List.length (csv_content w ds last_d)
    = S (List.length (ready_jobs w job_list)) /\
    file_events (trace run)
    = (flat_map (fun jd => json_events output_dir (fst jd) (snd jd))
         (combine (ready_jobs w job_list) ds)
       ++ csv_events w output_dir ds last_d)%list.
Proof.
  intros Hmetrics Hhandled Hne.
  destruct (main_handled w output_dir Hmetrics job_list Hhandled Hne)
    as (t & ds & last_d & Emain & Ht & Hds & Hlast).
  exists ds, last_d. cbv zeta. rewrite Emain. cbn [trace result fst snd].
  repeat split; try assumption.
  - unfold file_after. rewrite file_content_file_events, Ht, file_content_app.
    apply file_content_csv.
  - unfold csv_content. cbn [List.length]. rewrite length_map.
    f_equal. symmetry. eapply Forall2_length. eassumption.
Qed.

Lemma handled_jobs_csv_witness :
  exists ds last_d,
    let run := main Demo.healthy ["p:1"; "q:7"; "p:2:my label"] "D" in
    result run = Return tt /\
    Forall2 record_of (ready_jobs Demo.healthy ["p:1"; "q:7"; "p:2:my label"]) ds /\
    last (map Some ds) None = Some last_d /\
    file_after (trace run) (csv_path "D")
    = Some (csv_content Demo.healthy ds last_d) /\
    List.length (csv_content Demo.healthy ds last_d)
    = S (List.length (ready_jobs Demo.healthy ["p:1"; "q:7"; "p:2:my label"])) /\
    file_events (trace run)
    = (flat_map (fun jd => json_events "D" (fst jd) (snd jd))
         (combine (ready_jobs Demo.healthy ["p:1"; "q:7"; "p:2:my label"]) ds)
       ++ csv_events Demo.healthy "D" ds last_d)%list.
Proof.
  apply (handled_jobs_csv Demo.healthy "D" ["p:1"; "q:7"; "p:2:my label"]).
  - exact healthy_metrics_ok.
  - vm_compute. reflexivity.
  - vm_compute. discriminate.
Defined.

(** X9.  The JSON file of a job is [<output_dir>/<project>-<number>.json].
    In a run whose jobs are all processed or skipped, the JSON file of a
    processed job holds one record, that of the last processed job of the
    list with this path: a job listed again, with another label say,
    overwrites the file of the earlier one.  [data.csv] keeps a row for
    each processed job, in job-list order, the overwritten ones included;
    the row of the job and its JSON file are the same record. *)
Theorem json_file_last_record (w : World) (output_dir : string)
    (job_list earlier later : list string) (job : string) :
  metrics_ok w ->
  forallb (job_handled w) job_list = true ->
  ready_jobs w job_list = (earlier ++ job :: later)%list ->
  Forall (fun j => job_json_path output_dir j <> job_json_path output_dir job)
         later ->
  exists ds1 d ds2 last_d,
    let run := main w job_list output_dir in
    Forall2 record_of earlier ds1 /\
    record_of job d /\
    Forall2 record_of later ds2 /\
    last (map Some (ds1 ++ d :: ds2)%list) None = Some last_d /\
    file_after (trace run) (job_json_path output_dir job) = Some [JsonDumps d] /\
    file_after (trace run) (csv_path output_dir)
    = Some (csv_content w (ds1 ++ d :: ds2)%list last_d).
Proof.
  intros Hmetrics Hhandled Hready Hlater.
  destruct (main_handled w output_dir Hmetrics job_list Hhandled)
    as (t & ds & last_d & Emain & Ht & Hds & Hlast).
  { rewrite Hready. destruct earlier; discriminate. }
  assert (Hcsv : file_after t (csv_path output_dir)
                 = Some (csv_content w ds last_d)).
  { unfold file_after. rewrite file_content_file_events, Ht, file_content_app.
    apply file_content_csv. }
  rewrite Hready in Ht, Hds.
  apply Forall2_app_inv_l in Hds as (ds1 & ds' & Hds1 & Hds' & ->).
  inversion Hds' as [|j d js ds2 Hd Hds2]; subst.
  exists ds1, d, ds2, last_d. cbv zeta.
  rewrite Emain. cbn [trace fst].
  repeat split; try assumption; try apply Hd.
  unfold file_after.
  rewrite file_content_file_events, Ht.
  rewrite combine_app_same by (eapply Forall2_length; eassumption).
  cbn [combine]. rewrite flat_map_app. cbn [flat_map fst snd].
  rewrite <- !app_assoc, file_content_app.
  rewrite (file_content_app _ (json_events output_dir job d)).
  rewrite file_content_json, file_content_app.
  rewrite (file_content_untouched (job_json_path output_dir job)
             (flat_map _ (combine later ds2))).
  - apply file_content_untouched. apply csv_untouched.
    apply json_path_not_csv.
  - apply json_jobs_untouched.
    apply (combine_fst_forall
             (fun j => job_json_path output_dir j <> job_json_path output_dir job)).
    exact Hlater.
Qed.

Lemma json_file_last_record_witness :
  exists ds1 d ds2 last_d,
    let run := main Demo.healthy ["p:1:first"; "q:7"; "p:1:second"; "p:2"] "D" in
    Forall2 record_of ["p:1:first"] ds1 /\
    record_of "p:1:second" d /\
    Forall2 record_of ["p:2"] ds2 /\
    last (map Some (ds1 ++ d :: ds2)%list) None = Some last_d /\
    file_after (trace run) (job_json_path "D" "p:1:second") = Some [JsonDumps d] /\
    file_after (trace run) (csv_path "D")
    = Some (csv_content Demo.healthy (ds1 ++ d :: ds2)%list last_d).
Proof.
  apply (json_file_last_record Demo.healthy "D"
           ["p:1:first"; "q:7"; "p:1:second"; "p:2"] ["p:1:first"] ["p:2"]).
  - exact healthy_metrics_ok.
  - vm_compute. reflexivity.
  - vm_compute. reflexivity.
  - constructor; [vm_compute; discriminate | constructor].
Defined.

(** The path is made of the project and the number joined by a dash, so
    that jobs of different projects can share it. *)
Example shared_json_path :
  job_project "a-b:1" <> job_project "a:b-1" /\
  job_json_path "D" "a-b:1" = "D/a-b-1.json" /\
  job_json_path "D" "a:b-1" = "D/a-b-1.json".
Proof. repeat split. vm_compute. discriminate. Qed.

(* ================================================================= *)
(** ** Job identifiers *)

Section JobIds.

Lemma differs_eqb (a c : ascii) : differs a c = true -> Ascii.eqb a c = false.
Proof.
  unfold differs. intros H. apply negb_true_iff in H.
  rewrite Ascii.eqb_sym. exact H.
Qed.

(** Splitting at a character cuts off what precedes its first
    occurrence. *)
Lemma split_cons (a : ascii) (p r : string) :
  all_chars (differs a) p = true ->
  PyStr.split (p ++ String a r) (String a EmptyString)
  = p :: PyStr.split r (String a EmptyString).
Proof.
  unfold PyStr.split. induction p as [|c p IH]; intros H.
  - cbn. rewrite Ascii.eqb_refl. reflexivity.
  - cbn in H. apply andb_true_iff in H as [Hc Hp].
    cbn [append PyStr.split_go PyStr.startswith].
    rewrite (differs_eqb a c Hc), (IH Hp). reflexivity.
Qed.

Lemma split_last (a : ascii) (p : string) :
  all_chars (differs a) p = true ->
  PyStr.split p (String a EmptyString) = [p].
Proof. apply split_go_absent. Qed.

Lemma split_length (s sep : string) : (1 <= List.length (PyStr.split s sep))%nat.
Proof.
  pose proof (split_go_nonempty sep s 0) as H. unfold PyStr.split.
  destruct (PyStr.split_go sep s 0); [congruence | cbn; lia].
Qed.

End JobIds.

Section JobBody.

Variable w : World.
Variable output_dir : string.

Lemma append_empty (s : string) : s ++ "" = s.
Proof. induction s as [|c s IH]; [reflexivity | cbn; rewrite IH; reflexivity]. Qed.

(** The iteration of a job whose identifier has the parts [project] and
    [number] and whose log has the snapshot marker. *)
Lemma job_body_parts (job project number label log : string) (vars : Vars) :
  job_project job = project ->
  job_number job = number ->
  job_label job = label ->
  (2 <= List.length (PyStr.split job ":"))%nat ->
  urlopen w (console_url project number) = Body log ->
  PyStr.find log "snapshot=" <> (-1)%Z ->
  job_body w output_dir job vars
  = bind (announce job, Return tt)
      (fun _ => process_job w output_dir project number label log vars).
Proof.
  intros Hp Hn Hl Hlen Hurl Hsnap.
  assert (Hlog : console_of w job = Some log).
  { unfold console_of, job_console_url. rewrite Hp, Hn, Hurl.
    destruct (Nat.ltb_spec (List.length (PyStr.split job ":")) 2); [lia|].
    reflexivity. }
  rewrite (job_body_console w output_dir job log vars Hlog).
  apply Z.eqb_neq in Hsnap. rewrite Hsnap.
  fold (job_label job). rewrite Hp, Hn, Hl. reflexivity.
Qed.

Lemma job_body_malformed (job : string) (vars : Vars) :
  no_colon job = true ->
  job_body w output_dir job vars = (usage_events job, Raise SystemExit).
Proof.
  intros H. unfold job_body. rewrite (split_last ":" job H). reflexivity.
Qed.

End JobBody.

Lemma job_id_split (project number : string) (label : option string) :
  no_colon project = true -> no_colon number = true ->
  (forall l, label = Some l -> no_colon l = true) ->
  PyStr.split (job_id project number label) ":"
  = project :: number :: match label with Some l => [l] | None => [] end.
Proof.
  intros Hp Hn Hl. unfold job_id.
  change (project ++ ":" ++ number ++ match label with
                                      | Some l => ":" ++ l
                                      | None => ""
                                      end)
    with (project ++ String ":" (number ++ match label with
                                           | Some l => String ":" l
                                           | None => ""
                                           end)).
  rewrite (split_cons ":" project _ Hp). f_equal.
  destruct label as [l|].
  - rewrite (split_cons ":" number l Hn), (split_last ":" l (Hl l eq_refl)).
    reflexivity.
  - rewrite append_empty. apply (split_last ":" number Hn).
Qed.

(** X10.  An identifier built from a project, a number and possibly a
    label, none of which holds a colon, is taken apart into exactly these:
    the console log asked for is that of the project and the number, and a
    job with the snapshot marker is processed with them and with the
    label, the empty string when there is none. *)
Theorem job_id_parts (project number : string) (label : option string) :
  no_colon project = true -> no_colon number = true ->
  (forall l, label = Some l -> no_colon l = true) ->
  let job := job_id project number label in
  let label_text := match label with Some l => l | None => "" end in
  job_project job = project /\
  job_number job = number /\
  job_label job = label_text /\
  job_console_url job = console_url project number /\
  (forall output_dir, job_json_path output_dir job
                      = output_dir ++ "/" ++ project ++ "-" ++ number ++ ".json") /\
  (forall (w : World) (output_dir log : string) (vars : Vars),
      urlopen w (console_url project number) = Body log ->
      PyStr.find log "snapshot=" <> (-1)%Z ->
      job_body w output_dir job vars
      = bind (announce job, Return tt)
          (fun _ => process_job w output_dir project number label_text log vars)).
Proof.
  intros Hp Hn Hl job label_text.
  pose proof (job_id_split project number label Hp Hn Hl) as Hsplit.
  fold job in Hsplit.
  assert (Eproject : job_project job = project)
    by (unfold job_project; rewrite Hsplit; reflexivity).
  assert (Enumber : job_number job = number)
    by (unfold job_number; rewrite Hsplit; reflexivity).
  assert (Elabel : job_label job = label_text)
    by (unfold job_label; rewrite Hsplit; destruct label; reflexivity).
  split; [exact Eproject|]. split; [exact Enumber|]. split; [exact Elabel|].
  split; [unfold job_console_url; rewrite Eproject, Enumber; reflexivity|].
  split; [intros output_dir; unfold job_json_path; rewrite Eproject, Enumber;
          reflexivity|].
  intros w output_dir log vars Hurl Hsnap.
  apply (job_body_parts w output_dir); try assumption.
  rewrite Hsplit. destruct label; cbn; lia.
Qed.

Lemma job_id_parts_witness :
  let job := job_id "hera-pl" "60" (Some "'RocksDB low OPS'") in
  let label_text := "'RocksDB low OPS'" in
  job_project job = "hera-pl" /\
  job_number job = "60" /\
  job_label job = label_text /\
  job_console_url job = console_url "hera-pl" "60" /\
  (forall output_dir, job_json_path output_dir job
                      = output_dir ++ "/" ++ "hera-pl" ++ "-" ++ "60" ++ ".json") /\
  (forall (w : World) (output_dir log : string) (vars : Vars),
      urlopen w (console_url "hera-pl" "60") = Body log ->
      PyStr.find log "snapshot=" <> (-1)%Z ->
      job_body w output_dir job vars
      = bind (announce job, Return tt)
          (fun _ => process_job w output_dir "hera-pl" "60" label_text log vars)).
Proof.
  apply (job_id_parts "hera-pl" "60" (Some "'RocksDB low OPS'")).
  - reflexivity.
  - reflexivity.
  - intros l H. inversion H. reflexivity.
Defined.

(** X11.  A label that holds a colon is lost: an identifier with more
    than three parts is processed with its first two parts and the empty
    label, not with the third part and not with the rest. *)
Theorem colon_in_label (project number part rest : string) :
  no_colon project = true -> no_colon number = true -> no_colon part = true ->
  let job := project ++ ":" ++ number ++ ":" ++ part ++ ":" ++ rest in
  job_project job = project /\
  job_number job = number /\
  job_label job = "" /\
  (4 <= List.length (PyStr.split job ":"))%nat /\
  (forall (w : World) (output_dir log : string) (vars : Vars),
      urlopen w (console_url project number) = Body log ->
      PyStr.find log "snapshot=" <> (-1)%Z ->
      job_body w output_dir job vars
      = bind (announce job, Return tt)
          (fun _ => process_job w output_dir project number "" log vars)).
Proof.
  intros Hp Hn Hl job.
  assert (Hsplit : PyStr.split job ":"
                   = project :: number :: part :: PyStr.split rest ":").
  { unfold job.
    change (project ++ ":" ++ number ++ ":" ++ part ++ ":" ++ rest)
      with (project ++ String ":" (number ++ String ":" (part ++ String ":" rest))).
    rewrite (split_cons ":" project _ Hp), (split_cons ":" number _ Hn),
            (split_cons ":" part _ Hl). reflexivity. }
  pose proof (split_length rest ":") as Hrest.
  assert (Hlen : (4 <= List.length (PyStr.split job ":"))%nat)
    by (rewrite Hsplit; cbn [List.length]; lia).
  assert (Eproject : job_project job = project)
    by (unfold job_project; rewrite Hsplit; reflexivity).
  assert (Enumber : job_number job = number)
    by (unfold job_number; rewrite Hsplit; reflexivity).
  assert (Elabel : job_label job = "").
  { unfold job_label.
    destruct (Nat.eqb_spec (List.length (PyStr.split job ":")) 3); [lia|].
    reflexivity. }
  repeat split; try assumption.
  intros w output_dir log vars Hurl Hsnap.
  apply (job_body_parts w output_dir); try assumption. lia.
Qed.

Lemma colon_in_label_witness :
  let job := "p" ++ ":" ++ "2" ++ ":" ++ "run" ++ ":" ++ " low OPS" in
  job_project job = "p" /\
  job_number job = "2" /\
  job_label job = "" /\
  (4 <= List.length (PyStr.split job ":"))%nat /\
  (forall (w : World) (output_dir log : string) (vars : Vars),
      urlopen w (console_url "p" "2") = Body log ->
      PyStr.find log "snapshot=" <> (-1)%Z ->
      job_body w output_dir job vars
      = bind (announce job, Return tt)
          (fun _ => process_job w output_dir "p" "2" "" log vars)).
Proof.
  apply (colon_in_label "p" "2" "run" " low OPS"); reflexivity.
Defined.

(** X12.  An identifier without a colon ends the run: its iteration
    prints the usage and exits without any download.  The jobs before it
    keep their JSON files, the jobs after it are not looked at and
    [data.csv] is not created. *)
Theorem malformed_job_id (w : World) (output_dir : string)
    (before after : list string) (job : string)
    (t1 : list event) (vars1 : Vars) :
  no_colon job = true ->
  main_loop w output_dir before first_vars = (t1, Return vars1) ->
  let run := main w (before ++ job :: after) output_dir in
  job_body w output_dir job vars1 = (usage_events job, Raise SystemExit) /\
  run = ((run_header (before ++ job :: after) output_dir ++ t1
          ++ usage_events job)%list, Raise SystemExit) /\
  fetched (trace run) = fetched t1 /\
  (forall path, file_after (trace run) path = file_after t1 path) /\
  file_after (trace run) (csv_path output_dir) = None.
Proof.
  intros Hjob Hbefore run.
  pose proof (job_body_malformed w output_dir job vars1 Hjob) as Hbody.
  assert (Hr : result (job_body w output_dir job vars1) = Raise SystemExit)
    by (rewrite Hbody; reflexivity).
  assert (Hnone : file_events (trace (job_body w output_dir job vars1)) = [])
    by (rewrite Hbody; reflexivity).
  destruct (stopped_run_files w output_dir before after job t1 vars1 SystemExit
              Hbefore Hr Hnone) as (_ & _ & _ & Hfiles & Hcsv).
  assert (Hrun : run = ((run_header (before ++ job :: after) output_dir ++ t1
                         ++ usage_events job)%list, Raise SystemExit)).
  { unfold run.
    rewrite (main_stops w output_dir before after job t1 vars1 SystemExit Hbefore Hr).
    rewrite Hbody. reflexivity. }
  repeat split; try assumption.
  rewrite Hrun. cbn [trace fst]. rewrite !fetched_app. cbn.
  apply app_nil_r.
Qed.

Lemma malformed_job_id_witness :
  let t1 := trace (main_loop Demo.healthy "D" ["p:1"] first_vars) in
  let vars1 := match result (main_loop Demo.healthy "D" ["p:1"] first_vars) with
               | Return vars => vars
               | Raise _ => first_vars
               end in
  let run := main Demo.healthy (["p:1"] ++ "hera-pl" :: ["p:2"]) "D" in
  job_body Demo.healthy "D" "hera-pl" vars1
  = (usage_events "hera-pl", Raise SystemExit) /\
  run = ((run_header (["p:1"] ++ "hera-pl" :: ["p:2"]) "D" ++ t1
          ++ usage_events "hera-pl")%list, Raise SystemExit) /\
  fetched (trace run) = fetched t1 /\
  (forall path, file_after (trace run) path = file_after t1 path) /\
  file_after (trace run) (csv_path "D") = None.
Proof.
  intros t1 vars1.
  apply (malformed_job_id Demo.healthy "D" ["p:1"] ["p:2"] "hera-pl" t1 vars1);
    vm_compute; reflexivity.
Defined.

(* ================================================================= *)
(** ** What the scraper can return *)

Section Clean.

Import PyStr.

Lemma upto_newline_clean (s : string) : no_newline (upto_newline s) = true.
Proof.
  induction s as [|c s IH]; [reflexivity|]. cbn [upto_newline].
  destruct (Ascii.eqb c newline) eqn:E; [reflexivity|].
  cbn. unfold differs at 1. rewrite E. exact IH.
Qed.

Lemma match_at_clean (lit s m : string) :
  no_newline lit = true -> match_at lit s = Some m -> no_newline m = true.
Proof.
  revert s m. induction lit as [|a lit IH]; intros s m Hlit H.
  - cbn in H. inversion H. apply upto_newline_clean.
  - destruct s as [|b s]; [discriminate|]. cbn in H.
    destruct (Ascii.eqb a b); [|discriminate].
    destruct (match_at lit s) as [m'|] eqn:E; [|discriminate].
    cbn in H. inversion H; subst. cbn in Hlit.
    apply andb_true_iff in Hlit as [Ha Hlit].
    cbn. rewrite Ha. exact (IH s m' Hlit E).
Qed.

Lemma re_search_clean (lit s m : string) :
  no_newline lit = true -> re_search lit s = Some m -> no_newline m = true.
Proof.
  intros Hlit. induction s as [|c s IH]; cbn [re_search].
  - destruct (match_at lit "") as [m'|] eqn:E; [|discriminate].
    intros H. inversion H; subst. exact (match_at_clean lit "" m Hlit E).
  - destruct (match_at lit (String c s)) as [m'|] eqn:E; [|exact IH].
    intros H. inversion H; subst. exact (match_at_clean lit _ m Hlit E).
Qed.

Lemma findall_clean (lit s : string) (skip : nat) (m : string) :
  no_newline lit = true -> In m (findall_go lit s skip) -> no_newline m = true.
Proof.
  intros Hlit. revert skip. induction s as [|c s IH]; intros skip; cbn [findall_go].
  - destruct skip; [|intros []].
    destruct (match_at lit "") as [m'|] eqn:E; [|intros []].
    intros [<- | []]. exact (match_at_clean lit "" m' Hlit E).
  - destruct skip as [|k]; [|apply IH].
    destruct (match_at lit (String c s)) as [m'|] eqn:E; [|apply IH].
    intros [<- | H]; [exact (match_at_clean lit _ m' Hlit E) | exact (IH _ H)].
Qed.

(** The pieces of a split keep what holds of every character. *)
Lemma split_go_all (P : ascii -> bool) (sep s : string) (skip : nat) (x : string) :
  all_chars P s = true -> In x (split_go sep s skip) -> all_chars P x = true.
Proof.
  revert skip x. induction s as [|c s IH]; intros skip x Hs; cbn [split_go].
  - intros [<- | []]. reflexivity.
  - cbn in Hs. apply andb_true_iff in Hs as [Hc Hs].
    destruct skip as [|k]; [|apply IH; exact Hs].
    destruct (startswith sep (String c s)).
    + intros [<- | H]; [reflexivity | exact (IH _ _ Hs H)].
    + destruct (split_go sep s 0) as [|h t] eqn:E.
      * intros [<- | []]. cbn. rewrite Hc. reflexivity.
      * intros [<- | H].
        -- cbn. rewrite Hc. apply (IH 0%nat h Hs). rewrite E. now left.
        -- apply (IH 0%nat x Hs). rewrite E. now right.
Qed.

(** The pieces of a split at a character do not hold it. *)
Lemma split_char_free (a : ascii) (s x : string) :
  In x (split s (String a EmptyString)) -> all_chars (differs a) x = true.
Proof.
  unfold split. revert x. induction s as [|c s IH]; intros x; cbn [split_go].
  - intros [<- | []]. reflexivity.
  - cbn [startswith]. destruct (Ascii.eqb a c) eqn:E.
    + cbn [String.length Nat.pred]. intros [<- | H]; [reflexivity | exact (IH x H)].
    + destruct (split_go (String a "") s 0) as [|h t] eqn:Es.
      * intros [<- | []]. cbn. unfold differs. rewrite Ascii.eqb_sym, E. reflexivity.
      * intros [<- | H].
        -- cbn. unfold differs at 1. rewrite Ascii.eqb_sym, E. cbn.
           apply IH. now left.
        -- apply IH. now right.
Qed.

Lemma lstrip_all (P : ascii -> bool) (s : string) :
  all_chars P s = true -> all_chars P (lstrip s) = true.
Proof.
  induction s as [|c s IH]; [reflexivity|]. intros H. cbn [lstrip].
  destruct (isspace c); [|exact H].
  cbn in H. apply andb_true_iff in H as [_ H]. exact (IH H).
Qed.

Lemma rstrip_all (P : ascii -> bool) (s : string) :
  all_chars P s = true -> all_chars P (rstrip s) = true.
Proof.
  induction s as [|c s IH]; [reflexivity|]. intros H.
  cbn in H. apply andb_true_iff in H as [Hc H]. specialize (IH H).
  cbn [rstrip]. destruct (rstrip s) as [|c' r].
  - destruct (isspace c); [reflexivity | cbn; rewrite Hc; reflexivity].
  - cbn in *. rewrite Hc. exact IH.
Qed.

Lemma strip_all (P : ascii -> bool) (s : string) :
  all_chars P s = true -> all_chars P (strip s) = true.
Proof. intros H. apply lstrip_all, rstrip_all, H. Qed.

Lemma rstrip_idem (s : string) : rstrip (rstrip s) = rstrip s.
Proof.
  induction s as [|c s IH]; [reflexivity|]. cbn [rstrip].
  destruct (rstrip s) as [|c' r] eqn:E.
  - destruct (isspace c) eqn:Ec; [reflexivity|]. cbn. rewrite Ec. reflexivity.
  - cbn [rstrip]. cbn [rstrip] in IH. rewrite IH. reflexivity.
Qed.

Lemma lstrip_idem (s : string) : lstrip (lstrip s) = lstrip s.
Proof.
  induction s as [|c s IH]; [reflexivity|]. cbn [lstrip].
  destruct (isspace c) eqn:E; [exact IH|]. cbn. rewrite E. reflexivity.
Qed.

Lemma rstrip_lstrip (s : string) :
  rstrip s = s -> rstrip (lstrip s) = lstrip s.
Proof.
  induction s as [|c s IH]; [reflexivity|]. intros H. cbn [lstrip].
  destruct (isspace c) eqn:E; [|exact H].
  apply IH. cbn [rstrip] in H. destruct (rstrip s) as [|c' r].
  - rewrite E in H. discriminate.
  - inversion H. reflexivity.
Qed.

(** What [strip] returns has no white space left at either end. *)
Lemma strip_idem (s : string) : strip (strip s) = strip s.
Proof.
  unfold strip. rewrite (rstrip_lstrip (rstrip s) (rstrip_idem s)).
  apply lstrip_idem.
Qed.

Lemma without_dots_free (s : string) :
  all_chars (differs ".") (without_dots s) = true.
Proof.
  induction s as [|c s IH]; [reflexivity|]. cbn [without_dots].
  destruct (Ascii.eqb c ".") eqn:E; [exact IH|].
  cbn. unfold differs at 1. rewrite E. exact IH.
Qed.

Lemma without_dots_all (P : ascii -> bool) (s : string) :
  all_chars P s = true -> all_chars P (without_dots s) = true.
Proof.
  induction s as [|c s IH]; [reflexivity|]. intros H.
  cbn in H. apply andb_true_iff in H as [Hc H]. cbn [without_dots].
  destruct (Ascii.eqb c "."); [exact (IH H)|]. cbn. rewrite Hc. exact (IH H).
Qed.

Lemma index_In {A} (l : list A) (i : nat) (t : list event) (a : A) :
  index l i = (t, Return a) -> In a l.
Proof.
  unfold index. destruct (nth_error l i) eqn:E; [|discriminate].
  intros H. inversion H; subst. eapply nth_error_In. eassumption.
Qed.

Lemma scrape_snapshot_clean (log X : string) :
  result (scrape_snapshot log) = Return X ->
  all_chars (differs "=") X = true /\ no_newline X = true.
Proof.
  unfold scrape_snapshot.
  destruct (re_search "snapshot=" log) as [m|] eqn:E; [|discriminate].
  cbn [group0]. rewrite bind_ret_l.
  destruct (index (split m "=") 1) as [t [x|e]] eqn:Ei; [|discriminate].
  intros H. inversion H; subst. apply index_In in Ei. split.
  - exact (split_char_free "=" m X Ei).
  - apply (split_go_all (differs newline) "=" m 0 X); [|exact Ei].
    exact (re_search_clean "snapshot=" log m eq_refl E).
Qed.

Lemma scrape_bucket_clean (log B : string) :
  result (scrape_bucket log) = Return B ->
  all_chars (differs ":") B = true /\ no_newline B = true /\ strip B = B.
Proof.
  unfold scrape_bucket.
  destruct (re_search "Adding new bucket" log) as [m|] eqn:E; [|discriminate].
  cbn [group0]. rewrite bind_ret_l.
  destruct (index (split m ":") 1) as [t [x|e]] eqn:Ei; [|discriminate].
  cbn. intros H. inversion H; subst. apply index_In in Ei.
  split; [|split].
  - apply strip_all. exact (split_char_free ":" m x Ei).
  - apply strip_all. apply (split_go_all (differs newline) ":" m 0 x); [|exact Ei].
    exact (re_search_clean "Adding new bucket" log m eq_refl E).
  - apply strip_idem.
Qed.

Lemma mapM_Forall {A B} (P : B -> Prop) (f : A -> M B) (l : list A)
    (t : list event) (bs : list B) :
  (forall a t' b, In a l -> f a = (t', Return b) -> P b) ->
  mapM f l = (t, Return bs) -> Forall P bs.
Proof.
  revert t bs. induction l as [|a l IH]; intros t bs Hf H.
  - cbn in H. inversion H. constructor.
  - cbn [mapM] in H. invert_bind H. invert_bind H. inversion H; subst.
    constructor.
    + eapply Hf; [now left | eassumption].
    + eapply IH; [|eassumption]. intros a' t' b' Ha'. apply Hf. now right.
Qed.

Lemma scrape_nodes_clean (log : string) (nodes : list string) :
  result (scrape_nodes log) = Return nodes ->
  Forall (fun node => all_chars (differs ".") node = true /\
                      no_newline node = true) nodes.
Proof.
  unfold scrape_nodes.
  destruct (mapM _ (re_findall "Getting memcached port from" log))
    as [t [ns|e]] eqn:E; [|discriminate].
  intros H. inversion H; subst. revert E. apply mapM_Forall.
  intros m t' b Hm Hb. invert_bind Hb. inversion Hb; subst.
  apply index_In in H0. rewrite replace_dots. split.
  - apply without_dots_free.
  - apply without_dots_all, strip_all.
    apply (split_go_all (differs newline) "from" m 0 a); [|exact H0].
    exact (findall_clean "Getting memcached port from" log 0 m eq_refl Hm).
Qed.

End Clean.

(** X13.  Whatever the log holds, the values the scraper returns obey:
    the snapshot id has no [=] and no newline, the bucket name no colon,
    no newline and no white space at either end, and a node no dot and no
    newline. *)
Theorem scraped_fields_clean (log : string) :
  (forall X, result (scrape_snapshot log) = Return X ->
             all_chars (differs "=") X = true /\ no_newline X = true) /\
  (forall B, result (scrape_bucket log) = Return B ->
             all_chars (differs ":") B = true /\ no_newline B = true /\
             PyStr.strip B = B) /\
  (forall nodes, result (scrape_nodes log) = Return nodes ->
                 Forall (fun node => all_chars (differs ".") node = true /\
                                     no_newline node = true) nodes).
Proof.
  split; [|split].
  - apply scrape_snapshot_clean.
  - apply scrape_bucket_clean.
  - apply scrape_nodes_clean.
Qed.

(** X14.  The exceptions of the scraper: the snapshot fails only without
    any [snapshot=] in the log, with [AttributeError]; the nodes never
    fail; the bucket fails with [AttributeError] without any
    [Adding new bucket] in the log and with [IndexError] when the first
    such line has no colon, and in no other way. *)
Theorem scraper_errors (log : string) :
  (PyStr.find log "snapshot=" = (-1)%Z ->
   scrape_snapshot log = raise AttributeError) /\
  (PyStr.find log "snapshot=" <> (-1)%Z ->
   exists snapshot, scrape_snapshot log = ret snapshot) /\
  (exists node_list, scrape_nodes log = ret node_list) /\
  (PyStr.find log "Adding new bucket" = (-1)%Z ->
   scrape_bucket log = raise AttributeError) /\
  (forall line, PyStr.re_search "Adding new bucket" log = Some line ->
                all_chars (differs ":") line = true ->
                scrape_bucket log = raise IndexError) /\
  (forall e, result (scrape_bucket log) = Raise e ->
             e = AttributeError \/ e = IndexError).
Proof.
  split; [|split; [|split; [|split; [|split]]]].
  - intros H. apply find_re_search in H. unfold scrape_snapshot. rewrite H.
    reflexivity.
  - apply scrape_snapshot_total.
  - apply scrape_nodes_total.
  - intros H. apply find_re_search in H. unfold scrape_bucket. rewrite H.
    reflexivity.
  - intros line Hline Hcolon. unfold scrape_bucket. rewrite Hline.
    cbn [group0]. rewrite bind_ret_l, (split_last ":" line Hcolon). reflexivity.
  - unfold scrape_bucket.
    destruct (PyStr.re_search "Adding new bucket" log) as [line|];
      [|intros e H; inversion H; now left].
    cbn [group0]. rewrite bind_ret_l. unfold index.
    destruct (nth_error (PyStr.split line ":") 1); intros e H; inversion H.
    now right.
Qed.

Section Cut.

Import PyStr.

Lemma upto_newline_suffix (l suffix : string) :
  no_newline l = true ->
  suffix = "" \/ (exists r, suffix = String newline r) ->
  upto_newline (l ++ suffix) = l.
Proof.
  intros Hl [-> | [r ->]].
  - rewrite append_empty. apply upto_newline_last, Hl.
  - apply upto_newline_line, Hl.
Qed.

Lemma no_newline_app (a b : string) :
  no_newline (a ++ b) = (no_newline a && no_newline b)%bool.
Proof. apply all_chars_app. Qed.

(** The first match of a marker, after a text in which the marker does not
    occur earlier: the marker and the rest of its line. *)
Lemma re_search_first (marker pre l suffix : string) :
  find (pre ++ marker) marker = Z.of_nat (String.length pre) ->
  no_newline l = true ->
  suffix = "" \/ (exists r, suffix = String newline r) ->
  re_search marker (pre ++ marker ++ l ++ suffix) = Some (marker ++ l).
Proof.
  intros Hpre Hl Hs.
  rewrite (re_search_at marker pre (l ++ suffix) 0 Hpre),
          (upto_newline_suffix l suffix Hl Hs).
  reflexivity.
Qed.

End Cut.

(** X15.  The values are cut at the next separator.  Let the log hold
    [snapshot=] for the first time after the text [pre] (whatever [pre] is:
    earlier lines, a time stamp, the start of a URL): the script keeps what
    follows up to the next [=] or the end of the line, white space
    included.  Let it hold [Adding new bucket] for the first time after
    [pre]: the script keeps what follows the colon up to the next colon or
    the end of the line, without the white space around it. *)
Theorem values_cut_at_separator (pre X B tail suffix : string) :
  all_chars (differs "=") X = true -> no_newline X = true ->
  all_chars (differs ":") B = true -> no_newline B = true ->
  no_newline tail = true ->
  suffix = "" \/ (exists r, suffix = String PyStr.newline r) ->
  (PyStr.find (pre ++ "snapshot=") "snapshot=" = Z.of_nat (String.length pre) ->
   scrape_snapshot (pre ++ "snapshot=" ++ X ++ suffix) = ret X /\
   scrape_snapshot (pre ++ "snapshot=" ++ (X ++ "=" ++ tail) ++ suffix) = ret X) /\
  (PyStr.find (pre ++ "Adding new bucket") "Adding new bucket"
   = Z.of_nat (String.length pre) ->
   scrape_bucket (pre ++ "Adding new bucket" ++ (":" ++ B) ++ suffix)
   = ret (PyStr.strip B) /\
   scrape_bucket (pre ++ "Adding new bucket" ++ (":" ++ B ++ ":" ++ tail) ++ suffix)
   = ret (PyStr.strip B)).
Proof.
  intros HX HXn HB HBn Htail Hsuffix.
  assert (Hmarker : all_chars (differs "=") "snapshot" = true) by reflexivity.
  assert (Hbucket : all_chars (differs ":") "Adding new bucket" = true)
    by reflexivity.
  split; intros Hpre; split.
  - unfold scrape_snapshot.
    rewrite (re_search_first "snapshot=" pre X suffix Hpre HXn Hsuffix).
    cbn [group0]. rewrite bind_ret_l.
    change ("snapshot=" ++ X) with ("snapshot" ++ String "=" X).
    rewrite (split_cons "=" "snapshot" X Hmarker), (split_last "=" X HX).
    reflexivity.
  - unfold scrape_snapshot.
    rewrite (re_search_first "snapshot=" pre (X ++ "=" ++ tail) suffix Hpre)
      by (try assumption; rewrite no_newline_app, HXn; exact Htail).
    cbn [group0]. rewrite bind_ret_l.
    change ("snapshot=" ++ X ++ "=" ++ tail)
      with ("snapshot" ++ String "=" (X ++ String "=" tail)).
    rewrite (split_cons "=" "snapshot" _ Hmarker), (split_cons "=" X tail HX).
    reflexivity.
  - unfold scrape_bucket.
    rewrite (re_search_first "Adding new bucket" pre (":" ++ B) suffix Hpre)
      by (try assumption; exact HBn).
    cbn [group0]. rewrite bind_ret_l.
    change ("Adding new bucket" ++ ":" ++ B)
      with ("Adding new bucket" ++ String ":" B).
    rewrite (split_cons ":" "Adding new bucket" B Hbucket), (split_last ":" B HB).
    reflexivity.
  - unfold scrape_bucket.
    rewrite (re_search_first "Adding new bucket" pre (":" ++ B ++ ":" ++ tail)
               suffix Hpre)
      by (try assumption;
          change (":" ++ B ++ ":" ++ tail) with (String ":" (B ++ String ":" tail));
          cbn; rewrite no_newline_app, HBn; exact Htail).
    cbn [group0]. rewrite bind_ret_l.
    change ("Adding new bucket" ++ ":" ++ B ++ ":" ++ tail)
      with ("Adding new bucket" ++ String ":" (B ++ String ":" tail)).
    rewrite (split_cons ":" "Adding new bucket" _ Hbucket),
            (split_cons ":" B tail HB).
    reflexivity.
Qed.

Lemma values_cut_at_separator_witness :
  (scrape_snapshot (Demo.log_start ++ "snapshot=" ++ "hera 60 " ++ "")
   = ret "hera 60 " /\
   scrape_snapshot (Demo.log_start ++ "snapshot="
                    ++ ("hera 60 " ++ "=" ++ "x=1") ++ "")
   = ret "hera 60 ") /\
  (scrape_bucket (Demo.log_start ++ "Adding new bucket"
                  ++ (":" ++ " bucket-1 ") ++ "")
   = ret (PyStr.strip " bucket-1 ") /\
   scrape_bucket (Demo.log_start ++ "Adding new bucket"
                  ++ (":" ++ " bucket-1 " ++ ":" ++ "x=1") ++ "")
   = ret (PyStr.strip " bucket-1 ")).
Proof.
  destruct (values_cut_at_separator Demo.log_start "hera 60 " " bucket-1 " "x=1" "")
    as [Hsnapshot Hbucket]; try reflexivity.
  - left. reflexivity.
  - split; [apply Hsnapshot | apply Hbucket]; reflexivity.
Defined.

(* ================================================================= *)
(** ** Megabytes and two decimals *)

Section Megabytes.

(** The conversion factor is [2^-20], exactly. *)
Lemma factor_exact :
  byteToMBConversionFactor = S754_finite false (2 ^ 52) (-72).
Proof. vm_compute. reflexivity. Qed.

(** Multiplication by [2^-20] of a small multiple of [2^20] is exact. *)
Lemma toMB_normal (s : bool) (q : positive) :
  Zpos q * 2 ^ 20 < 2 ^ 53 ->
  toMB (normal s (pshift q 20)) = normal s q.
Proof.
  intros Hq.
  assert (Hq' : Zpos q < 2 ^ 53) by lia.
  pose proof (digits_small q Hq') as Hdq.
  assert (Hd : Zpos (digits2_pos (pshift q 20)) = Zpos (digits2_pos q) + 20)
    by (apply digits_pshift; lia).
  assert (Hsmall : Zpos (digits2_pos (pshift q 20)) <= 53).
  { apply digits_small. rewrite pshift_Z by lia. exact Hq. }
  unfold toMB. rewrite factor_exact. unfold normal, PyFloat.mul, SFmul.
  rewrite Hd. set (dq := Zpos (digits2_pos q)) in *.
  rewrite xorb_false_r.
  assert (Hm : (pshift (pshift q 20) (53 - (dq + 20)) * 2 ^ 52)%positive
               = pshift q (105 - dq)).
  { apply Pos2Z.inj. rewrite Pos2Z.inj_mul, !pshift_Z by lia.
    change (Zpos (2 ^ 52)) with (2 ^ 52).
    replace (105 - dq) with (20 + (53 - (dq + 20)) + 52) by lia.
    rewrite !Z.pow_add_r by lia. ring. }
  rewrite Hm.
  replace (dq + 20 - 53 + -72) with (0 - (105 - dq)) by lia.
  rewrite round_aux_shifted by (fold dq; lia).
  fold dq. replace (dq + 0 - 53) with (dq - 53) by lia. reflexivity.
Qed.

Lemma toMB_of_Z (q : Z) :
  Z.abs q * 2 ^ 20 < 2 ^ 53 ->
  toMB (PyFloat.of_Z (q * 1048576)) = PyFloat.of_Z q.
Proof.
  intros H. destruct q as [|q|q].
  - reflexivity.
  - cbn [Z.abs] in H.
    replace (Zpos q * 1048576) with (Zpos (pshift q 20))
      by (rewrite pshift_Z by lia; reflexivity).
    rewrite (of_Z_pos (pshift q 20)) by (rewrite pshift_Z by lia; exact H).
    rewrite (of_Z_pos q) by lia. apply toMB_normal, H.
  - cbn [Z.abs] in H.
    replace (Zneg q * 1048576) with (Zneg (pshift q 20))
      by (rewrite <- !Pos2Z.opp_pos, pshift_Z by lia; change (2 ^ 20) with 1048576; lia).
    rewrite (of_Z_neg (pshift q 20)) by (rewrite pshift_Z by lia; exact H).
    rewrite (of_Z_neg q) by lia. apply toMB_normal, H.
Qed.

Lemma round_half_even_exact (q d : Z) :
  0 < d -> PyFloat.round_half_even (q * d) d = q.
Proof.
  intros Hd. unfold PyFloat.round_half_even.
  rewrite Z.div_mul, Z.mod_mul by lia. cbn [Z.mul].
  destruct (Z.compare_spec 0 d); lia.
Qed.

Lemma hundredths_normal (c : positive) :
  Zpos c < 2 ^ 53 ->
  PyFloat.hundredths (pshift c (53 - Zpos (digits2_pos c)))
    (Zpos (digits2_pos c) - 53) = Zpos c * 100.
Proof.
  intros Hc. pose proof (digits_small c Hc) as Hd.
  set (d := Zpos (digits2_pos c)) in *. unfold PyFloat.hundredths.
  rewrite pshift_Z by lia.
  destruct (d - 53) as [|p|p] eqn:E.
  - replace (53 - d) with 0 by lia. cbn [Z.pow]. lia.
  - lia.
  - replace (53 - d) with (Zpos p) by lia.
    replace (Zpos c * 2 ^ Zpos p * 100) with (Zpos c * 100 * 2 ^ Zpos p) by lia.
    apply round_half_even_exact. apply Z.pow_pos_nonneg; lia.
Qed.

Lemma fixed2_integer (s : bool) (n : Z) :
  0 <= n ->
  PyFloat.fixed2 s (n * 100)
  = (if s then "-" else "") ++ PyFloat.digits n ++ ".00".
Proof.
  intros Hn. unfold PyFloat.fixed2. rewrite Z.div_mul, Z.mod_mul by lia.
  reflexivity.
Qed.

Lemma format_normal (s : bool) (c : positive) :
  Zpos c < 2 ^ 53 ->
  fmt (normal s c) = (if s then "-" else "") ++ PyFloat.digits (Zpos c) ++ ".00".
Proof.
  intros Hc. unfold fmt, normal, PyFloat.format_2f.
  rewrite (hundredths_normal c Hc). apply fixed2_integer. lia.
Qed.

Lemma format_of_Z (z : Z) :
  Z.abs z < 2 ^ 53 ->
  fmt (PyFloat.of_Z z)
  = (if (z <? 0)%Z then "-" else "") ++ PyFloat.digits (Z.abs z) ++ ".00".
Proof.
  intros H. destruct z as [|c|c].
  - reflexivity.
  - rewrite (of_Z_pos c) by (cbn in H; lia). apply (format_normal false c).
    cbn in H. lia.
  - rewrite (of_Z_neg c) by (cbn in H; lia). apply (format_normal true c).
    cbn in H. lia.
Qed.

End Megabytes.

(** X16.  The factor of line 100 is [2^-20] exactly, so a number of bytes
    that is a whole number of megabytes is converted without rounding:
    [k * 1048576] bytes are [k] megabytes, for [k] up to [2^33]. *)
Theorem whole_megabytes (k : Z) :
  (Z.abs k * 2 ^ 20 < 2 ^ 53)%Z ->
  toMB (PyFloat.of_Z (k * 1048576)) = PyFloat.of_Z k /\
  fmt (toMB (PyFloat.of_Z (k * 1048576)))
  = (if (k <? 0)%Z then "-" else "") ++ PyFloat.digits (Z.abs k) ++ ".00".
Proof.
  intros H. rewrite (toMB_of_Z k H). split; [reflexivity|].
  apply format_of_Z. lia.
Qed.

Lemma whole_megabytes_witness :
  toMB (PyFloat.of_Z (3 * 1048576)) = PyFloat.of_Z 3 /\
  fmt (toMB (PyFloat.of_Z (3 * 1048576)))
  = (if (3 <? 0)%Z then "-" else "") ++ PyFloat.digits (Z.abs 3) ++ ".00".
Proof. apply (whole_megabytes 3). reflexivity. Defined.

(** X17.  A value that is a whole number below [2^53] in magnitude is
    written with all its digits and [.00]: the two decimals of a record
    never cut or round an integer. *)
Theorem format_integer (z : Z) :
  (Z.abs z < 2 ^ 53)%Z ->
  fmt (PyFloat.of_Z z)
  = (if (z <? 0)%Z then "-" else "") ++ PyFloat.digits (Z.abs z) ++ ".00".
Proof. apply format_of_Z. Qed.

Lemma format_integer_witness :
  fmt (PyFloat.of_Z (-1234567))
  = (if (-1234567 <? 0)%Z then "-" else "")
    ++ PyFloat.digits (Z.abs (-1234567)) ++ ".00".
Proof. apply (format_integer (-1234567)). reflexivity. Defined.

(* ================================================================= *)
(** ** A log without nodes *)

Section NoNodes.

Variable w : World.
Hypothesis Hmetrics : metrics_ok w.

Lemma findall_none (lit s : string) (skip : nat) :
  PyStr.re_search lit s = None -> PyStr.findall_go lit s skip = [].
Proof.
  revert skip. induction s as [|c s IH]; intros skip; cbn.
  - destruct (PyStr.match_at lit ""); [discriminate|]. destruct skip; reflexivity.
  - destruct (PyStr.match_at lit (String c s)); [discriminate|].
    intros H. destruct skip; apply IH, H.
Qed.

Lemma getAverage_host (url : string) :
  PyStr.startswith host url = true ->
  exists x, getAverage w url = (download_events url, Return x).
Proof.
  intros H. destruct (Hmetrics url H) as [s Hs].
  exists (series_mean s). apply getAverage_serves, Hs.
Qed.

Lemma build_data_no_nodes project number label snapshot bucket hasLatency :
  build_data w project number label snapshot bucket [] hasLatency
  = (flat_map download_events (catalog_head snapshot bucket hasLatency),
     Raise ZeroDivisionError).
Proof.
  unfold build_data, catalog_head. cbv zeta.
  destruct (getAverage_host (host ++ "/" ++ "ns_server" ++ snapshot ++ "/ops")
              eq_refl) as [x1 E1].
  destruct (getAverage_host
              ((host ++ "/" ++ "spring_latency" ++ snapshot ++ bucket) ++ "/latency_set")
              eq_refl) as [x2 E2].
  destruct (getAverage_host
              ((host ++ "/" ++ "spring_latency" ++ snapshot ++ bucket) ++ "/latency_get")
              eq_refl) as [x3 E3].
  destruct (getAverage_host
              ((host ++ "/" ++ "ns_server" ++ snapshot ++ bucket)
               ++ "/avg_disk_update_time") eq_refl) as [x4 E4].
  destruct (getAverage_host
              ((host ++ "/" ++ "ns_server" ++ snapshot ++ bucket)
               ++ "/avg_disk_commit_time") eq_refl) as [x5 E5].
  destruct (getAverage_host
              ((host ++ "/" ++ "ns_server" ++ snapshot ++ bucket)
               ++ "/avg_bg_wait_time") eq_refl) as [x6 E6].
  rewrite E1, E4, E5, E6.
  destruct hasLatency; [rewrite E2, E3|]; reflexivity.
Qed.

End NoNodes.

(** X18.  A job whose log has a snapshot and a bucket but no
    [Getting memcached port from] line ends the run: the per-node lists
    are empty and the mean of no URLs divides by zero.  Before that the
    metrics that need no node have been downloaded; no file is written
    for the job. *)
Theorem no_nodes_aborts (w : World) (output_dir job log : string) (vars : Vars)
    (snapshot bucket : string) :
  metrics_ok w ->
  set_order w [] = [] ->
  console_of w job = Some log ->
  PyStr.find log "Getting memcached port from" = (-1)%Z ->
  scrape_snapshot log = ret snapshot ->
  scrape_bucket log = ret bucket ->
  let run := job_body w output_dir job vars in
  let hasLatency := negb (PyStr.find log "spring_latency" =? -1)%Z in
  getAverageFromList w [] true = raise ZeroDivisionError /\
  getAverageFromList w [] false = ret PyFloat.zero /\
  result run = Raise ZeroDivisionError /\
  fetched (trace run)
  = job_console_url job :: catalog_head snapshot bucket hasLatency /\
  file_events (trace run) = [].
Proof.
  intros Hmetrics Hset Hlog Hnodes Hsnapshot Hbucket run hasLatency.
  split; [reflexivity|]. split; [reflexivity|].
  assert (Hfind : (PyStr.find log "snapshot=" =? -1)%Z = false).
  { destruct (Z.eqb_spec (PyStr.find log "snapshot=") (-1)) as [E|]; [|reflexivity].
    apply find_re_search in E. unfold scrape_snapshot in Hsnapshot.
    rewrite E in Hsnapshot. discriminate. }
  assert (Hlist : scrape_nodes log = ret []).
  { unfold scrape_nodes, PyStr.re_findall.
    apply find_re_search in Hnodes. rewrite (findall_none _ _ 0 Hnodes).
    reflexivity. }
  assert (Hrun : run
    = ((announce job
        ++ [Print ("snapshot: " ++ snapshot);
            Print ("nodes: " ++ PyRepr.str_of_set []);
            Print ("bucket: " ++ bucket)]
        ++ flat_map download_events (catalog_head snapshot bucket hasLatency))%list,
       Raise ZeroDivisionError)).
  { unfold run. rewrite (job_body_console w output_dir job log vars Hlog), Hfind.
    unfold process_job. rewrite Hsnapshot, Hlist, Hbucket, !bind_ret_l, Hset.
    fold hasLatency. cbn [print emit bind].
    rewrite (build_data_no_nodes w Hmetrics). reflexivity. }
  rewrite Hrun. cbn [result trace fst snd].
  split; [reflexivity|]. split.
  - unfold announce, catalog_head. cbv zeta.
    destruct hasLatency; reflexivity.
  - unfold announce, catalog_head. cbv zeta.
    destruct hasLatency; reflexivity.
Qed.

Lemma no_nodes_aborts_witness :
  let log := console_log "_s_" "bucket-1" [] in
  let run := job_body Cases.no_nodes "D" "p:1" first_vars in
  let hasLatency := negb (PyStr.find log "spring_latency" =? -1)%Z in
  getAverageFromList Cases.no_nodes [] true = raise ZeroDivisionError /\
  getAverageFromList Cases.no_nodes [] false = ret PyFloat.zero /\
  result run = Raise ZeroDivisionError /\
  fetched (trace run)
  = job_console_url "p:1" :: catalog_head "_s_" "bucket-1" hasLatency /\
  file_events (trace run) = [].
Proof.
  apply (no_nodes_aborts Cases.no_nodes "D" "p:1"
           (console_log "_s_" "bucket-1" []) first_vars "_s_" "bucket-1");
    try (vm_compute; reflexivity).
  intros url H. apply startswith_app in H as [r ->].
  exists example_series. split; [|discriminate].
  exists "[[0,2],[1,4],[2,6]]". repeat split.
Defined.

(* ================================================================= *)
(** ** The servers a run talks to *)

Section Hosts.

Variable w : World.

Ltac known_host :=
  match goal with
  | |- forall url, In url (map _ _) -> _ =>
      let u := fresh "u" in
      let H := fresh "H" in
      let n := fresh "node" in
      intros u H; apply in_map_iff in H as (n & <- & _); reflexivity
  | |- _ => reflexivity
  end.

Lemma build_data_known_hosts project number label snapshot bucket nodes hasLatency :
  avoids foreign
    (build_data w project number label snapshot bucket nodes hasLatency).
Proof.
  unfold build_data. cbv zeta.
  repeat match goal with
  | |- avoids _ (getAverage _ _) => apply avoids_getAverage; known_host
  | |- avoids _ (getMax _ _) => apply avoids_getMax; known_host
  | |- avoids _ (getAverageFromList _ _ _) =>
      apply avoids_getAverageFromList; known_host
  | |- avoids _ (bind _ _) => apply avoids_bind; [|intros ?]
  | |- avoids _ (ret _) => apply avoids_ret
  | |- avoids _ (if ?b then _ else _) => destruct b
  end.
Qed.

Lemma job_body_known_hosts (output_dir job : string) (vars : Vars) :
  avoids foreign (job_body w output_dir job vars).
Proof.
  unfold job_body.
  repeat (apply avoids_bind; [apply avoids_print | intros _]).
  destruct (List.length (PyStr.split job ":") <? 2)%nat.
  - apply avoids_bind; [apply avoids_print | intros _; apply avoids_raise].
  - apply avoids_bind; [apply avoids_downloadData; reflexivity | intros log].
    destruct (PyStr.find log "snapshot=" =? -1)%Z.
    + apply avoids_bind; [apply avoids_print | intros _; apply avoids_ret].
    + unfold process_job.
      destruct (avoids_scrape foreign log) as (Hs & Hn & Hb).
      apply avoids_bind; [exact Hs | intros snapshot].
      apply avoids_bind; [apply avoids_print | intros _].
      apply avoids_bind; [exact Hn | intros node_list].
      apply avoids_bind; [apply avoids_print | intros _].
      apply avoids_bind; [exact Hb | intros bucket].
      apply avoids_bind; [apply avoids_print | intros _].
      apply avoids_bind; [apply build_data_known_hosts | intros d].
      apply avoids_bind; [apply avoids_file; reflexivity | intros _].
      apply avoids_bind; [apply avoids_dumps | intros text].
      apply avoids_silent. reflexivity.
Qed.

Lemma write_csv_known_hosts (output_dir : string) (vars : Vars) :
  avoids foreign (write_csv w output_dir vars).
Proof.
  unfold write_csv. cbv zeta.
  apply avoids_bind; [apply avoids_file; reflexivity | intros _].
  apply avoids_bind;
    [destruct (data vars); [apply avoids_ret | apply avoids_raise] | intros d].
  apply avoids_bind; [apply avoids_file; reflexivity | intros _].
  apply avoids_bind.
  - apply avoids_foldM. intros [] rowdict _. unfold dict_to_list.
    apply avoids_bind.
    + destruct (forallb _ (keys w rowdict)); [apply avoids_ret | apply avoids_raise].
    + intros row. apply avoids_file. reflexivity.
  - intros _. apply avoids_bind; [apply avoids_file; reflexivity | intros _].
    apply avoids_print.
Qed.

End Hosts.

(** X19.  A run downloads from two servers only: every URL it asks for
    is a console log of the Jenkins server or a series of the metrics
    service, whatever the job list and whatever the logs hold. *)
Theorem only_known_hosts (w : World) (job_list : list string)
    (output_dir : string) :
  Forall (fun url =>
            PyStr.startswith "http://perf.jenkins.couchbase.com/job/" url = true \/
            PyStr.startswith host url = true)
         (fetched (trace (main w job_list output_dir))).
Proof.
  assert (H : avoids foreign (main w job_list output_dir)).
  { unfold main.
    apply avoids_bind; [apply avoids_print | intros _].
    apply avoids_bind; [apply avoids_print | intros _].
    apply avoids_bind.
    - apply avoids_foldM. intros vars job _. apply job_body_known_hosts.
    - intros vars. apply write_csv_known_hosts. }
  unfold avoids in H. eapply Forall_impl; [|exact H].
  intros url Hurl. unfold foreign in Hurl. apply negb_false_iff in Hurl.
  apply orb_true_iff in Hurl. exact Hurl.
Qed.

(* ================================================================= *)
(** ** Two decimals *)

Section Decimals.

Lemma two_digits_decimals (n : Z) :
  (0 <= n < 100)%Z -> two_decimals (PyFloat.two_digits n) = true.
Proof.
  intros H.
  assert (Hall : forallb (fun k => two_decimals (PyFloat.two_digits (Z.of_nat k)))
                   (seq 0 100) = true) by (vm_compute; reflexivity).
  rewrite forallb_forall in Hall.
  specialize (Hall (Z.to_nat n)). rewrite Z2Nat.id in Hall by lia.
  apply Hall. apply in_seq. lia.
Qed.

End Decimals.

Lemma fmt_metric_text (x : PyFloat.float) : metric_text (fmt x).
Proof.
  right. exists x. split; [reflexivity|].
  destruct x as [s|s| |s m e]; cbn [PyFloat.is_finite].
  - exists ((if s then "-" else "") ++ "0"), "00". destruct s; split; reflexivity.
  - destruct s; auto.
  - auto.
  - unfold fmt, PyFloat.format_2f, PyFloat.fixed2.
    exists ((if s then "-" else "") ++ PyFloat.digits (PyFloat.hundredths m e / 100)),
           (PyFloat.two_digits (PyFloat.hundredths m e mod 100)).
    split.
    + destruct s; cbn [append]; [f_equal|]; reflexivity.
    + apply two_digits_decimals. apply Z.mod_pos_bound. lia.
Qed.

(** X20.  What line 248 writes.  In the record built on lines 196-241
    every field but [job], [label] and [snapshot] is a metric: ["N/A"] or
    the ['{:.2f}'] text of a double, with exactly two decimals when the
    double is finite, and plain ASCII in every case.  So
    [json.dumps(data)] returns exactly when the job, the label and the
    snapshot are valid UTF-8, and raises [UnicodeDecodeError] otherwise:
    no metric can make the write fail. *)
Theorem record_written (w : World)
    (project number label snapshot bucket : string) (nodes : list string)
    (hasLatency : bool) (d : dict) :
  result (build_data w project number label snapshot bucket nodes hasLatency)
  = Return d ->
  (forall key v, In (key, v) d ->
     key = "job" \/ key = "label" \/ key = "snapshot" \/
     (ascii_only v = true /\ metric_text v)) /\
  dumps d = (if identity_valid project number label snapshot
             then ret (JsonDumps d) else raise UnicodeDecodeError).
Proof.
  intros H.
  destruct (build_data w project number label snapshot bucket nodes hasLatency)
    as [t o] eqn:E.
  cbn [result snd] in H. subst o.
  split; [|exact (build_data_dumps w _ _ _ _ _ _ _ _ _ E)].
  assert (Hlatency : forall url tl v,
    (if hasLatency then x <- getAverage w url ;; ret (fmt x) else ret "N/A")
    = (tl, Return v) -> ascii_only v = true /\ metric_text v).
  { intros url tl v Hv. apply latency_value_inv in Hv. destruct hasLatency.
    - destruct Hv as (x & _ & ->). split; [apply fmt_ascii | apply fmt_metric_text].
    - subst v. split; [reflexivity | now left]. }
  unfold build_data in E.
  invert_bind E. invert_bind E.
  apply Hlatency in H0. invert_bind E.
  apply Hlatency in H1.
  do 12 invert_bind E.
  inversion E; subst d. clear E.
  intros key v Hin. cbn [In] in Hin.
  repeat (destruct Hin as [Hin|Hin];
          [inversion Hin; subst key v; clear Hin;
           first [ now left | now (right; left) | now (right; right; left)
                 | right; right; right; first
                     [ assumption
                     | split; [apply fmt_ascii | apply fmt_metric_text] ] ]|]).
  contradiction.
Qed.

Lemma record_written_witness :
  let d := match result (build_data Demo.healthy "p" "1" "my label" "_p_1_"
                           "bucket-1" ["1722396100"; "1722396101"] false) with
           | Return d => d
           | Raise _ => []
           end in
  (forall key v, In (key, v) d ->
     key = "job" \/ key = "label" \/ key = "snapshot" \/
     (ascii_only v = true /\ metric_text v)) /\
  dumps d = (if identity_valid "p" "1" "my label" "_p_1_"
             then ret (JsonDumps d) else raise UnicodeDecodeError).
Proof.
  apply (record_written Demo.healthy "p" "1" "my label" "_p_1_" "bucket-1"
           ["1722396100"; "1722396101"] false).
  vm_compute. reflexivity.
Defined.

(* ================================================================= *)
(** ** What the fields of a record are *)

Section Fields.

Variable w : World.

Lemma bind_result_inv {A B} (m : M A) (f : A -> M B) (b : B) :
  result (bind m f) = Return b ->
  exists a, result m = Return a /\ result (f a) = Return b.
Proof.
  rewrite result_bind. destruct (result m) as [a|e]; [|discriminate].
  intros H. exists a. split; [reflexivity | exact H].
Qed.

Lemma getAverage_mean (url : string) (x : PyFloat.float) (s : series) :
  result (getAverage w url) = Return x -> serves_some w url s ->
  x = series_mean s.
Proof.
  intros Hx Hs. rewrite (getAverage_serves w url s Hs) in Hx.
  inversion Hx. reflexivity.
Qed.

Lemma getMax_maximum (url : string) (x : PyFloat.float) (s : series) :
  result (getMax w url) = Return x -> serves w url s ->
  x = fold_left max_step (values s) PyFloat.zero.
Proof.
  intros Hx (text & Hurl & Hjson & Hs).
  rewrite (getMax_series w url text s Hurl Hjson Hs) in Hx.
  inversion Hx. reflexivity.
Qed.

Lemma getAverageFromList_sum (urls : list string) (x : PyFloat.float)
    (ss : list series) :
  result (getAverageFromList w urls false) = Return x ->
  Forall2 (serves_some w) urls ss ->
  x = float_sum (map series_mean ss).
Proof.
  unfold getAverageFromList. rewrite result_bind. intros Hx Hss.
  rewrite (mean_loop w urls ss _ Hss) in Hx. inversion Hx. reflexivity.
Qed.

Lemma getAverageFromList_mean (urls : list string) (x : PyFloat.float)
    (ss : list series) :
  result (getAverageFromList w urls true) = Return x ->
  Forall2 (serves_some w) urls ss ->
  x = float_mean (map series_mean ss).
Proof.
  unfold getAverageFromList. rewrite result_bind. intros Hx Hss.
  rewrite (mean_loop w urls ss _ Hss) in Hx. cbn [result snd] in Hx.
  unfold truediv in Hx.
  destruct (Z.of_nat (List.length urls) =? 0)%Z; [discriminate|].
  inversion Hx. unfold float_mean, float_sum. rewrite length_map.
  rewrite (Forall2_length Hss). reflexivity.
Qed.

End Fields.

(** X21.  What the metric fields of a record are, when the series are
    served: [ops] and the three [avg_*] fields are the means of their
    series; [couch_total_disk_size] and [mem_used] are means converted to
    megabytes and [max couch_total_disk_size] is the maximum of the same
    series as the mean, converted too; [data_rps], [data_wps] and
    [memcached_cpu] are the means over the nodes of the per-node means,
    [data_rbps] and [data_wbps] the same in megabytes, and
    [memcached_rss] is the sum over the nodes of the per-node means, in
    megabytes. *)
Theorem record_fields (w : World)
    (project number label snapshot bucket : string) (nodes : list string)
    (hasLatency : bool) (d : dict) :
  result (build_data w project number label snapshot bucket nodes hasLatency)
  = Return d ->
  fields_explained w snapshot bucket nodes d.
Proof.
  unfold build_data, fields_explained. cbv zeta. intros H.
  apply bind_result_inv in H as (v_ops & Hops & H).
  apply bind_result_inv in H as (v_latency_set & _ & H).
  apply bind_result_inv in H as (v_latency_get & _ & H).
  apply bind_result_inv in H as (v_update & Hupdate & H).
  apply bind_result_inv in H as (v_commit & Hcommit & H).
  apply bind_result_inv in H as (v_bg_wait & Hbg_wait & H).
  apply bind_result_inv in H as (v_rps & Hrps & H).
  apply bind_result_inv in H as (v_wps & Hwps & H).
  apply bind_result_inv in H as (v_rbps & Hrbps & H).
  apply bind_result_inv in H as (v_wbps & Hwbps & H).
  apply bind_result_inv in H as (v_disk & Hdisk & H).
  apply bind_result_inv in H as (v_max_disk & Hmax_disk & H).
  apply bind_result_inv in H as (v_mem_used & Hmem_used & H).
  apply bind_result_inv in H as (v_rss & Hrss & H).
  apply bind_result_inv in H as (v_cpu & Hcpu & H).
  inversion H as [Hd]. clear H. unfold field.
  repeat split.
  - intros s Hs. rewrite (getAverage_mean w _ _ s Hops Hs). reflexivity.
  - intros s Hs. rewrite (getAverage_mean w _ _ s Hupdate Hs). reflexivity.
  - intros s Hs. rewrite (getAverage_mean w _ _ s Hcommit Hs). reflexivity.
  - intros s Hs. rewrite (getAverage_mean w _ _ s Hbg_wait Hs). reflexivity.
  - intros ss Hss. rewrite (getAverageFromList_mean w _ _ ss Hrps Hss). reflexivity.
  - intros ss Hss. rewrite (getAverageFromList_mean w _ _ ss Hwps Hss). reflexivity.
  - intros ss Hss. rewrite (getAverageFromList_mean w _ _ ss Hrbps Hss). reflexivity.
  - intros ss Hss. rewrite (getAverageFromList_mean w _ _ ss Hwbps Hss). reflexivity.
  - rewrite (getAverage_mean w _ _ s Hdisk H). reflexivity.
  - rewrite (getMax_maximum w _ _ s Hmax_disk (proj1 H)). reflexivity.
  - intros s Hs. rewrite (getAverage_mean w _ _ s Hmem_used Hs). reflexivity.
  - intros ss Hss. rewrite (getAverageFromList_sum w _ _ ss Hrss Hss). reflexivity.
  - intros ss Hss. rewrite (getAverageFromList_mean w _ _ ss Hcpu Hss). reflexivity.
Qed.

Lemma record_fields_witness :
  fields_explained Demo.healthy "_p_1_" "bucket-1" ["1722396100"; "1722396101"]
    (match result (build_data Demo.healthy "p" "1" "" "_p_1_" "bucket-1"
                     ["1722396100"; "1722396101"] false) with
     | Return d => d
     | Raise _ => []
     end).
Proof.
  apply (record_fields Demo.healthy "p" "1" "" "_p_1_" "bucket-1"
           ["1722396100"; "1722396101"] false).
  vm_compute. reflexivity.
Defined.

(* ================================================================= *)
(** ** The records the loop collects *)

Section Collected.

Variable w : World.
Variable output_dir : string.

(** An iteration that returns has skipped its job or appended one record
    with the keys of the dict literal. *)
Lemma job_body_returns (job : string) (vars vars' : Vars) (t : list event) :
  job_body w output_dir job vars = (t, Return vars') ->
  vars' = vars \/
  exists d, vars' = {| data_list := (data_list vars ++ [d])%list; data := Some d |}
            /\ map fst d = record_keys.
Proof.
  unfold job_body. cbn [print emit bind].
  destruct (List.length (PyStr.split job ":") <? 2)%nat; [discriminate|].
  destruct (downloadData w _) as [td [log|e]]; cbn [bind]; [|discriminate].
  destruct (PyStr.find log "snapshot=" =? -1)%Z.
  - cbn. intros H. inversion H. now left.
  - destruct (process_job w output_dir _ _ _ log vars) as [tp [v|e]] eqn:Ep;
      [|discriminate].
    intros H. inversion H; subst. right.
    apply process_job_inv in Ep
      as (snapshot & node_list & bucket & tb & d & _ & _ & _ & Eb & -> & _).
    exists d. split; [reflexivity|].
    apply build_data_inv in Eb as [Hkeys _]. exact Hkeys.
Qed.

Lemma last_app_one {A} (l : list A) (a d0 : A) : last (l ++ [a]) d0 = a.
Proof. apply last_last. Qed.

Lemma vars_ok_step (job : string) (vars vars' : Vars) (t : list event) :
  vars_ok vars ->
  job_body w output_dir job vars = (t, Return vars') -> vars_ok vars'.
Proof.
  intros [Hkeys Hdata] H.
  apply job_body_returns in H as [-> | (d & -> & Hd)]; [split; assumption|].
  split; cbn [data_list data].
  - apply Forall_app. split; [exact Hkeys | repeat constructor; exact Hd].
  - rewrite map_app. cbn [map]. symmetry. apply last_app_one.
Qed.

Lemma main_loop_vars_ok (job_list : list string) (vars vars' : Vars)
    (t : list event) :
  vars_ok vars ->
  main_loop w output_dir job_list vars = (t, Return vars') -> vars_ok vars'.
Proof.
  revert vars t. induction job_list as [|job rest IH]; intros vars t Hok H.
  - cbn in H. inversion H; subst. exact Hok.
  - rewrite main_loop_cons in H. invert_bind H.
    eapply IH; [|eassumption]. eapply vars_ok_step; eassumption.
Qed.

Lemma csv_rows_length (ds : list dict) (last_d : dict) :
  Forall (fun c => match c with
                   | CsvRow cells =>
                       List.length cells = List.length (keys w last_d)
                   | JsonDumps _ => False
                   end) (csv_content w ds last_d).
Proof.
  unfold csv_content. constructor; [reflexivity|].
  apply Forall_forall. intros c Hc. apply in_map_iff in Hc as (d & <- & _).
  unfold csv_row. apply length_map.
Qed.

End Collected.

(** X22.  Whatever the jobs, when the loop completes every record it has
    collected has the same eighteen keys, those of the dict literal in its
    order, and [data] is the last of them.  So the CSV step cannot meet a
    record that does not fit the header: it ends normally, with the header
    and one row of as many cells per record, or with [NameError] when no
    record was collected, and never with the [ValueError] of the CSV
    writer. *)
Theorem records_fit_header (w : World) (output_dir : string)
    (job_list : list string) (t : list event) (vars : Vars) :
  main_loop w output_dir job_list first_vars = (t, Return vars) ->
  let run := main w job_list output_dir in
  Forall (fun d => map fst d = record_keys) (data_list vars) /\
  data vars = last (map Some (data_list vars)) None /\
  (data_list vars = [] -> result run = Raise (NameError "data")) /\
  (forall last_d,
      data vars = Some last_d ->
      result run = Return tt /\
      file_after (trace run) (csv_path output_dir)
      = Some (csv_content w (data_list vars) last_d) /\
      Forall (fun c => match c with
                       | CsvRow cells =>
                           List.length cells = List.length (keys w last_d)
                       | JsonDumps _ => False
                       end) (csv_content w (data_list vars) last_d)).
Proof.
  intros Hloop run.
  assert (Hok : vars_ok vars).
  { eapply main_loop_vars_ok; [|exact Hloop]. split; [constructor | reflexivity]. }
  destruct Hok as [Hkeys Hdata].
  split; [exact Hkeys|]. split; [exact Hdata|]. split.
  - intros Hnil. unfold run, main. fold first_vars. cbn [print emit bind].
    rewrite Hloop. cbn [bind]. unfold write_csv. cbv zeta.
    rewrite Hdata, Hnil. reflexivity.
  - intros last_d Hlast.
    assert (Hlast_keys : map fst last_d = record_keys).
    { rewrite Hlast in Hdata. clear -Hkeys Hdata.
      induction Hkeys as [|d ds Hd _ IH]; [discriminate|].
      cbn [map] in Hdata. rewrite last_cons_default in Hdata.
      destruct ds as [|d' ds'].
      - cbn in Hdata. inversion Hdata. subst. exact Hd.
      - apply IH. cbn [map] in *. rewrite last_cons_default in *.
        rewrite Hdata. clear. revert d'. induction ds' as [|x l IHl]; intros d'.
        + reflexivity.
        + cbn [map]. rewrite !last_cons_default. reflexivity. }
    assert (Hrun : run
      = ((run_header job_list output_dir ++ t
          ++ csv_events w output_dir (data_list vars) last_d
          ++ [Print ("Aggregated data for all jobs written to "
                     ++ csv_path output_dir)])%list, Return tt)).
    { unfold run, main. fold first_vars. cbn [print emit bind].
      rewrite Hloop. cbn [bind].
      replace vars with {| data_list := data_list vars; data := Some last_d |}
        by (destruct vars; cbn in *; congruence).
      cbn [data_list]. rewrite (write_csv_ready w output_dir _ _ Hkeys Hlast_keys).
      reflexivity. }
    rewrite Hrun. cbn [result trace fst snd]. split; [reflexivity|]. split.
    + unfold file_after. cbn [run_header app file_content].
      rewrite file_content_app.
      pose proof (main_loop_spares_csv w output_dir job_list first_vars None) as Hs.
      rewrite Hloop in Hs. cbn [trace fst] in Hs. rewrite Hs.
      rewrite file_content_app, file_content_csv. reflexivity.
    + apply csv_rows_length.
Qed.

Lemma records_fit_header_witness :
  let vars := match result (main_loop Demo.healthy "D" ["p:1"; "q:7"] first_vars) with
              | Return vars => vars
              | Raise _ => first_vars
              end in
  let run := main Demo.healthy ["p:1"; "q:7"] "D" in
  Forall (fun d => map fst d = record_keys) (data_list vars) /\
  data vars = last (map Some (data_list vars)) None /\
  (data_list vars = [] -> result run = Raise (NameError "data")) /\
  (forall last_d,
      data vars = Some last_d ->
      result run = Return tt /\
      file_after (trace run) (csv_path "D")
      = Some (csv_content Demo.healthy (data_list vars) last_d) /\
      Forall (fun c => match c with
                       | CsvRow cells =>
                           List.length cells
                           = List.length (keys Demo.healthy last_d)
                       | JsonDumps _ => False
                       end) (csv_content Demo.healthy (data_list vars) last_d)).
Proof.
  intros vars.
  apply (records_fit_header Demo.healthy "D" ["p:1"; "q:7"]
           (trace (main_loop Demo.healthy "D" ["p:1"; "q:7"] first_vars)) vars).
  vm_compute. reflexivity.
Defined.

(* ================================================================= *)
(** ** The script on concrete inputs *)

Example format_examples :
  PyFloat.format_2f (PyFloat.of_Z 4) = "4.00" /\
  PyFloat.format_2f (PyFloat.div (PyFloat.of_Z 1) (PyFloat.of_Z 8)) = "0.12" /\
  PyFloat.format_2f (PyFloat.div (PyFloat.of_Z 3) (PyFloat.of_Z 8)) = "0.38" /\
  PyFloat.format_2f (PyFloat.div (PyFloat.of_Z (-7)) (PyFloat.of_Z 3)) = "-2.33" /\
  PyFloat.format_2f (PyFloat.div (PyFloat.of_Z 2) (PyFloat.of_Z 3)) = "0.67".
Proof. vm_compute. repeat split. Qed.

(** A raw value of [1048576] bytes is formatted as [1.00] MB. *)
Example one_megabyte : fmt (toMB (PyFloat.of_Z 1048576)) = "1.00".
Proof. vm_compute. reflexivity. Qed.

Example split_examples :
  PyStr.split "p:2:my label" ":" = ["p"; "2"; "my label"] /\
  PyStr.split "p" ":" = ["p"] /\
  PyStr.split "snapshot=a=b" "=" = ["snapshot"; "a"; "b"] /\
  PyStr.split "Getting memcached port from 172.23.96.100" "from"
  = ["Getting memcached port "; " 172.23.96.100"].
Proof. repeat split. Qed.

Example strip_replace_examples :
  PyStr.strip "  bucket-1 " = "bucket-1" /\
  PyStr.replace "172.23.96.100" "." "" = "1722396100" /\
  PyStr.find "a snapshot=1" "snapshot=" = 2%Z /\
  PyStr.find "Finished: ABORTED" "snapshot=" = (-1)%Z.
Proof. repeat split. Qed.

Example repr_examples :
  PyRepr.str_of_list ["p:1"; "p:2:my label"] = "['p:1', 'p:2:my label']" /\
  PyRepr.str_of_set [] = "set([])".
Proof. repeat split. Qed.

(** On the empty series [getMax] returns [0.0] and [getAverage] ends with
    a [ZeroDivisionError]. *)
Example empty_series :
  getMax (Demo.constant "[]") "u" = (download_events "u", Return PyFloat.zero) /\
  getAverage (Demo.constant "[]") "u"
  = (download_events "u", Raise ZeroDivisionError).
Proof. vm_compute. split; reflexivity. Qed.

(** Four memory readings of a few gigabytes: their sum is exact and their
    mean is the exact quotient; a sum the count does not divide is
    divided once, with one rounding. *)
Example integer_mean :
  float_mean (map PyFloat.of_Z [4294967296; 4294967298; 4294967300; 4294967302])
  = PyFloat.of_Z 4294967299 /\
  float_mean (map PyFloat.of_Z [1; 2])
  = PyFloat.div (PyFloat.of_Z 3) (PyFloat.of_Z 2).
Proof.
  split.
  - apply (float_mean_exact [4294967296; 4294967298; 4294967300; 4294967302]);
      vm_compute; try reflexivity. split; reflexivity.
  - apply (float_mean_exact [1; 2]). reflexivity.
Qed.

(** The record of job [p:2], whose log mentions [spring_latency]. *)
Example record_of_p2 :
  file_after (trace (main Demo.healthy ["p:1"; "p:2:my label"] "D")) "D/p-2.json"
  = Some [JsonDumps
            [("job", "p:2"); ("label", "my label"); ("snapshot", "_p_2_");
             ("ops", "4.00"); ("latency_set", "4.00"); ("latency_get", "4.00");
             ("avg_disk_update_time (us)", "4.00");
             ("avg_disk_commit_time (s)", "4.00");
             ("avg_bg_wait_time (us)", "4.00"); ("data_rps", "4.00");
             ("data_wps", "4.00"); ("data_rbps (MB/s)", "0.00");
             ("data_wbps (MB/s)", "0.00"); ("couch_total_disk_size (MB)", "0.00");
             ("max couch_total_disk_size (MB)", "0.00"); ("mem_used (MB)", "0.00");
             ("memcached_rss (MB, all nodes)", "0.00"); ("memcached_cpu", "4.00")]].
Proof. vm_compute. reflexivity. Qed.

(** Without [--output_dir] the script prints its usage and exits. *)
Example missing_argument :
  script Demo.healthy (Some ["p:1"]) None = ([Print usage], Raise SystemExit).
Proof. reflexivity. Qed.

(** A job identifier without a number ends the run the same way, before
    any download. *)
Example malformed_job :
  result (main Demo.healthy ["p"] "D") = Raise SystemExit /\
  fetched (trace (main Demo.healthy ["p"] "D")) = [].
Proof. vm_compute. split; reflexivity. Qed.
